(** * The ingestion, monitoring and retrain pipeline of the Python exporter

    A shallow embedding of [app/python-exporter/main.py] and
    [app/python-exporter/ml_model.py].  The two files are two variants of the
    same pipeline; each is embedded in a module of its own ([Main],
    [MlModel]) over shared definitions of Python values, exceptions, the
    Prometheus registry and the external libraries (requests, statistics,
    scikit-learn), which are an interface ([PyLib]) and a per-cycle
    environment ([world]).

    Conventions.
    - Python floats are binary64 primitive floats.
    - Integer valued counters and gauges of the registry are [Z] (exact
      below 2^53, where the registry's doubles are exact too).
    - A Python call either returns or raises: [result].  Mutations made
      before a raise persist, so stateful code is a function
      [S -> result A * S].
    - Calls that leave the process (alerts, prints, sleeps, fits, dumps) are
      appended to the [trace] of the state, oldest first. *)

From Stdlib Require Import ZArith Floats Uint63 Lia Ascii String.
From stdpp Require Import base option list gmap sets strings countable.

Set Warnings "-inexact-float".

(** ** Exceptions and results *)

Inductive exn_kind :=
| KeyError | IndexError | TypeError | ValueError | AttributeError
| OverflowError | ConnectionError | Timeout | JSONDecodeError.

(** An exception object: its class and [str(e)]. *)
Record exn := Exn { exn_class : exn_kind; exn_str : string }.

Inductive result (A : Type) :=
| Ret (a : A)
| Raise (e : exn).
Arguments Ret {A} a.
Arguments Raise {A} e.

(** Stateful Python code over a state [S]. *)
Definition M (S A : Type) : Type := S -> result A * S.

Definition ret {S A} (a : A) : M S A := fun st => (Ret a, st).

Definition raise {S A} (e : exn) : M S A := fun st => (Raise e, st).

Definition bind {S A B} (c : M S A) (k : A -> M S B) : M S B :=
  fun st =>
    match c st with
    | (Ret a, st') => k a st'
    | (Raise e, st') => (Raise e, st')
    end.

(** A library call whose result does not depend on the state. *)
Definition lift {S A} (r : result A) : M S A := fun st => (r, st).

Definition modify {S} (f : S -> S) : M S unit := fun st => (Ret tt, f st).

Definition gets {S A} (f : S -> A) : M S A := fun st => (Ret (f st), st).

(** [try: body except Exception as e: handler e]. *)
Definition try_except {S A} (body : M S A) (handler : exn -> M S A) : M S A :=
  fun st =>
    match body st with
    | (Ret a, st') => (Ret a, st')
    | (Raise e, st') => handler e st'
    end.

Declare Scope py_scope.
Delimit Scope py_scope with py.
Notation "x <- c ;; k" := (bind c (fun x => k))
  (at level 100, c at next level, right associativity) : py_scope.
Notation "c ;; k" := (bind c (fun _ => k))
  (at level 100, right associativity) : py_scope.
Open Scope py_scope.

(** [for x in xs: body x]; the first raise leaves the loop. *)
Fixpoint for_each {S A} (xs : list A) (body : A -> M S unit) : M S unit :=
  match xs with
  | [] => ret tt
  | x :: xs' => body x ;; for_each xs' body
  end.

(** [[f x for x in xs]] for an [f] that may raise. *)
Fixpoint map_result {A B} (f : A -> result B) (xs : list A) : result (list B) :=
  match xs with
  | [] => Ret []
  | x :: xs' =>
      match f x with
      | Raise e => Raise e
      | Ret b =>
          match map_result f xs' with
          | Raise e => Raise e
          | Ret bs => Ret (b :: bs)
          end
      end
  end.

(** ** Floats *)

(** [a > b]. *)
Definition py_gt (a b : float) : bool := (b <? a)%float.

(** [a < b]. *)
Definition py_lt (a b : float) : bool := (a <? b)%float.
Arguments py_lt : simpl never.

(** The builtin [max(a, b)]: the first argument is kept unless the second
    compares greater. *)
Definition py_max (a b : float) : float := if py_gt b a then b else a.

(** Floats as members of a Python [set]: [0.0 == -0.0] with equal hashes, so
    a set holds one zero. *)
Definition canon (x : float) : float :=
  if (x =? 0)%float then 0%float else x.

Definition sf_enc (x : spec_float) : bool + bool + unit + bool * positive * Z :=
  match x with
  | S754_zero s => inl (inl (inl s))
  | S754_infinity s => inl (inl (inr s))
  | S754_nan => inl (inr tt)
  | S754_finite s m e => inr (s, m, e)
  end.

Definition sf_dec (x : bool + bool + unit + bool * positive * Z) : spec_float :=
  match x with
  | inl (inl (inl s)) => S754_zero s
  | inl (inl (inr s)) => S754_infinity s
  | inl (inr _) => S754_nan
  | inr (s, m, e) => S754_finite s m e
  end.

#[global] Instance spec_float_eq_dec : EqDecision spec_float.
Proof. solve_decision. Defined.

#[global] Instance spec_float_countable : Countable spec_float.
Proof. apply (inj_countable' sf_enc sf_dec). by intros []. Defined.

#[global] Instance float_eq_dec : EqDecision float.
Proof.
  intros x y. destruct (decide (Prim2SF x = Prim2SF y)) as [H|H].
  - left. by apply Prim2SF_inj.
  - right. intros ->. by apply H.
Defined.

#[global] Instance float_countable : Countable float.
Proof. apply (inj_countable' Prim2SF SF2Prim). apply SF2Prim_Prim2SF. Defined.

(** [set(xs)] for a list of floats. *)
Definition py_set (xs : list float) : gset float := list_to_set (canon <$> xs).

(** ** Messages, events and the metrics registry *)

(** An f-string: literal pieces and formatted values. *)
Inductive frag :=
| Lit (s : string)
| Fix2 (x : float)          (* {x:.2f} *)
| Num (n : Z)               (* {n} *)
| SetRepr (s : gset float)  (* {s} for a set *)
| Str (e : exn).            (* {e} for an exception *)

Definition message := list frag.

Inductive event (Label : Type) :=
| EvAlert (m : message)      (* send_slack_alert / send_alert *)
| EvPrint (m : message)      (* print *)
| EvSleep (secs : Z)         (* time.sleep *)
| EvFit (X : list (list float)) (y : list Label)  (* model.fit(X, y) *)
| EvDump (file : message).   (* joblib.dump(model, file) *)
Arguments EvAlert {Label} m.
Arguments EvPrint {Label} m.
Arguments EvSleep {Label} secs.
Arguments EvFit {Label} X y.
Arguments EvDump {Label} file.

(** The alerts, fits and prints of a trace, oldest first. *)
Definition alerts {Label} (tr : list (event Label)) : list message :=
  omap (fun ev => match ev with EvAlert m => Some m | _ => None end) tr.

Definition fits {Label} (tr : list (event Label))
  : list (list (list float) * list Label) :=
  omap (fun ev => match ev with EvFit X y => Some (X, y) | _ => None end) tr.

Definition prints {Label} (tr : list (event Label)) : list message :=
  omap (fun ev => match ev with EvPrint m => Some m | _ => None end) tr.

(** The metrics both files register (same names in both). *)
Record metrics := Metrics {
  model_accuracy : float;
  records_processed_total : Z;
  retrain_count_total : Z;
  distribution_drift_detected : Z;
  feature_added : Z;
  feature_removed : Z;
  datalake_unavailable : Z;
  response_delay_seconds : float }.

(** A fresh registry: every counter and gauge starts at 0. *)
Definition metrics0 : metrics := Metrics 0%float 0 0 0 0 0 0 0%float.

Definition set_model_accuracy (v : float) (r : metrics) : metrics :=
  Metrics v (records_processed_total r) (retrain_count_total r)
    (distribution_drift_detected r) (feature_added r) (feature_removed r)
    (datalake_unavailable r) (response_delay_seconds r).

Definition set_records_processed_total (v : Z) (r : metrics) : metrics :=
  Metrics (model_accuracy r) v (retrain_count_total r)
    (distribution_drift_detected r) (feature_added r) (feature_removed r)
    (datalake_unavailable r) (response_delay_seconds r).

Definition set_retrain_count_total (v : Z) (r : metrics) : metrics :=
  Metrics (model_accuracy r) (records_processed_total r) v
    (distribution_drift_detected r) (feature_added r) (feature_removed r)
    (datalake_unavailable r) (response_delay_seconds r).

Definition set_distribution_drift_detected (v : Z) (r : metrics) : metrics :=
  Metrics (model_accuracy r) (records_processed_total r) (retrain_count_total r)
    v (feature_added r) (feature_removed r)
    (datalake_unavailable r) (response_delay_seconds r).

Definition set_feature_added (v : Z) (r : metrics) : metrics :=
  Metrics (model_accuracy r) (records_processed_total r) (retrain_count_total r)
    (distribution_drift_detected r) v (feature_removed r)
    (datalake_unavailable r) (response_delay_seconds r).

Definition set_feature_removed (v : Z) (r : metrics) : metrics :=
  Metrics (model_accuracy r) (records_processed_total r) (retrain_count_total r)
    (distribution_drift_detected r) (feature_added r) v
    (datalake_unavailable r) (response_delay_seconds r).

Definition set_datalake_unavailable (v : Z) (r : metrics) : metrics :=
  Metrics (model_accuracy r) (records_processed_total r) (retrain_count_total r)
    (distribution_drift_detected r) (feature_added r) (feature_removed r)
    v (response_delay_seconds r).

Definition set_response_delay_seconds (v : float) (r : metrics) : metrics :=
  Metrics (model_accuracy r) (records_processed_total r) (retrain_count_total r)
    (distribution_drift_detected r) (feature_added r) (feature_removed r)
    (datalake_unavailable r) v.

(** ** Records, payloads and the environment of one cycle *)

(** One element of the fetched array: a JSON object whose ['features'] and
    ['label'] members may be missing. *)
Record record (Label : Type) := Record_ {
  rec_features : option (list float);
  rec_label : option Label }.
Arguments Record_ {Label} _ _.
Arguments rec_features {Label} _.
Arguments rec_label {Label} _.

(** What [response.json()] returns: an array of records, or an object whose
    members hold arrays of records. *)
Inductive payload (Label : Type) :=
| JArray (rs : list (record Label))
| JObject (members : gmap string (list (record Label))).
Arguments JArray {Label} rs.
Arguments JObject {Label} members.

Record response (Label : Type) := Response {
  status_code : Z;
  json : result (payload Label) }.
Arguments Response {Label} _ _.
Arguments status_code {Label} _.
Arguments json {Label} _.

(** What one cycle of a loop meets outside the process: the outcome of
    [requests.get], the elapsed time around it, and the state of NumPy's
    global random generator (read by a split without [random_state]). *)
Record world (Label : Type) := World {
  w_get : result (response Label);
  w_delay : float;
  w_entropy : Z }.
Arguments World {Label} _ _ _.
Arguments w_get {Label} _.
Arguments w_delay {Label} _.
Arguments w_entropy {Label} _.

(** ** The libraries the code calls *)

Class PyLib (Label Model : Type) := {
  (** the builtin [float(s)] on a string *)
  py_float : string -> result float;
  (** the builtin [int(v)] on a predicted label *)
  py_int : Label -> result Z;
  (** [statistics.mean] on a non-empty list *)
  statistics_mean : list float -> float;
  (** [statistics.stdev] on a list of two values or more; it raises on
      values it cannot square and sum ([OverflowError] on huge values,
      [AttributeError] or [ValueError] on infinities and NaN, by the
      version of Python) *)
  statistics_stdev : list float -> result float;
  (** [train_test_split(X, y, test_size=.., random_state=..)]: the four
      parts [(X_train, X_test, y_train, y_test)]; a call without
      [random_state] is seeded by the global generator, that is, by the
      environment *)
  train_test_split :
    list (list float) -> list Label -> float -> Z ->
    result (list (list float) * list (list float) * list Label * list Label);
  (** [model.fit(X, y)]: the fitted estimator; input validation comes first,
      so a raise leaves the estimator as it was *)
  model_fit : Model -> list (list float) -> list Label -> result Model;
  (** [model.predict(X)] *)
  model_predict : Model -> list (list float) -> result (list Label);
  (** [accuracy_score(y_true, y_pred)] *)
  accuracy_score : list Label -> list Label -> result float }.

Definition RETRAIN_THRESHOLD : float := 0.8%float.

(** [s.split(sep)] for a one-character separator. *)
Fixpoint split_on (sep : ascii) (s : string) : list string :=
  match s with
  | EmptyString => [EmptyString]
  | String c s' =>
      if Ascii.eqb c sep then EmptyString :: split_on sep s'
      else
        match split_on sep s' with
        | h :: t => String c h :: t
        | [] => [String c EmptyString]
        end
  end.

(** How a loop stands after the cycles it was given. *)
Inductive loop_status :=
| Running               (* still looping *)
| Finished              (* left the [while] by its condition *)
| Crashed (e : exn).    (* left it by an exception nobody caught *)

(** What the body of a [while] iteration does at its end. *)
Inductive flow :=
| Next        (* fell through to the end of the [try] statement *)
| Continue.   (* [continue] *)

(** [r['features']] and [r['label']] on a record. *)
Definition getitem_features {Label} (r : record Label) : result (list float) :=
  match rec_features r with
  | Some f => Ret f
  | None => Raise (Exn KeyError "'features'")
  end.

Definition getitem_label {Label} (r : record Label) : result Label :=
  match rec_label r with
  | Some l => Ret l
  | None => Raise (Exn KeyError "'label'")
  end.

(** The answer of the prediction endpoint: [{"prediction": z}] or
    [{"error": s}]. *)
Inductive reply :=
| Reply_prediction (z : Z)
| Reply_error (s : string).

(** ** main.py *)

Module Main.
Section WithLib.
Context {Label Model : Type} {lib : PyLib Label Model}.

(** The globals of the module, its registry and its trace. *)
Record state := State {
  model : Model;
  X_history : list (list float);
  y_history : list Label;
  previous_features_count : nat;
  registry : metrics;
  trace : list (event Label) }.

(** [joblib.load] gives the first model; the histories are empty. *)
Definition init (m0 : Model) : state := State m0 [] [] 0 metrics0 [].

Definition emit (ev : event Label) : M state unit :=
  modify (fun st =>
    State (model st) (X_history st) (y_history st) (previous_features_count st)
      (registry st) (trace st ++ [ev])).

Definition update_registry (f : metrics -> metrics) : M state unit :=
  modify (fun st =>
    State (model st) (X_history st) (y_history st) (previous_features_count st)
      (f (registry st)) (trace st)).

Definition X_history_append (f : list float) : M state unit :=
  modify (fun st =>
    State (model st) (X_history st ++ [f]) (y_history st)
      (previous_features_count st) (registry st) (trace st)).

Definition y_history_append (l : Label) : M state unit :=
  modify (fun st =>
    State (model st) (X_history st) (y_history st ++ [l])
      (previous_features_count st) (registry st) (trace st)).

Definition set_previous_features_count (n : nat) : M state unit :=
  modify (fun st =>
    State (model st) (X_history st) (y_history st) n (registry st) (trace st)).

Definition set_model (m : Model) : M state unit :=
  modify (fun st =>
    State m (X_history st) (y_history st) (previous_features_count st)
      (registry st) (trace st)).

(** [send_slack_alert]: the webhook is configured and holds no ["XXXX"], so
    the message is posted; whatever the post does is caught and printed
    inside the function, which never raises. *)
Definition send_slack_alert (m : message) : M state unit := emit (EvAlert m).

(** [model.fit(X, y)] on the global estimator. *)
Definition fit (X : list (list float)) (y : list Label) : M state unit :=
  emit (EvFit X y) ;;
  m <- gets model ;;
  m' <- lift (model_fit m X y) ;;
  set_model m'.

(** Lines 82-85, [# 1. Process Records]. *)
Definition process_records (records : list (record Label)) : M state unit :=
  update_registry (fun r =>
    set_records_processed_total
      (records_processed_total r + Z.of_nat (length records)) r) ;;
  for_each records (fun r =>
    f <- lift (getitem_features r) ;;
    X_history_append f ;;
    l <- lift (getitem_label r) ;;
    y_history_append l).

(** Lines 88-96, [# 2. Detect Feature Changes]; [r0] is [records[0]]. *)
Definition detect_feature_changes (r0 : record Label) : M state unit :=
  f0 <- lift (getitem_features r0) ;;
  let current_feat_count := length f0 in
  prev <- gets previous_features_count ;;
  (if decide (prev ≠ 0) then
     if decide (prev < current_feat_count) then
       update_registry (set_feature_added 1) ;;
       send_slack_alert [Lit "Feature Added detected"]
     else if decide (current_feat_count < prev) then
       update_registry (set_feature_removed 1) ;;
       send_slack_alert [Lit "Feature Removed detected"]
     else ret tt
   else ret tt) ;;
  set_previous_features_count current_feat_count.

(** Lines 99-109, [# 3. Retraining Logic]. *)
Definition retraining_logic (entropy : Z) : M state unit :=
  X <- gets X_history ;;
  y <- gets y_history ;;
  if decide (20 < length X) then
    parts <- lift (train_test_split X y 0.2%float entropy) ;;
    let '(X_train, X_test, y_train, y_test) := parts in
    fit X_train y_train ;;
    m <- gets model ;;
    preds <- lift (model_predict m X_test) ;;
    acc <- lift (accuracy_score y_test preds) ;;
    update_registry (set_model_accuracy acc) ;;
    if py_lt acc RETRAIN_THRESHOLD then
      update_registry (fun r =>
        set_retrain_count_total (retrain_count_total r + 1) r) ;;
      send_slack_alert
        [Lit "Accuracy "; Fix2 acc; Lit " < 0.8. Retraining triggered."] ;;
      fit X y
    else ret tt
  else ret tt.

(** The body of the [try] of one iteration (lines 67-109). *)
Definition cycle_body (w : world Label) : M state flow :=
  resp <- lift (w_get w) ;;
  update_registry (set_response_delay_seconds (w_delay w)) ;;
  if decide (status_code resp = 503%Z) then
    update_registry (fun r =>
      set_datalake_unavailable (datalake_unavailable r + 1) r) ;;
    send_slack_alert [Lit "Data Lake 503 - Service Unavailable"] ;;
    emit (EvSleep 30) ;;
    ret Continue
  else
    records <- lift (json resp) ;;
    match records with
    | JArray [] => ret Continue
    | JObject members =>
        (* a dict is false when empty; its [len] counts its keys; iterating
           it yields the keys, and [r['features']] on a string raises *)
        if decide (size members = 0) then ret Continue
        else
          update_registry (fun r =>
            set_records_processed_total
              (records_processed_total r + Z.of_nat (size members)) r) ;;
          raise (Exn TypeError "string indices must be integers")
    | JArray ((r0 :: _) as rs) =>
        process_records rs ;;
        detect_feature_changes r0 ;;
        retraining_logic (w_entropy w) ;;
        ret Next
    end.

(** One iteration of [while True] (lines 66-114). *)
Definition cycle (w : world Label) : M state unit :=
  f <- try_except (cycle_body w)
         (fun e => emit (EvPrint [Lit "Loop Error: "; Str e]) ;; ret Next) ;;
  match f with
  | Continue => ret tt
  | Next => emit (EvSleep 20)
  end.

(** [ingestion_and_retrain_loop] over the cycles the environment provides. *)
Fixpoint ingestion_and_retrain_loop (ws : list (world Label)) (st : state)
  : loop_status * state :=
  match ws with
  | [] => (Running, st)
  | w :: ws' =>
      match cycle w st with
      | (Ret _, st') => ingestion_and_retrain_loop ws' st'
      | (Raise e, st') => (Crashed e, st')
      end
  end.

(** The [/predict] endpoint (lines 126-132); it reads the global model. *)
Definition predict (features : string) : M state reply :=
  try_except
    (feat_list <- lift (map_result py_float (split_on "," features)) ;;
     m <- gets model ;;
     preds <- lift (model_predict m [feat_list]) ;;
     prediction <- match preds with
                   | p :: _ => ret p
                   | [] => raise (Exn IndexError "index 0 is out of bounds")
                   end ;;
     z <- lift (py_int prediction) ;;
     ret (Reply_prediction z))
    (fun e => ret (Reply_error (exn_str e))).

End WithLib.
Arguments state : clear implicits.
End Main.

(** ** ml_model.py *)

Module MlModel.
Section WithLib.
Context {Label Model : Type} {lib : PyLib Label Model}.

Definition MIN_SAMPLES_TO_TRAIN : nat := 4.
Definition TRAIN_CYCLES : Z := 50.
Definition SAVE_INTERVAL : Z := 5.

(** The globals of the module, its registry and its trace. *)
Record state := State {
  model : Model;
  X : list (list float);
  y : list Label;
  retrain_count : Z;
  current_cycle : Z;
  previous_features : gset float;
  feature_stats : gmap nat (float * float);
  registry : metrics;
  trace : list (event Label) }.

(** [m0] is the unfitted [RandomForestClassifier()]. *)
Definition init (m0 : Model) : state := State m0 [] [] 0 0 ∅ ∅ metrics0 [].

Definition emit (ev : event Label) : M state unit :=
  modify (fun st =>
    State (model st) (X st) (y st) (retrain_count st) (current_cycle st)
      (previous_features st) (feature_stats st) (registry st)
      (trace st ++ [ev])).

Definition update_registry (f : metrics -> metrics) : M state unit :=
  modify (fun st =>
    State (model st) (X st) (y st) (retrain_count st) (current_cycle st)
      (previous_features st) (feature_stats st) (f (registry st)) (trace st)).

Definition X_append (f : list float) : M state unit :=
  modify (fun st =>
    State (model st) (X st ++ [f]) (y st) (retrain_count st) (current_cycle st)
      (previous_features st) (feature_stats st) (registry st) (trace st)).

Definition y_append (l : Label) : M state unit :=
  modify (fun st =>
    State (model st) (X st) (y st ++ [l]) (retrain_count st) (current_cycle st)
      (previous_features st) (feature_stats st) (registry st) (trace st)).

Definition set_model (m : Model) : M state unit :=
  modify (fun st =>
    State m (X st) (y st) (retrain_count st) (current_cycle st)
      (previous_features st) (feature_stats st) (registry st) (trace st)).

Definition set_retrain_count (n : Z) : M state unit :=
  modify (fun st =>
    State (model st) (X st) (y st) n (current_cycle st)
      (previous_features st) (feature_stats st) (registry st) (trace st)).

Definition set_current_cycle (n : Z) : M state unit :=
  modify (fun st =>
    State (model st) (X st) (y st) (retrain_count st) n
      (previous_features st) (feature_stats st) (registry st) (trace st)).

Definition set_previous_features (s : gset float) : M state unit :=
  modify (fun st =>
    State (model st) (X st) (y st) (retrain_count st) (current_cycle st)
      s (feature_stats st) (registry st) (trace st)).

Definition set_feature_stats (fs : gmap nat (float * float)) : M state unit :=
  modify (fun st =>
    State (model st) (X st) (y st) (retrain_count st) (current_cycle st)
      (previous_features st) fs (registry st) (trace st)).

(** [send_alert] prints the message behind ["ALERT: "]. *)
Definition send_alert (msg : message) : M state unit := emit (EvAlert msg).

(** Lines 61-64: the list itself, or the ['records'] member of an object
    ([[]] when it has none). *)
Definition records_of (data : payload Label) : list (record Label) :=
  match data with
  | JArray rs => rs
  | JObject members => default [] (members !! "records")
  end.

(** [fetch_records] (lines 47-73): [None], or the fetched list. *)
Definition fetch_records (w : world Label)
  : M state (option (list (record Label))) :=
  try_except
    (response <- lift (w_get w) ;;
     update_registry (set_response_delay_seconds (w_delay w)) ;;
     if decide (status_code response = 503%Z) then
       update_registry (fun r =>
         set_datalake_unavailable (datalake_unavailable r + 1) r) ;;
       send_alert [Lit "Data Lake unavailable! 503 detected"] ;;
       emit (EvPrint [Lit "Data Lake unavailable! 503 detected."]) ;;
       ret None
     else
       data <- lift (json response) ;;
       let records := records_of data in
       update_registry (fun r =>
         set_records_processed_total
           (records_processed_total r + Z.of_nat (length records)) r) ;;
       ret (Some records))
    (fun e =>
       update_registry (fun r =>
         set_datalake_unavailable (datalake_unavailable r + 1) r) ;;
       send_alert [Lit "Error fetching data: "; Str e] ;;
       emit (EvPrint [Lit "Error fetching data:"; Lit " "; Str e]) ;;
       ret None).

(** [records[0]]. *)
Definition first_record (records : list (record Label))
  : result (record Label) :=
  match records with
  | r0 :: _ => Ret r0
  | [] => Raise (Exn IndexError "list index out of range")
  end.

(** [detect_feature_changes] (lines 75-89). *)
Definition detect_feature_changes (records : list (record Label))
  : M state unit :=
  r0 <- lift (first_record records) ;;
  let new_features_set := py_set (default [] (rec_features r0)) in
  prev <- gets previous_features ;;
  let added := new_features_set ∖ prev in
  let removed := prev ∖ new_features_set in
  (if decide (size added ≠ 0) then
     update_registry (fun r =>
       set_feature_added (feature_added r + Z.of_nat (size added)) r) ;;
     send_alert [Lit "New feature(s) added: "; SetRepr added]
   else ret tt) ;;
  (if decide (size removed ≠ 0) then
     update_registry (fun r =>
       set_feature_removed (feature_removed r + Z.of_nat (size removed)) r) ;;
     send_alert [Lit "Feature(s) removed: "; SetRepr removed]
   else ret tt) ;;
  set_previous_features new_features_set.

(** [fs[idx]] on a list. *)
Definition getitem_index (fs : list float) (idx : nat) : result float :=
  match fs !! idx with
  | Some v => Ret v
  | None => Raise (Exn IndexError "list index out of range")
  end.

(** [[r['features'][idx] for r in records]]. *)
Definition column (records : list (record Label)) (idx : nat)
  : result (list float) :=
  map_result
    (fun r =>
       match getitem_features r with
       | Ret fs => getitem_index fs idx
       | Raise e => Raise e
       end)
    records.

(** The test of line 102. *)
Definition drift_exceeds (mean_val old_mean old_std : float) : bool :=
  py_gt (abs (mean_val - old_mean)) (py_max 0.1 (0.2 * old_std)).

(** The [for idx, _ in enumerate(...)] of [detect_drift] (lines 95-104),
    carrying the local [drift_detected]. *)
Fixpoint drift_loop (idxs : list nat) (records : list (record Label))
  (drift_detected : bool) : M state bool :=
  match idxs with
  | [] => ret drift_detected
  | idx :: rest =>
      vals <- lift (column records idx) ;;
      let mean_val := statistics_mean vals in
      std_val <- lift (if decide (1 < length vals) then statistics_stdev vals
                       else Ret 0%float) ;;
      stats <- gets feature_stats ;;
      let drift_detected' :=
        match stats !! idx with
        | Some (old_mean, old_std) =>
            if drift_exceeds mean_val old_mean old_std then true
            else drift_detected
        | None => drift_detected
        end in
      set_feature_stats (<[idx := (mean_val, std_val)]> stats) ;;
      drift_loop rest records drift_detected'
  end.

(** [detect_drift] (lines 91-110). *)
Definition detect_drift (records : list (record Label)) : M state unit :=
  r0 <- lift (first_record records) ;;
  let width := length (default [] (rec_features r0)) in
  drift_detected <- drift_loop (seq 0 width) records false ;;
  if drift_detected then
    update_registry (set_distribution_drift_detected 1) ;;
    send_alert [Lit "Distribution drift detected"]
  else
    update_registry (set_distribution_drift_detected 0).

(** [model.fit(X, y)] on the global estimator. *)
Definition fit (X_ : list (list float)) (y_ : list Label) : M state unit :=
  emit (EvFit X_ y_) ;;
  m <- gets model ;;
  m' <- lift (model_fit m X_ y_) ;;
  set_model m'.

(** [train_model] (lines 112-133); the conversions [np.array(X)] and
    [np.array(y)] are part of the call of the split. *)
Definition train_model : M state float :=
  X_ <- gets X ;;
  y_ <- gets y ;;
  if decide (length X_ < MIN_SAMPLES_TO_TRAIN) then ret 0%float
  else
    parts <- lift (train_test_split X_ y_ 0.3%float 42) ;;
    let '(X_train, X_test, y_train, y_test) := parts in
    fit X_train y_train ;;
    m <- gets model ;;
    preds <- lift (model_predict m X_test) ;;
    acc <- lift (accuracy_score y_test preds) ;;
    update_registry (set_model_accuracy acc) ;;
    rc <- gets retrain_count ;;
    update_registry (set_retrain_count_total rc) ;;
    (if py_lt acc RETRAIN_THRESHOLD then
       set_retrain_count (rc + 1) ;;
       send_alert
         [Lit "Accuracy dropped below "; Fix2 RETRAIN_THRESHOLD;
          Lit ": retraining needed"]
     else ret tt) ;;
    ret acc.

(** Lines 146-151: the records that have both members join the history. *)
Definition append_records (records : list (record Label)) : M state unit :=
  for_each records (fun item =>
    match rec_features item, rec_label item with
    | Some features, Some label => X_append features ;; y_append label
    | _, _ => ret tt
    end).

(** One iteration of the [while] of [ingestion_loop] (lines 141-163). *)
Definition cycle (w : world Label) : M state unit :=
  records <- fetch_records w ;;
  match records with
  | Some ((_ :: _) as rs) =>
      detect_feature_changes rs ;;
      detect_drift rs ;;
      append_records rs ;;
      acc <- train_model ;;
      cc <- gets current_cycle ;;
      emit (EvPrint
        [Lit "Cycle "; Num (cc + 1); Lit "/"; Num TRAIN_CYCLES;
         Lit ": Accuracy="; Fix2 acc; Lit ", Records=";
         Num (Z.of_nat (length rs))]) ;;
      (if decide ((cc + 1) `mod` SAVE_INTERVAL = 0)%Z then
         emit (EvDump [Lit "model_cycle_"; Num (cc + 1); Lit ".joblib"]) ;;
         emit (EvPrint
           [Lit "Model saved: "; Lit "model_cycle_"; Num (cc + 1);
            Lit ".joblib"])
       else ret tt) ;;
      set_current_cycle (cc + 1)
  | _ => ret tt
  end ;;
  emit (EvSleep 10).

(** Lines 165-167: the final save. *)
Definition final_save : M state unit :=
  emit (EvDump [Lit "ml_model_final.joblib"]) ;;
  emit (EvPrint [Lit "Training complete. Final model saved."]).

(** [ingestion_loop] over the cycles the environment provides. *)
Fixpoint ingestion_loop (ws : list (world Label)) (st : state)
  : loop_status * state :=
  if decide (current_cycle st < TRAIN_CYCLES)%Z then
    match ws with
    | [] => (Running, st)
    | w :: ws' =>
        match cycle w st with
        | (Ret _, st') => ingestion_loop ws' st'
        | (Raise e, st') => (Crashed e, st')
        end
    end
  else (Finished, snd (final_save st)).

End WithLib.
Arguments state : clear implicits.
Arguments drift_exceeds : simpl never.
End MlModel.

(** ** A small executable library

    A stand-in for the builtins, [statistics] and scikit-learn, with integer
    labels.  It is used to run the definitions on concrete inputs; no
    general statement below depends on it. *)

Module Toy.

Definition of_Z (z : Z) : float := PrimFloat.of_uint63 (Uint63.of_Z z).

Definition of_nat (n : nat) : float := of_Z (Z.of_nat n).

Definition digit_of (c : ascii) : option Z :=
  let n := Z.of_nat (nat_of_ascii c) in
  if ((48 <=? n) && (n <=? 57))%Z then Some (n - 48)%Z else None.

(** Digits with at most one point: the digits read as an integer, and the
    power of ten to divide it by. *)
Fixpoint parse_digits (s : string) (acc scale : Z) (seen_dot any_digit : bool)
  : option (Z * Z) :=
  match s with
  | EmptyString => if any_digit then Some (acc, scale) else None
  | String c s' =>
      if Ascii.eqb c "." then
        if seen_dot then None else parse_digits s' acc scale true any_digit
      else
        match digit_of c with
        | Some d =>
            parse_digits s' (10 * acc + d)%Z
              (if seen_dot then (10 * scale)%Z else scale) seen_dot true
        | None => None
        end
  end.

(** [float(s)] on plain decimals such as ["680.2"]. *)
Definition float_of_string (s : string) : result float :=
  match parse_digits s 0 1 false false with
  | Some (m, sc) => Ret (of_Z m / of_Z sc)%float
  | None => Raise (Exn ValueError "could not convert string to float")
  end.

Definition fsum (xs : list float) : float :=
  foldl (fun a x => (a + x)%float) 0%float xs.

Definition mean (xs : list float) : float := (fsum xs / of_nat (length xs))%float.

(** A value that is neither an infinity nor a NaN. *)
Definition finite (x : float) : bool := (x - x =? 0)%float.

(** The sample standard deviation; like [statistics.stdev] it gives up on
    values that are not finite and on squares that overflow. *)
Definition stdev (xs : list float) : result float :=
  if forallb finite xs then
    let m := mean xs in
    let variance :=
      (fsum ((fun x => ((x - m) * (x - m))%float) <$> xs)
       / of_nat (length xs - 1))%float in
    if finite variance then Ret (PrimFloat.sqrt variance)
    else Raise (Exn OverflowError "integer division result too large for a float")
  else
    Raise (Exn AttributeError "'float' object has no attribute 'numerator'").

(** An estimator that remembers what it was fitted on and always predicts
    the first label it saw. *)
Record estimator := Estimator {
  fitted_X : list (list float);
  fitted_y : list Z }.

Definition unfitted : estimator := Estimator [] [].

Definition rectangular (X : list (list float)) : bool :=
  match X with
  | [] => false
  | r :: rest => forallb (fun r' => Nat.eqb (length r') (length r)) rest
  end.

Definition fit (m : estimator) (X : list (list float)) (y : list Z)
  : result estimator :=
  if rectangular X && Nat.eqb (length X) (length y) then Ret (Estimator X y)
  else Raise (Exn ValueError "inconsistent training data").

Definition predict (m : estimator) (X : list (list float)) : result (list Z) :=
  match fitted_X m, fitted_y m with
  | r :: _, l :: _ =>
      if forallb (fun r' => Nat.eqb (length r') (length r)) X
      then Ret ((fun _ => l) <$> X)
      else Raise (Exn ValueError "X has a different number of features")
  | _, _ => Raise (Exn ValueError "this estimator is not fitted yet")
  end.

(** The number of test rows: [ceil(test_size * n)]. *)
Definition n_test (n : nat) (test_size : float) : nat :=
  default n
    (find (fun k => (of_nat n * test_size <=? of_nat k)%float) (seq 0 (S n))).

(** No shuffling: the last [ceil(test_size * n)] rows are the test part. *)
Definition split (X : list (list float)) (y : list Z) (test_size : float)
  (seed : Z)
  : result (list (list float) * list (list float) * list Z * list Z) :=
  if Nat.eqb (length X) (length y) then
    let n_train := length X - n_test (length X) test_size in
    Ret (take n_train X, drop n_train X, take n_train y, drop n_train y)
  else Raise (Exn ValueError "inconsistent numbers of samples").

Definition score (y_true y_pred : list Z) : result float :=
  if Nat.eqb (length y_true) (length y_pred) then
    let hits :=
      length (filter (fun p => fst p = snd p) (zip y_true y_pred)) in
    Ret (of_nat hits / of_nat (length y_true))%float
  else Raise (Exn ValueError "inconsistent numbers of samples").

#[global] Instance lib : PyLib Z estimator := {
  py_float := float_of_string;
  py_int := fun l => Ret l;
  statistics_mean := mean;
  statistics_stdev := stdev;
  train_test_split := split;
  model_fit := fit;
  model_predict := predict;
  accuracy_score := score }.

(** A record with both members. *)
Definition rec (fs : list float) (l : Z) : record Z := Record_ (Some fs) (Some l).

(** A 200 response carrying an array of records. *)
Definition ok (rs : list (record Z)) : world Z :=
  World (Ret (Response 200 (Ret (JArray rs)))) 0%float 0.

(** A 503 response; its body is not JSON. *)
Definition unavailable : world Z :=
  World (Ret (Response 503 (Raise (Exn JSONDecodeError "Expecting value"))))
    0.5%float 0.

(** A connection that could not be made. *)
Definition unreachable : world Z :=
  World (Raise (Exn ConnectionError "Connection refused")) 0%float 0.

(** An estimator fitted on two features. *)
Definition two_feature_model : estimator :=
  Estimator [[1%float; 2%float]] [7%Z].

(** States whose history holds [n] two-feature rows, the first labelled 0
    and the others 1. *)
Definition main_with_history (n : nat) : Main.state Z estimator :=
  Main.State unfitted (repeat [1%float; 2%float] n) (0%Z :: repeat 1%Z (n - 1))
    2 metrics0 [].

Definition ml_with_history (n : nat) : MlModel.state Z estimator :=
  MlModel.State unfitted (repeat [1%float; 2%float] n)
    (0%Z :: repeat 1%Z (n - 1)) 0 0 (py_set [1%float; 2%float]) ∅ metrics0 [].

End Toy.

(** ** Vocabulary of the statements *)

(** The events a step appended: the trace after it, without the trace
    before it. *)
Definition new_events {A} (before after : list A) : list A :=
  drop (length before) after.
Arguments new_events : simpl never.

(** How many alerts of a trace satisfy [p]. *)
Definition count_alerts {Label} (p : message -> bool)
  (evs : list (event Label)) : nat :=
  length (List.filter p (alerts evs)).

(** The Added alert of main.py (line 92). *)
Definition is_added_alert_main (m : message) : bool :=
  match m with
  | [Lit s] => String.eqb s "Feature Added detected"
  | _ => false
  end.

(** The Added alert of ml_model.py (line 84), whatever the set it shows. *)
Definition is_added_alert_ml (m : message) : bool :=
  match m with
  | [Lit s; SetRepr _] => String.eqb s "New feature(s) added: "
  | _ => false
  end.

(** A record that has both members. *)
Definition complete {Label} (r : record Label) : Prop :=
  is_Some (rec_features r) /\ is_Some (rec_label r).

(** The feature width of a record ([0] when it has no features). *)
Definition width {Label} (r : record Label) : nat :=
  length (default [] (rec_features r)).

(** A batch whose records all have [w] features. *)
Definition uniform {Label} (w : nat) (rs : list (record Label)) : Prop :=
  Forall (fun r => exists fs, rec_features r = Some fs /\ length fs = w) rs.

(** The values a batch holds at feature index [idx], record by record (0
    where a record has no such index). *)
Definition feature_values {Label} (rs : list (record Label)) (idx : nat)
  : list float :=
  List.map (fun r => nth idx (default [] (rec_features r)) 0%float) rs.

(** The mean and the standard deviation of a batch at index [idx]; a batch
    of one record has the deviation [0.0]. *)
Definition batch_mean {Label Model} {lib : PyLib Label Model}
  (rs : list (record Label)) (idx : nat) : float :=
  statistics_mean (feature_values rs idx).

Definition batch_std {Label Model} {lib : PyLib Label Model}
  (rs : list (record Label)) (idx : nat) : result float :=
  if decide (1 < length rs) then statistics_stdev (feature_values rs idx)
  else Ret 0%float.

(** The pair [detect_drift] stores for index [idx], when the deviation can
    be computed. *)
Definition batch_stat {Label Model} {lib : PyLib Label Model}
  (rs : list (record Label)) (idx : nat) : option (float * float) :=
  match batch_std rs idx with
  | Ret s => Some (batch_mean rs idx, s)
  | Raise _ => None
  end.

(** A batch whose deviation can be computed at every index below [w]. *)
Definition measurable {Label Model} {lib : PyLib Label Model}
  (w : nat) (rs : list (record Label)) : Prop :=
  forall idx, idx < w -> exists s, batch_std rs idx = Ret s.

(** Index [idx] of the batch has a stored statistic and its mean moved by
    more than the threshold of line 102. *)
Definition shifted {Label Model} {lib : PyLib Label Model}
  (stats : gmap nat (float * float)) (rs : list (record Label)) (idx : nat)
  : bool :=
  match stats !! idx with
  | Some (old_mean, old_std) =>
      MlModel.drift_exceeds (batch_mean rs idx) old_mean old_std
  | None => false
  end.

(** A step that leaves the state related to the one it started from. *)
Definition preserves {S A} (R : relation S) (c : M S A) : Prop :=
  forall st, R st (snd (c st)).

(** main.py: the two schema gauges keep their value or become 1. *)
Definition main_latch {Label Model} (st st' : Main.state Label Model) : Prop :=
  (feature_added (Main.registry st') = feature_added (Main.registry st)
   \/ feature_added (Main.registry st') = 1%Z) /\
  (feature_removed (Main.registry st') = feature_removed (Main.registry st)
   \/ feature_removed (Main.registry st') = 1%Z).

(** main.py: the schema detector's state and gauges are untouched, and no
    Added alert is raised. *)
Definition main_detector_frame {Label Model}
  (st st' : Main.state Label Model) : Prop :=
  Main.previous_features_count st' = Main.previous_features_count st /\
  feature_added (Main.registry st') = feature_added (Main.registry st) /\
  feature_removed (Main.registry st') = feature_removed (Main.registry st) /\
  exists evs, Main.trace st' = Main.trace st ++ evs /\
              count_alerts is_added_alert_main evs = 0.

(** ml_model.py: the two schema gauges never decrease. *)
Definition ml_latch {Label Model} (st st' : MlModel.state Label Model) : Prop :=
  (feature_added (MlModel.registry st)
   <= feature_added (MlModel.registry st'))%Z /\
  (feature_removed (MlModel.registry st)
   <= feature_removed (MlModel.registry st'))%Z.

(** ml_model.py: the schema detector's state and gauges are untouched, and
    no Added alert is raised. *)
Definition ml_detector_frame {Label Model}
  (st st' : MlModel.state Label Model) : Prop :=
  MlModel.previous_features st' = MlModel.previous_features st /\
  feature_added (MlModel.registry st') = feature_added (MlModel.registry st) /\
  feature_removed (MlModel.registry st')
    = feature_removed (MlModel.registry st) /\
  exists evs, MlModel.trace st' = MlModel.trace st ++ evs /\
              count_alerts is_added_alert_ml evs = 0.

(** ml_model.py: the drift gauge and the stored statistics are untouched. *)
Definition ml_keeps_drift {Label Model}
  (st st' : MlModel.state Label Model) : Prop :=
  distribution_drift_detected (MlModel.registry st')
    = distribution_drift_detected (MlModel.registry st) /\
  MlModel.feature_stats st' = MlModel.feature_stats st.

(** The state with other stored statistics. *)
Definition with_stats {Label Model} (fs : gmap nat (float * float))
  (st : MlModel.state Label Model) : MlModel.state Label Model :=
  MlModel.State (MlModel.model st) (MlModel.X st) (MlModel.y st)
    (MlModel.retrain_count st) (MlModel.current_cycle st)
    (MlModel.previous_features st) fs (MlModel.registry st)
    (MlModel.trace st).

(** ** C2, C3, C6 and C8 as they are worded *)

(** C2 as the claim words it: over two consecutive non-empty batches the
    drift gauge is 1 after the second exactly when some index with a stored
    statistic has a mean in the second batch that differs from the mean of
    the first batch at that index by more than the threshold. *)
Definition ml_drift_iff_shift_from_previous
  {Label Model} {lib : PyLib Label Model}
  (r1 : record Label) (rs1 : list (record Label))
  (r2 : record Label) (rs2 : list (record Label))
  (st : MlModel.state Label Model) : Prop :=
  let ok b := World (Ret (Response 200 (Ret (JArray b)))) 0%float 0 in
  let st1 := (MlModel.cycle (ok (r1 :: rs1)) st).2 in
  let st2 := (MlModel.cycle (ok (r2 :: rs2)) st1).2 in
  distribution_drift_detected (MlModel.registry st2) = 1%Z <->
  exists idx prev_std,
    idx < width r2 /\ idx < width r1 /\
    is_Some (MlModel.feature_stats st1 !! idx) /\
    batch_std (r1 :: rs1) idx = Ret prev_std /\
    MlModel.drift_exceeds (batch_mean (r2 :: rs2) idx)
      (batch_mean (r1 :: rs1) idx) prev_std = true.

(** C3 as the claim words it, for main.py with its floor of 20: below the
    floor nothing is fitted and the accuracy gauge keeps its value; from the
    floor on a fit is performed. *)
Definition main_retrains_from {Label Model} {lib : PyLib Label Model}
  (floor : nat) (entropy : Z) (st : Main.state Label Model) : Prop :=
  let st' := (Main.retraining_logic entropy st).2 in
  (length (Main.X_history st) < floor ->
   fits (new_events (Main.trace st) (Main.trace st')) = [] /\
   model_accuracy (Main.registry st') = model_accuracy (Main.registry st)) /\
  (floor <= length (Main.X_history st) ->
   fits (new_events (Main.trace st) (Main.trace st')) <> []).

(** C6 as the claim words it: over two consecutive processed batches the
    Added signal is given once in the second cycle when its first record is
    wider than the first record of the batch before, and not otherwise. *)
Definition main_added_iff_wider {Label Model} {lib : PyLib Label Model}
  (r1 : record Label) (rs1 : list (record Label))
  (r2 : record Label) (rs2 : list (record Label))
  (st : Main.state Label Model) : Prop :=
  let ok b := World (Ret (Response 200 (Ret (JArray b)))) 0%float 0 in
  let st1 := (Main.cycle (ok (r1 :: rs1)) st).2 in
  let st2 := (Main.cycle (ok (r2 :: rs2)) st1).2 in
  count_alerts is_added_alert_main
    (new_events (Main.trace st1) (Main.trace st2))
  = if bool_decide (width r1 < width r2) then 1 else 0.

(** C8 as the claim words it, for ml_model.py: a failed fetch raises no
    alert, leaves the unavailable counter alone and does not advance the
    cycle counter. *)
Definition ml_failure_logged_only {Label Model} {lib : PyLib Label Model}
  (w : world Label) (st : MlModel.state Label Model) : Prop :=
  let st' := (MlModel.cycle w st).2 in
  alerts (new_events (MlModel.trace st) (MlModel.trace st')) = [] /\
  datalake_unavailable (MlModel.registry st')
    = datalake_unavailable (MlModel.registry st) /\
  MlModel.current_cycle st' = MlModel.current_cycle st.

(** ** main.py, [send_slack_alert] in full

    The body of the function (lines 37-60) over the webhook it is configured
    with and over what [requests.post] does.  In the loop above it is the
    call [EvAlert]. *)

Module Slack.

(** What the function does outside the process. *)
Inductive action :=
| Post (url : string) (text : message) (timeout : Z)
    (* requests.post(url, json={"text": text}, timeout=timeout) *)
| Print (m : message).  (* print *)

(** [pat in s] on strings. *)
Fixpoint contains (pat s : string) : bool :=
  if String.prefix pat s then true
  else
    match s with
    | EmptyString => false
    | String _ s' => contains pat s'
    end.

(** The webhook main.py ships with (line 16). *)
Definition SLACK_WEBHOOK : string := "YOUR_SLACK_WEBHOOK_URL_HERE".

(** [send_slack_alert(message)]; [post] is the outcome of [requests.post]:
    the response's status code and text, or the exception it raised. *)
Definition send_slack_alert (webhook : string)
  (post : result (Z * string)) (msg : message) : result unit * list action :=
  if (String.eqb webhook EmptyString || contains "XXXX" webhook)%bool then
    (Ret tt, [Print (Lit "DEBUG ALERT: " :: msg)])
  else
    let payload := Lit "🚨 *MLOps Alert*: " :: msg in
    let sent := Post webhook payload 2 in
    match post with
    | Ret (status, text) =>
        if decide (status ≠ 200%Z) then
          (Ret tt,
           [sent; Print [Lit "Slack Error "; Num status; Lit ": "; Lit text]])
        else (Ret tt, [sent])
    | Raise e =>
        match exn_class e with
        | Timeout =>
            (Ret tt, [sent; Print [Lit "Slack alert failed: Request timed out."]])
        | _ => (Ret tt, [sent; Print [Lit "Slack alert failed: "; Str e]])
        end
    end.

(** The posts among the actions. *)
Definition posts (acts : list action) : list (string * message * Z) :=
  omap (fun a => match a with Post u t s => Some (u, t, s) | _ => None end) acts.

End Slack.

(** ** Vocabulary of the further properties *)

(** The feature rows and the labels a batch holds, in order. *)
Definition features_of {Label} (rs : list (record Label)) : list (list float) :=
  omap rec_features rs.

Definition labels_of {Label} (rs : list (record Label)) : list Label :=
  omap rec_label rs.

(** The records of a batch that have both members, as pairs. *)
Definition pairs_of {Label} (rs : list (record Label))
  : list (list float * Label) :=
  omap (fun r =>
          match rec_features r, rec_label r with
          | Some f, Some l => Some (f, l)
          | _, _ => None
          end) rs.

(** main.py: nothing but the model, the accuracy gauge, the retrain counter
    and the trace changes. *)
Definition main_keeps_ingested {Label Model}
  (st st' : Main.state Label Model) : Prop :=
  Main.X_history st' = Main.X_history st /\
  Main.y_history st' = Main.y_history st /\
  records_processed_total (Main.registry st')
    = records_processed_total (Main.registry st) /\
  datalake_unavailable (Main.registry st')
    = datalake_unavailable (Main.registry st).

(** ml_model.py: the histories grow by the same pairs. *)
Definition ml_history_paired {Label Model}
  (st st' : MlModel.state Label Model) : Prop :=
  exists ps : list (list float * Label),
    MlModel.X st' = MlModel.X st ++ ps.*1 /\
    MlModel.y st' = MlModel.y st ++ ps.*2.

(** ml_model.py: the histories and the two fetch counters are untouched. *)
Definition ml_keeps_ingested {Label Model}
  (st st' : MlModel.state Label Model) : Prop :=
  MlModel.X st' = MlModel.X st /\
  MlModel.y st' = MlModel.y st /\
  records_processed_total (MlModel.registry st')
    = records_processed_total (MlModel.registry st) /\
  datalake_unavailable (MlModel.registry st')
    = datalake_unavailable (MlModel.registry st).

(** The files given to [joblib.dump], oldest first. *)
Definition dumps {Label} (tr : list (event Label)) : list message :=
  omap (fun ev => match ev with EvDump m => Some m | _ => None end) tr.

(** ml_model.py: the cycle counter is untouched and nothing is saved. *)
Definition ml_keeps_counter {Label Model}
  (st st' : MlModel.state Label Model) : Prop :=
  MlModel.current_cycle st' = MlModel.current_cycle st /\
  exists evs, MlModel.trace st' = MlModel.trace st ++ evs /\ dumps evs = [].

(** The file of the periodic save of cycle [k] (line 158), and the files of
    the cycles in [(lo, hi]] that are saved. *)
Definition cycle_file (k : Z) : message :=
  [Lit "model_cycle_"; Num k; Lit ".joblib"].

Definition periodic_saves (lo hi : Z) : list message :=
  cycle_file <$>
    filter (fun k => (k `mod` MlModel.SAVE_INTERVAL = 0)%Z)
      (seqZ (lo + 1) (hi - lo)).

(** A cycle of ml_model.py that fetched a non-empty batch and returned. *)
Definition ml_completed {Label Model} {lib : PyLib Label Model}
  (w : world Label) (st : MlModel.state Label Model) : Prop :=
  (MlModel.cycle w st).1 = Ret tt /\
  exists r0 rs, (MlModel.fetch_records w st).1 = Ret (Some (r0 :: rs)).

(** The Removed alerts of main.py (line 95) and of ml_model.py (line 88). *)
Definition is_removed_alert_main (m : message) : bool :=
  match m with
  | [Lit s] => String.eqb s "Feature Removed detected"
  | _ => false
  end.

Definition is_removed_alert_ml (m : message) : bool :=
  match m with
  | [Lit s; SetRepr _] => String.eqb s "Feature(s) removed: "
  | _ => false
  end.

(** main.py: the histories and the trace are only extended, and the
    counters do not decrease. *)
Definition main_only_grows {Label Model}
  (st st' : Main.state Label Model) : Prop :=
  Main.X_history st `prefix_of` Main.X_history st' /\
  Main.y_history st `prefix_of` Main.y_history st' /\
  Main.trace st `prefix_of` Main.trace st' /\
  (records_processed_total (Main.registry st)
   <= records_processed_total (Main.registry st'))%Z /\
  (datalake_unavailable (Main.registry st)
   <= datalake_unavailable (Main.registry st'))%Z /\
  (retrain_count_total (Main.registry st)
   <= retrain_count_total (Main.registry st'))%Z.

(** ml_model.py: the same, with its two global counters. *)
Definition ml_only_grows {Label Model}
  (st st' : MlModel.state Label Model) : Prop :=
  MlModel.X st `prefix_of` MlModel.X st' /\
  MlModel.y st `prefix_of` MlModel.y st' /\
  MlModel.trace st `prefix_of` MlModel.trace st' /\
  (records_processed_total (MlModel.registry st)
   <= records_processed_total (MlModel.registry st'))%Z /\
  (datalake_unavailable (MlModel.registry st)
   <= datalake_unavailable (MlModel.registry st'))%Z /\
  (MlModel.retrain_count st <= MlModel.retrain_count st')%Z /\
  (MlModel.current_cycle st <= MlModel.current_cycle st')%Z.

(** ml_model.py: the model and the accuracy gauge are untouched and nothing
    is fitted. *)
Definition ml_keeps_model {Label Model}
  (st st' : MlModel.state Label Model) : Prop :=
  MlModel.model st' = MlModel.model st /\
  model_accuracy (MlModel.registry st')
    = model_accuracy (MlModel.registry st) /\
  exists evs, MlModel.trace st' = MlModel.trace st ++ evs /\ fits evs = [].

(** ** More concrete inputs *)

Module Samples.

(** States whose history holds [n] two-feature rows, all labelled 1. *)
Definition main_agreeing (n : nat) : Main.state Z Toy.estimator :=
  Main.State Toy.unfitted (repeat [1%float; 2%float] n) (repeat 1%Z n)
    2 metrics0 [].

Definition ml_agreeing (n : nat) : MlModel.state Z Toy.estimator :=
  MlModel.State Toy.unfitted (repeat [1%float; 2%float] n) (repeat 1%Z n)
    0 0 (py_set [1%float; 2%float]) ∅ metrics0 [].

(** A state of ml_model.py whose history holds four two-feature rows with
    four different labels. *)
Definition ml_distinct_labels : MlModel.state Z Toy.estimator :=
  MlModel.State Toy.unfitted (repeat [1%float; 2%float] 4)
    [0%Z; 1%Z; 2%Z; 3%Z] 0 0 (py_set [1%float; 2%float]) ∅ metrics0 [].

(** A state of main.py whose history holds 24 feature rows and 23 labels,
    as after a batch with a record without label. *)
Definition main_misaligned : Main.state Z Toy.estimator :=
  Main.State Toy.unfitted (repeat [1%float; 2%float] 24) (repeat 1%Z 23)
    2 metrics0 [].

(** A 200 answer whose body is not JSON. *)
Definition garbled : world Z :=
  World (Ret (Response 200 (Raise (Exn JSONDecodeError "Expecting value"))))
    0.25%float 0.

End Samples.

(** * Properties *)

(** ** Floats: a mean that did not move is not a drift *)

Lemma SFsub_same (x y : spec_float) :
  x = y \/ SFeqb x y = true ->
  SFabs (SF64sub x y) = S754_zero false \/ SFabs (SF64sub x y) = S754_nan.
Proof.
  intros [->|H].
  - destruct y as [[]|[]| |s m e]; cbn; auto.
    left. unfold SF64sub, SFsub. rewrite Z.sub_diag. reflexivity.
  - unfold SFeqb in H.
    destruct x as [[]|[]| |[] m e], y as [[]|[]| |[] m' e'];
      cbn in H |- *; auto; try discriminate.
    all: destruct (Z.compare_spec e e'); try discriminate; subst.
    all: destruct (Pos.compare_cont Eq m m') eqn:E; try discriminate.
    all: apply Pos.compare_eq in E; subst.
    all: left; unfold SF64sub, SFsub; rewrite Z.sub_diag; reflexivity.
Qed.

Lemma SFltb_above_tenth (t : spec_float) :
  SFltb (Prim2SF 0.1%float) t = true -> SFltb t (S754_zero false) = false.
Proof.
  vm_compute (Prim2SF 0.1%float).
  destruct t as [[]|[]| |[] m e]; cbn; auto; discriminate.
Qed.

(** Equal means (the same float, or [==] in Python) never pass the test of
    line 102, whatever the old standard deviation, infinities and NaN
    included. *)
Lemma drift_exceeds_same_mean (m om s : float) :
  m = om \/ (m =? om)%float = true ->
  MlModel.drift_exceeds m om s = false.
Proof.
  intros H. unfold MlModel.drift_exceeds, py_gt at 1.
  rewrite FloatAxioms.ltb_spec, FloatAxioms.abs_spec, FloatAxioms.sub_spec.
  assert (Hz : SFabs (SF64sub (Prim2SF m) (Prim2SF om)) = S754_zero false \/
               SFabs (SF64sub (Prim2SF m) (Prim2SF om)) = S754_nan).
  { apply SFsub_same. destruct H as [->|H]; [by left|right].
    by rewrite <- FloatAxioms.eqb_spec. }
  unfold py_max, py_gt. destruct (0.1 <? 0.2 * s)%float eqn:E.
  - rewrite FloatAxioms.ltb_spec in E. destruct Hz as [-> | ->].
    + by apply SFltb_above_tenth.
    + unfold SFltb. by destruct (Prim2SF (0.2 * s)).
  - destruct Hz as [-> | ->]; reflexivity.
Qed.

(** ** Running the monad *)

Lemma bind_ret_eq {S A B} (c : M S A) (k : A -> M S B) st a st1 :
  c st = (Ret a, st1) -> bind c k st = k a st1.
Proof. intros H. unfold bind. by rewrite H. Qed.

Lemma bind_raise_eq {S A B} (c : M S A) (k : A -> M S B) st e st1 :
  c st = (Raise e, st1) -> bind c k st = (Raise e, st1).
Proof. intros H. unfold bind. by rewrite H. Qed.

Lemma count_alerts_app {Label} p (a b : list (event Label)) :
  count_alerts p (a ++ b) = count_alerts p a + count_alerts p b.
Proof.
  unfold count_alerts, alerts. by rewrite omap_app, List.filter_app, length_app.
Qed.

Lemma new_events_app {A} (tr evs : list A) : new_events tr (tr ++ evs) = evs.
Proof. unfold new_events. by rewrite drop_app_length. Qed.

Section Preserves.
Context {S : Type} (R : relation S) `{!PreOrder R}.

Lemma preserves_ret {A} (a : A) : preserves R (ret a).
Proof. intros st. reflexivity. Qed.

Lemma preserves_raise {A} e : preserves R (@raise S A e).
Proof. intros st. reflexivity. Qed.

Lemma preserves_lift {A} (r : result A) : preserves R (lift r).
Proof. intros st. reflexivity. Qed.

Lemma preserves_gets {A} (f : S -> A) : preserves R (gets f).
Proof. intros st. reflexivity. Qed.

Lemma preserves_modify (f : S -> S) :
  (forall st, R st (f st)) -> preserves R (modify f).
Proof. intros H st. apply H. Qed.

Lemma preserves_bind {A B} (c : M S A) (k : A -> M S B) :
  preserves R c -> (forall a, preserves R (k a)) -> preserves R (bind c k).
Proof.
  intros Hc Hk st. unfold bind. specialize (Hc st).
  destruct (c st) as [[a|e] st1]; cbn in *; [|done].
  etrans; [exact Hc|apply Hk].
Qed.

Lemma preserves_try_except {A} (body : M S A) handler :
  preserves R body -> (forall e, preserves R (handler e)) ->
  preserves R (try_except body handler).
Proof.
  intros Hc Hk st. unfold try_except. specialize (Hc st).
  destruct (body st) as [[a|e] st1]; cbn in *; [done|].
  etrans; [exact Hc|apply Hk].
Qed.

Lemma preserves_for_each {A} (xs : list A) (body : A -> M S unit) :
  (forall x, preserves R (body x)) -> preserves R (for_each xs body).
Proof.
  intros Hb. induction xs as [|x xs IH]; cbn.
  - apply preserves_ret.
  - apply preserves_bind; auto.
Qed.

End Preserves.

(** Breaks a step into its primitive calls; [tac] settles the state
    updates. *)
Ltac preserves_go tac :=
  repeat match goal with
    | |- PreOrder _ => apply _
    | |- preserves _ (if ?c then _ else _) => destruct c
    | |- preserves _ (match ?x with _ => _ end) => destruct x
    | |- preserves _ (ret _) => apply preserves_ret
    | |- preserves _ (raise _) => apply preserves_raise
    | |- preserves _ (lift _) => apply preserves_lift
    | |- preserves _ (gets _) => apply preserves_gets
    | |- preserves _ (bind _ _) => apply preserves_bind; [apply _| |intros ?]
    | |- preserves _ (try_except _ _) =>
        apply preserves_try_except; [apply _| |intros ?]
    | |- preserves _ (for_each _ _) =>
        apply preserves_for_each; [apply _|intros ?]
    | |- preserves _ (modify _) => apply preserves_modify; intros ?; tac
    end.


(** ** The relations are preorders *)

#[global] Instance main_latch_preorder {Label Model} :
  PreOrder (@main_latch Label Model).
Proof.
  split.
  - intros st. split; by left.
  - intros a b c [H1 H2] [H3 H4]. split.
    + destruct H3 as [->| ->]; auto.
    + destruct H4 as [->| ->]; auto.
Qed.

#[global] Instance main_detector_frame_preorder {Label Model} :
  PreOrder (@main_detector_frame Label Model).
Proof.
  split.
  - intros st. repeat split; try done. exists []. by rewrite app_nil_r.
  - intros a b c (H1 & H2 & H3 & e1 & H4 & H5) (H6 & H7 & H8 & e2 & H9 & H10).
    repeat split; try congruence.
    exists (e1 ++ e2). rewrite H9, H4, app_assoc, count_alerts_app.
    split; [done|lia].
Qed.

#[global] Instance ml_latch_preorder {Label Model} :
  PreOrder (@ml_latch Label Model).
Proof.
  split.
  - intros st. split; lia.
  - intros a b c [H1 H2] [H3 H4]. split; lia.
Qed.

#[global] Instance ml_detector_frame_preorder {Label Model} :
  PreOrder (@ml_detector_frame Label Model).
Proof.
  split.
  - intros st. repeat split; try done. exists []. by rewrite app_nil_r.
  - intros a b c (H1 & H2 & H3 & e1 & H4 & H5) (H6 & H7 & H8 & e2 & H9 & H10).
    repeat split; try congruence.
    exists (e1 ++ e2). rewrite H9, H4, app_assoc, count_alerts_app.
    split; [done|lia].
Qed.

#[global] Instance ml_keeps_drift_preorder {Label Model} :
  PreOrder (@ml_keeps_drift Label Model).
Proof.
  split.
  - intros st. split; reflexivity.
  - intros a b c [H1 H2] [H3 H4]. split; congruence.
Qed.

(** ** What each step leaves alone *)

Ltac trace_grows :=
  rewrite <- ?app_assoc;
  first [ by (exists []; rewrite app_nil_r)
        | by (eexists; split; [reflexivity|]) ].

Ltac frame_main :=
  unfold main_detector_frame; cbn; repeat split; try done; trace_grows.

Ltac frame_ml :=
  unfold ml_detector_frame; cbn; repeat split; try done; trace_grows.

Ltac latch_main := unfold main_latch; cbn; auto.

Ltac latch_ml := unfold ml_latch; cbn; lia.

Ltac unfold_main :=
  unfold Main.cycle, Main.cycle_body, Main.process_records,
    Main.detect_feature_changes, Main.retraining_logic, Main.fit,
    Main.send_slack_alert, Main.emit, Main.update_registry,
    Main.X_history_append, Main.y_history_append,
    Main.set_previous_features_count, Main.set_model.

Ltac unfold_ml :=
  unfold MlModel.cycle, MlModel.fetch_records, MlModel.detect_feature_changes,
    MlModel.detect_drift, MlModel.append_records, MlModel.train_model,
    MlModel.final_save, MlModel.fit, MlModel.send_alert, MlModel.emit,
    MlModel.update_registry, MlModel.X_append, MlModel.y_append,
    MlModel.set_model, MlModel.set_retrain_count, MlModel.set_current_cycle,
    MlModel.set_previous_features, MlModel.set_feature_stats.

Section Frames.
Context {Label Model : Type} {lib : PyLib Label Model}.

Lemma main_process_records_frame (rs : list (record Label)) :
  preserves main_detector_frame (Main.process_records (Model:=Model) rs).
Proof. unfold_main. preserves_go frame_main. Qed.

Lemma main_retraining_logic_frame (entropy : Z) :
  preserves main_detector_frame (Main.retraining_logic entropy).
Proof. unfold_main. preserves_go frame_main. Qed.

Lemma main_cycle_latch (w : world Label) :
  preserves main_latch (Main.cycle w).
Proof. unfold_main. preserves_go latch_main. Qed.

Lemma ml_drift_loop_frame R `{!PreOrder R} idxs (rs : list (record Label)) b :
  (forall fs (st : MlModel.state Label Model),
     R st (MlModel.State (MlModel.model st) (MlModel.X st) (MlModel.y st)
             (MlModel.retrain_count st) (MlModel.current_cycle st)
             (MlModel.previous_features st) fs (MlModel.registry st)
             (MlModel.trace st))) ->
  preserves R (MlModel.drift_loop idxs rs b).
Proof.
  intros HR. revert b. induction idxs as [|idx rest IH]; intros b; cbn.
  - preserves_go idtac.
  - unfold_ml. preserves_go ltac:(apply HR).
    apply IH.
Qed.

Lemma ml_detect_drift_frame (rs : list (record Label)) :
  preserves ml_detector_frame (MlModel.detect_drift (Model:=Model) rs).
Proof.
  unfold MlModel.detect_drift.
  apply preserves_bind; [apply _|preserves_go idtac|intros r0].
  apply preserves_bind; [apply _| |intros d].
  - apply ml_drift_loop_frame; [apply _|]. intros fs st. frame_ml.
  - unfold_ml. preserves_go frame_ml.
Qed.

Lemma ml_detect_drift_latch (rs : list (record Label)) :
  preserves ml_latch (MlModel.detect_drift (Model:=Model) rs).
Proof.
  unfold MlModel.detect_drift.
  apply preserves_bind; [apply _|preserves_go idtac|intros r0].
  apply preserves_bind; [apply _| |intros d].
  - apply ml_drift_loop_frame; [apply _|]. intros fs st. latch_ml.
  - unfold_ml. preserves_go latch_ml.
Qed.

Lemma ml_append_records_frame (rs : list (record Label)) :
  preserves ml_detector_frame (MlModel.append_records (Model:=Model) rs).
Proof. unfold_ml. preserves_go frame_ml. Qed.

Lemma ml_train_model_frame :
  preserves ml_detector_frame (MlModel.train_model (Label:=Label) (Model:=Model)).
Proof. unfold_ml. preserves_go frame_ml. Qed.

Lemma ml_fetch_records_frame (w : world Label) :
  preserves ml_detector_frame (MlModel.fetch_records (Model:=Model) w).
Proof. unfold_ml. preserves_go frame_ml. Qed.

Lemma ml_fetch_records_latch (w : world Label) :
  preserves ml_latch (MlModel.fetch_records (Model:=Model) w).
Proof. unfold_ml. preserves_go latch_ml. Qed.

Lemma ml_cycle_latch (w : world Label) :
  preserves ml_latch (MlModel.cycle (Model:=Model) w).
Proof.
  unfold MlModel.cycle.
  apply preserves_bind; [apply _|apply ml_fetch_records_latch|intros records].
  apply preserves_bind; [apply _| |intros ?; unfold_ml; preserves_go latch_ml].
  destruct records as [[|r rs]|]; [preserves_go idtac| |preserves_go idtac].
  apply preserves_bind; [apply _| |intros ?].
  { unfold_ml. preserves_go latch_ml. }
  apply preserves_bind; [apply _|apply ml_detect_drift_latch|intros ?].
  unfold_ml. preserves_go latch_ml.
Qed.

End Frames.

(** ** Tactics for running a step *)

Ltac run_m := unfold bind, ret, raise, lift, modify, gets, try_except; cbn.

Ltac split_cases :=
  repeat match goal with
    | |- context [match ?x with _ => _ end] =>
        lazymatch x with
        | context [match _ with _ => _ end] => fail
        | _ => destruct x eqn:?; cbn
        end
    end.

Ltac keeps_drift_ml := unfold ml_keeps_drift; cbn; done.

(** ** The loop of main.py never ends by an exception *)

(** One iteration of main.py's loop returns, whatever the cycle met. *)
Lemma main_cycle_returns {Label Model} {lib : PyLib Label Model}
  (w : world Label) (st : Main.state Label Model) :
  (Main.cycle w st).1 = Ret tt.
Proof.
  unfold Main.cycle, try_except, bind.
  destruct (Main.cycle_body w st) as [[[]|e] st1]; cbn; done.
Qed.

Lemma main_loop_keeps_running {Label Model} {lib : PyLib Label Model}
  (ws : list (world Label)) (st : Main.state Label Model) :
  (Main.ingestion_and_retrain_loop ws st).1 = Running.
Proof.
  revert st. induction ws as [|w ws IH]; intros st; cbn; [done|].
  pose proof (main_cycle_returns w st) as H.
  destruct (Main.cycle w st) as [[[]|e] st1]; cbn in H; [apply IH|done].
Qed.

(** ** One processed batch, step by step *)

Lemma bind_bind_ret_eq {S A B C} (c : M S A) (k1 : A -> M S B)
  (k2 : B -> M S C) st a st1 :
  c st = (Ret a, st1) -> bind (bind c k1) k2 st = bind (k1 a) k2 st1.
Proof. intros H. unfold bind. by rewrite H. Qed.

Lemma bind_bind_raise_eq {S A B C} (c : M S A) (k1 : A -> M S B)
  (k2 : B -> M S C) st e st1 :
  c st = (Raise e, st1) -> bind (bind c k1) k2 st = (Raise e, st1).
Proof. intros H. unfold bind. by rewrite H. Qed.

Lemma for_each_returns {S A} (xs : list A) (body : A -> M S unit) :
  Forall (fun x => forall st, (body x st).1 = Ret tt) xs ->
  forall st, (for_each xs body st).1 = Ret tt.
Proof.
  induction 1 as [|x xs Hx _ IH]; intros st; cbn; [done|].
  unfold bind. specialize (Hx st).
  destruct (body x st) as [[[]|e] st1]; cbn in *; [apply IH|done].
Qed.

Lemma count_alerts_trans {Label} p (t0 t1 t2 : list (event Label)) n m :
  (exists evs, t1 = t0 ++ evs /\ count_alerts p evs = n) ->
  (exists evs, t2 = t1 ++ evs /\ count_alerts p evs = m) ->
  exists evs, t2 = t0 ++ evs /\ count_alerts p evs = n + m.
Proof.
  intros (e1 & -> & H1) (e2 & -> & H2). exists (e1 ++ e2).
  rewrite app_assoc, count_alerts_app. split; [done|lia].
Qed.

Section Batches.
Context {Label Model : Type} {lib : PyLib Label Model}.

Lemma main_process_records_returns (rs : list (record Label))
  (st : Main.state Label Model) :
  Forall complete rs -> (Main.process_records rs st).1 = Ret tt.
Proof.
  intros H. unfold Main.process_records.
  unfold bind at 1. cbn. apply for_each_returns.
  revert H. apply List.Forall_impl. intros r [[f Hf] [l Hl]] st1.
  unfold getitem_features, getitem_label. rewrite Hf, Hl. reflexivity.
Qed.

(** Lines 88-96 on a first record with features [f0]. *)
Lemma main_detect_feature_changes_spec (r0 : record Label) (f0 : list float)
  (st : Main.state Label Model) :
  rec_features r0 = Some f0 ->
  let grew :=
    bool_decide (Main.previous_features_count st ≠ 0
                 /\ Main.previous_features_count st < length f0) in
  exists st',
    Main.detect_feature_changes r0 st = (Ret tt, st') /\
    Main.previous_features_count st' = length f0 /\
    feature_added (Main.registry st')
      = (if grew then 1%Z else feature_added (Main.registry st)) /\
    exists evs, Main.trace st' = Main.trace st ++ evs /\
                count_alerts is_added_alert_main evs = (if grew then 1 else 0).
Proof.
  intros Hf grew. subst grew. unfold_main. unfold getitem_features. run_m.
  rewrite Hf. cbn.
  destruct (decide (Main.previous_features_count st ≠ 0)) as [Hp|Hp]; cbn.
  - destruct (decide (Main.previous_features_count st < length f0)) as [Hl|Hl];
      cbn.
    + rewrite bool_decide_eq_true_2 by done.
      eexists. repeat split; try reflexivity. by eexists.
    + rewrite bool_decide_eq_false_2 by (intros []; done).
      destruct (decide (length f0 < Main.previous_features_count st)); cbn.
      * eexists. repeat split; try reflexivity. by eexists.
      * eexists. repeat split; try reflexivity.
        exists []. by rewrite app_nil_r.
  - rewrite bool_decide_eq_false_2 by (intros []; done).
    eexists. repeat split; try reflexivity. exists []. by rewrite app_nil_r.
Qed.

(** The handler and the sleep that end an iteration of main.py. *)
Lemma main_cycle_tail_frame (w : world Label) (st : Main.state Label Model) :
  main_detector_frame (Main.cycle_body w st).2 (Main.cycle w st).2.
Proof.
  unfold Main.cycle, try_except, bind.
  destruct (Main.cycle_body w st) as [[[]|e] s]; cbn; frame_main.
Qed.

(** A cycle of main.py that fetched a batch of complete records: the
    baseline becomes the width of the first record, and the Added signal is
    given once if the baseline was not 0 and is exceeded, never otherwise. *)
Lemma main_cycle_batch_spec (w : world Label) (resp : response Label)
  (r0 : record Label) (rs : list (record Label))
  (st : Main.state Label Model) :
  w_get w = Ret resp -> status_code resp ≠ 503%Z ->
  json resp = Ret (JArray (r0 :: rs)) -> Forall complete (r0 :: rs) ->
  let st' := (Main.cycle w st).2 in
  let grew :=
    bool_decide (Main.previous_features_count st ≠ 0
                 /\ Main.previous_features_count st < width r0) in
  Main.previous_features_count st' = width r0 /\
  feature_added (Main.registry st')
    = (if grew then 1%Z else feature_added (Main.registry st)) /\
  count_alerts is_added_alert_main
    (new_events (Main.trace st) (Main.trace st'))
    = (if grew then 1 else 0).
Proof.
  intros Hget Hs Hj Hc st' grew.
  pose proof (main_cycle_tail_frame w st) as (T1 & T2 & _ & T4).
  fold st' in T1, T2, T4.
  assert (Hb : exists st0,
             main_detector_frame st st0 /\
             Main.cycle_body w st
             = (Main.process_records (r0 :: rs) ;;
                Main.detect_feature_changes r0 ;;
                Main.retraining_logic (w_entropy w) ;; ret Next) st0).
  { eexists. split; [|unfold Main.cycle_body, Main.update_registry; run_m;
      rewrite Hget; cbn; destruct (decide (status_code resp = 503%Z));
      [done|]; rewrite Hj; reflexivity].
    frame_main. }
  destruct Hb as (st0 & (F1 & F2 & _ & F4) & Hb). rewrite Hb in T1, T2, T4.
  pose proof (main_process_records_returns (r0 :: rs) st0 Hc) as Hr.
  pose proof (main_process_records_frame (r0 :: rs) st0) as (P1 & P2 & _ & P4).
  destruct (Main.process_records (r0 :: rs) st0) as [[[]|?] st1] eqn:E1;
    [|done]. cbn in P1, P2, P4.
  rewrite (bind_ret_eq _ _ _ _ _ E1) in T1, T2, T4.
  pose proof (Forall_inv Hc) as [[f0 Hf] _].
  destruct (main_detect_feature_changes_spec r0 f0 st1 Hf)
    as (st2 & E2 & D1 & D2 & D4).
  rewrite (bind_ret_eq _ _ _ _ _ E2) in T1, T2, T4.
  assert (Hw : width r0 = length f0) by (unfold width; by rewrite Hf).
  assert (HR : main_detector_frame st2
                 ((Main.retraining_logic (w_entropy w) ;; ret Next) st2).2).
  { apply (preserves_bind _); [apply main_retraining_logic_frame|].
    intros ?. apply (preserves_ret _). }
  destruct HR as (R1 & R2 & _ & R4).
  subst grew. rewrite Hw, <- F1, <- P1.
  split; [congruence|]. split; [by rewrite T2, R2, D2, P2, F2|].
  pose proof (count_alerts_trans _ _ _ _ _ _ F4 P4) as C1.
  pose proof (count_alerts_trans _ _ _ _ _ _ C1 D4) as C2.
  pose proof (count_alerts_trans _ _ _ _ _ _ C2 R4) as C3.
  pose proof (count_alerts_trans _ _ _ _ _ _ C3 T4) as (evs & -> & C4).
  rewrite new_events_app, C4. lia.
Qed.

End Batches.

Section MlBatches.
Context {Label Model : Type} {lib : PyLib Label Model}.

(** A fetch that is answered with records. *)
Lemma ml_fetch_records_spec (w : world Label) (resp : response Label)
  (data : payload Label) (st : MlModel.state Label Model) :
  w_get w = Ret resp -> status_code resp ≠ 503%Z -> json resp = Ret data ->
  MlModel.fetch_records w st
  = (Ret (Some (MlModel.records_of data)),
     MlModel.State (MlModel.model st) (MlModel.X st) (MlModel.y st)
       (MlModel.retrain_count st) (MlModel.current_cycle st)
       (MlModel.previous_features st) (MlModel.feature_stats st)
       (set_records_processed_total
          (records_processed_total (MlModel.registry st)
           + Z.of_nat (length (MlModel.records_of data)))
          (set_response_delay_seconds (w_delay w) (MlModel.registry st)))
       (MlModel.trace st)).
Proof.
  intros Hget Hs Hj. unfold_ml. run_m. rewrite Hget. cbn.
  destruct (decide (status_code resp = 503%Z)); [done|].
  rewrite Hj. reflexivity.
Qed.

(** Lines 75-89 on a batch that starts with [r0]. *)
Lemma ml_detect_feature_changes_spec (r0 : record Label)
  (rs : list (record Label)) (st : MlModel.state Label Model) :
  let new_features_set := py_set (default [] (rec_features r0)) in
  let added := new_features_set ∖ MlModel.previous_features st in
  exists st',
    MlModel.detect_feature_changes (r0 :: rs) st = (Ret tt, st') /\
    MlModel.previous_features st' = new_features_set /\
    feature_added (MlModel.registry st')
      = (feature_added (MlModel.registry st) + Z.of_nat (size added))%Z /\
    (feature_removed (MlModel.registry st)
     <= feature_removed (MlModel.registry st'))%Z /\
    MlModel.feature_stats st' = MlModel.feature_stats st /\
    exists evs, MlModel.trace st' = MlModel.trace st ++ evs /\
                count_alerts is_added_alert_ml evs
                = (if bool_decide (size added ≠ 0) then 1 else 0).
Proof.
  intros new_features_set added. unfold_ml. run_m.
  fold new_features_set. fold added.
  destruct (decide (size added ≠ 0)) as [Ha|Ha]; cbn;
    [rewrite bool_decide_eq_true_2 by done
    |rewrite bool_decide_eq_false_2 by done];
    destruct (decide (size (MlModel.previous_features st ∖ new_features_set)
                      ≠ 0)); cbn.
  all: eexists; split; [reflexivity|]; split; [reflexivity|];
    split; [cbn; lia|]; split; [cbn; lia|]; split; [reflexivity|];
    cbn; trace_grows.
Qed.

Lemma ml_cycle_rest_frame (rs : list (record Label)) :
  preserves ml_detector_frame
    (MlModel.detect_drift (Model:=Model) rs ;;
     MlModel.append_records rs ;;
     acc <- MlModel.train_model ;;
     cc <- gets MlModel.current_cycle ;;
     MlModel.emit (EvPrint
       [Lit "Cycle "; Num (cc + 1); Lit "/"; Num MlModel.TRAIN_CYCLES;
        Lit ": Accuracy="; Fix2 acc; Lit ", Records=";
        Num (Z.of_nat (length rs))]) ;;
     (if decide ((cc + 1) `mod` MlModel.SAVE_INTERVAL = 0)%Z then
        MlModel.emit
          (EvDump [Lit "model_cycle_"; Num (cc + 1); Lit ".joblib"]) ;;
        MlModel.emit (EvPrint
          [Lit "Model saved: "; Lit "model_cycle_"; Num (cc + 1);
           Lit ".joblib"])
      else ret tt) ;;
     MlModel.set_current_cycle (cc + 1)).
Proof.
  apply preserves_bind; [apply _|apply ml_detect_drift_frame|intros ?].
  apply preserves_bind; [apply _|apply ml_append_records_frame|intros ?].
  apply preserves_bind; [apply _|apply ml_train_model_frame|intros acc].
  unfold_ml. preserves_go frame_ml.
Qed.

(** A cycle of ml_model.py that fetched a batch starting with [r0]: the
    baseline becomes the set of the values of [r0]'s features; the Added
    signal is given once if some of them were not in the baseline, never
    otherwise, and the gauge grows by their number. *)
Lemma ml_cycle_batch_spec (w : world Label) (resp : response Label)
  (data : payload Label) (r0 : record Label) (rs : list (record Label))
  (st : MlModel.state Label Model) :
  w_get w = Ret resp -> status_code resp ≠ 503%Z -> json resp = Ret data ->
  MlModel.records_of data = r0 :: rs ->
  let st' := (MlModel.cycle w st).2 in
  let new_features_set := py_set (default [] (rec_features r0)) in
  let added := new_features_set ∖ MlModel.previous_features st in
  MlModel.previous_features st' = new_features_set /\
  feature_added (MlModel.registry st')
    = (feature_added (MlModel.registry st) + Z.of_nat (size added))%Z /\
  count_alerts is_added_alert_ml
    (new_events (MlModel.trace st) (MlModel.trace st'))
    = (if bool_decide (size added ≠ 0) then 1 else 0).
Proof.
  intros Hget Hs Hj Hr st' new_features_set added.
  pose proof (ml_fetch_records_spec w resp data st Hget Hs Hj) as E0.
  rewrite Hr in E0.
  set (st0 := (MlModel.fetch_records w st).2).
  assert (F : MlModel.previous_features st0 = MlModel.previous_features st /\
              feature_added (MlModel.registry st0)
                = feature_added (MlModel.registry st) /\
              MlModel.trace st0 = MlModel.trace st).
  { subst st0. rewrite E0. done. }
  destruct F as (F1 & F2 & F4).
  assert (E0' : MlModel.fetch_records w st = (Ret (Some (r0 :: rs)), st0)).
  { subst st0. rewrite E0. done. }
  clearbody st0. clear E0.
  destruct (ml_detect_feature_changes_spec r0 rs st0)
    as (st1 & E1 & D1 & D2 & _ & _ & D4).
  rewrite F1 in D2, D4. fold new_features_set in D1, D2, D4.
  fold added in D2, D4.
  subst st'. unfold MlModel.cycle.
  rewrite (bind_ret_eq _ _ _ _ _ E0').
  rewrite (bind_bind_ret_eq _ _ _ _ _ _ E1).
  match goal with
  | |- context [(bind ?c ?k st1).2] =>
      assert (R : ml_detector_frame st1 (bind c k st1).2)
  end.
  { apply (preserves_bind _); [apply ml_cycle_rest_frame|].
    intros ?. unfold_ml. preserves_go frame_ml. }
  destruct R as (R1 & R2 & _ & R4).
  split; [congruence|]. split; [by rewrite R2, D2, F2|].
  rewrite <- F4.
  pose proof (count_alerts_trans _ _ _ _ _ _ D4 R4) as (evs & -> & C).
  rewrite new_events_app, C. lia.
Qed.

End MlBatches.

(** ** The loops *)

Section Loops.
Context {Label Model : Type} {lib : PyLib Label Model}.

Lemma main_loop_latch (ws : list (world Label))
  (st : Main.state Label Model) :
  main_latch st (Main.ingestion_and_retrain_loop ws st).2.
Proof.
  revert st. induction ws as [|w ws IH]; intros st; cbn; [reflexivity|].
  pose proof (main_cycle_latch w st) as H.
  destruct (Main.cycle w st) as [[[]|e] st1]; cbn in H |- *; [|done].
  etrans; [exact H|apply IH].
Qed.

Lemma ml_loop_latch (ws : list (world Label))
  (st : MlModel.state Label Model) :
  ml_latch st (MlModel.ingestion_loop ws st).2.
Proof.
  revert st. induction ws as [|w ws IH]; intros st; cbn.
  - destruct (decide (MlModel.current_cycle st < MlModel.TRAIN_CYCLES)%Z);
      cbn; [reflexivity|latch_ml].
  - destruct (decide (MlModel.current_cycle st < MlModel.TRAIN_CYCLES)%Z);
      cbn; [|latch_ml].
    pose proof (ml_cycle_latch w st) as H.
    destruct (MlModel.cycle w st) as [[[]|e] st1]; cbn in H |- *; [|done].
    etrans; [exact H|apply IH].
Qed.

(** When [detect_drift] returns, it has written 0 or 1 to the gauge. *)
Lemma ml_detect_drift_gauge (rs : list (record Label))
  (st st' : MlModel.state Label Model) :
  MlModel.detect_drift rs st = (Ret tt, st') ->
  distribution_drift_detected (MlModel.registry st') = 0%Z \/
  distribution_drift_detected (MlModel.registry st') = 1%Z.
Proof.
  unfold MlModel.detect_drift, MlModel.update_registry, MlModel.send_alert,
    MlModel.emit. run_m.
  destruct (MlModel.first_record rs) as [r0|e]; cbn; [|done].
  destruct (MlModel.drift_loop _ rs false st) as [[[]|e] s]; cbn;
    intros [= <-]; cbn; auto.
Qed.

Lemma ml_cycle_after_drift_keeps_drift (rs : list (record Label)) :
  preserves ml_keeps_drift
    ((MlModel.append_records (Model:=Model) rs ;;
      acc <- MlModel.train_model ;;
      cc <- gets MlModel.current_cycle ;;
      MlModel.emit (EvPrint
        [Lit "Cycle "; Num (cc + 1); Lit "/"; Num MlModel.TRAIN_CYCLES;
         Lit ": Accuracy="; Fix2 acc; Lit ", Records=";
         Num (Z.of_nat (length rs))]) ;;
      (if decide ((cc + 1) `mod` MlModel.SAVE_INTERVAL = 0)%Z then
         MlModel.emit
           (EvDump [Lit "model_cycle_"; Num (cc + 1); Lit ".joblib"]) ;;
         MlModel.emit (EvPrint
           [Lit "Model saved: "; Lit "model_cycle_"; Num (cc + 1);
            Lit ".joblib"])
       else ret tt) ;;
      MlModel.set_current_cycle (cc + 1)) ;;
     MlModel.emit (EvSleep 10)).
Proof. unfold_ml. preserves_go keeps_drift_ml. Qed.

(** A cycle of ml_model.py that fetched a batch and returned has written 0
    or 1 to the drift gauge. *)
Lemma ml_cycle_rewrites_drift_gauge (w : world Label) (resp : response Label)
  (data : payload Label) (r0 : record Label) (rs : list (record Label))
  (st : MlModel.state Label Model) :
  w_get w = Ret resp -> status_code resp ≠ 503%Z -> json resp = Ret data ->
  MlModel.records_of data = r0 :: rs ->
  (MlModel.cycle w st).1 = Ret tt ->
  let st' := (MlModel.cycle w st).2 in
  distribution_drift_detected (MlModel.registry st') = 0%Z \/
  distribution_drift_detected (MlModel.registry st') = 1%Z.
Proof.
  intros Hget Hs Hj Hr. cbv zeta.
  pose proof (ml_fetch_records_spec w resp data st Hget Hs Hj) as E0.
  rewrite Hr in E0. unfold MlModel.cycle.
  rewrite (bind_ret_eq _ _ _ _ _ E0).
  match type of E0 with _ = (_, ?s) => set (st0 := s) end.
  destruct (ml_detect_feature_changes_spec r0 rs st0) as (st1 & E1 & _).
  rewrite (bind_bind_ret_eq _ _ _ _ _ _ E1).
  destruct (MlModel.detect_drift (r0 :: rs) st1) as [[[]|e] st2] eqn:E2.
  - rewrite (bind_bind_ret_eq _ _ _ _ _ _ E2). intros _.
    pose proof (ml_cycle_after_drift_keeps_drift (r0 :: rs) st2) as K.
    destruct K as [K _]. rewrite K.
    by apply (ml_detect_drift_gauge (r0 :: rs) st1).
  - rewrite (bind_raise_eq _ _ _ _ _ (bind_raise_eq _ _ _ _ _ E2)). done.
Qed.

(** The endpoint only reads. *)
Lemma main_predict_keeps_state (features : string)
  (st : Main.state Label Model) :
  (Main.predict features st).2 = st.
Proof.
  unfold Main.predict. run_m.
  destruct (map_result py_float (split_on "," features)) as [fl|e]; cbn;
    [|done].
  destruct (model_predict (Main.model st) [fl]) as [[|p ps]|e]; cbn;
    try done.
  by destruct (py_int p).
Qed.

End Loops.

(** ** The drift detector *)

Lemma existsb_ext_in {A} (f g : A -> bool) (l : list A) :
  (forall x, In x l -> f x = g x) -> existsb f l = existsb g l.
Proof.
  induction l as [|x l IH]; intros H; cbn; [done|].
  rewrite (H x) by (by left). rewrite IH; [done|].
  intros y Hy. apply H. by right.
Qed.

Section Drift.
Context {Label Model : Type} {lib : PyLib Label Model}.

Lemma feature_values_length (rs : list (record Label)) (idx : nat) :
  length (feature_values rs idx) = length rs.
Proof. apply length_map. Qed.

(** On a batch of [w]-wide records the comprehension of line 96 collects
    the values at [idx]. *)
Lemma column_uniform (w : nat) (rs : list (record Label)) (idx : nat) :
  uniform w rs -> idx < w ->
  MlModel.column rs idx = Ret (feature_values rs idx).
Proof.
  intros Hu Hi. unfold MlModel.column, feature_values.
  induction Hu as [|r rs (fs & Hf & Hl) _ IH]; cbn; [done|].
  rewrite IH. unfold getitem_features, MlModel.getitem_index. rewrite Hf.
  destruct (lookup_lt_is_Some_2 fs idx) as [v Hv]; [lia|].
  rewrite Hv. cbn. by rewrite (nth_lookup_Some _ _ 0%float _ Hv).
Qed.

Lemma ml_drift_loop_spec (w : nat) (rs : list (record Label))
  (idxs : list nat) (b : bool) (st : MlModel.state Label Model) :
  uniform w rs -> measurable w rs ->
  Forall (fun i => i < w) idxs -> NoDup idxs ->
  exists fs',
    MlModel.drift_loop idxs rs b st
    = (Ret (existsb (shifted (MlModel.feature_stats st) rs) idxs || b),
       with_stats fs' st) /\
    forall i, fs' !! i = if decide (i ∈ idxs) then batch_stat rs i
                         else MlModel.feature_stats st !! i.
Proof.
  intros Hu Hm Hw Hn. revert b st.
  induction idxs as [|idx rest IH]; intros b st.
  - exists (MlModel.feature_stats st). split; [by destruct st|].
    intros i. destruct (decide (i ∈ [])) as [H|H]; [|done].
    by apply elem_of_nil in H.
  - pose proof (Forall_inv Hw) as Hi. apply Forall_inv_tail in Hw.
    pose proof (NoDup_cons_1_1 _ _ Hn) as Hni. apply NoDup_cons_1_2 in Hn.
    pose proof (column_uniform w rs idx Hu Hi) as Hcol.
    destruct (Hm idx Hi) as [s Hs].
    assert (Hstd : (if decide (1 < length (feature_values rs idx))
                    then statistics_stdev (feature_values rs idx)
                    else Ret 0%float) = Ret s).
    { rewrite feature_values_length. exact Hs. }
    cbn [MlModel.drift_loop]. unfold MlModel.set_feature_stats. run_m.
    rewrite Hcol. cbn. rewrite Hstd. cbn.
    match goal with
    | |- context [MlModel.drift_loop rest rs ?b1 ?s1] =>
        destruct (IH Hw Hn b1 s1) as (fs' & E & L); rewrite E
    end.
    cbn in L. exists fs'. split.
    + f_equal. f_equal.
      rewrite (existsb_ext_in _ (shifted (MlModel.feature_stats st) rs)).
      * unfold shifted at 2, batch_mean.
        destruct (MlModel.feature_stats st !! idx) as [[om os]|]; cbn;
          [|by rewrite orb_comm].
        destruct (MlModel.drift_exceeds _ om os);
          destruct (existsb (shifted (MlModel.feature_stats st) rs) rest);
          destruct b; reflexivity.
      * intros i Hi'. unfold shifted. cbn. rewrite lookup_insert_ne; [done|].
        intros ->. apply Hni. by apply list_elem_of_In.
    + intros i. rewrite L. destruct (decide (i = idx)) as [->|Hne].
      * destruct (decide (idx ∈ rest)) as [H|_]; [done|].
        destruct (decide (idx ∈ idx :: rest)) as [_|H];
          [|exfalso; apply H; left].
        rewrite lookup_insert_eq. unfold batch_stat. by rewrite Hs.
      * rewrite lookup_insert_ne by done.
        destruct (decide (i ∈ rest)) as [H|H];
          destruct (decide (i ∈ idx :: rest)) as [H'|H']; try done.
        -- exfalso. apply H'. by right.
        -- apply elem_of_cons in H' as [?|?]; done.
Qed.

(** [detect_drift] on a non-empty batch of [w]-wide records whose
    deviations can be computed: it returns, the gauge tells whether some
    index with a stored statistic moved, and the statistics of the indices
    of the batch are replaced by its own. *)
Lemma ml_detect_drift_spec (w : nat) (r0 : record Label)
  (rs : list (record Label)) (st : MlModel.state Label Model) :
  uniform w (r0 :: rs) -> measurable w (r0 :: rs) ->
  exists st',
    MlModel.detect_drift (r0 :: rs) st = (Ret tt, st') /\
    distribution_drift_detected (MlModel.registry st')
    = (if existsb (shifted (MlModel.feature_stats st) (r0 :: rs)) (seq 0 w)
       then 1%Z else 0%Z) /\
    forall i, MlModel.feature_stats st' !! i
              = if decide (i < w) then batch_stat (r0 :: rs) i
                else MlModel.feature_stats st !! i.
Proof.
  intros Hu Hm.
  assert (Hw : length (default [] (rec_features r0)) = w).
  { apply Forall_inv in Hu as (fs & -> & Hl). done. }
  destruct (ml_drift_loop_spec w (r0 :: rs) (seq 0 w) false st Hu Hm)
    as (fs' & E & L).
  { apply List.Forall_forall. intros i Hi. apply List.in_seq in Hi. lia. }
  { apply NoDup_seq. }
  rewrite orb_false_r in E.
  unfold MlModel.detect_drift, MlModel.update_registry, MlModel.send_alert,
    MlModel.emit. run_m. rewrite Hw, E.
  destruct (existsb _ (seq 0 w)); cbn; eexists; (split; [reflexivity|]);
    (split; [reflexivity|]); cbn; intros i; rewrite L;
    destruct (decide (i ∈ seq 0 w)) as [H|H];
    rewrite elem_of_seq in H;
    destruct (decide (i < w)); try done; lia.
Qed.

(** A cycle of ml_model.py that fetched such a batch, whatever happens
    after the drift detector. *)
Lemma ml_cycle_drift_spec (wd : world Label) (resp : response Label)
  (w : nat) (r0 : record Label) (rs : list (record Label))
  (st : MlModel.state Label Model) :
  w_get wd = Ret resp -> status_code resp ≠ 503%Z ->
  json resp = Ret (JArray (r0 :: rs)) ->
  uniform w (r0 :: rs) -> measurable w (r0 :: rs) ->
  let st' := (MlModel.cycle wd st).2 in
  distribution_drift_detected (MlModel.registry st')
  = (if existsb (shifted (MlModel.feature_stats st) (r0 :: rs)) (seq 0 w)
     then 1%Z else 0%Z) /\
  forall i, MlModel.feature_stats st' !! i
            = if decide (i < w) then batch_stat (r0 :: rs) i
              else MlModel.feature_stats st !! i.
Proof.
  intros Hget Hs Hj Hu Hm. cbv zeta.
  pose proof (ml_fetch_records_spec wd resp _ st Hget Hs Hj) as E0.
  cbn [MlModel.records_of] in E0. unfold MlModel.cycle.
  rewrite (bind_ret_eq _ _ _ _ _ E0).
  match type of E0 with _ = (_, ?s) => set (st0 := s) end.
  destruct (ml_detect_feature_changes_spec r0 rs st0)
    as (st1 & E1 & _ & _ & _ & S1 & _).
  rewrite (bind_bind_ret_eq _ _ _ _ _ _ E1).
  destruct (ml_detect_drift_spec w r0 rs st1 Hu Hm) as (st2 & E2 & G2 & L2).
  rewrite (bind_bind_ret_eq _ _ _ _ _ _ E2).
  destruct (ml_cycle_after_drift_keeps_drift (r0 :: rs) st2) as [K1 K2].
  rewrite K1, K2, G2. rewrite S1 in L2 |- *. done.
Qed.

(** A batch whose second record has one feature where the first has two:
    the detector takes the statistics of the first column and then indexes
    past the end of the second record. *)
Lemma ml_detect_drift_ragged (l1 l2 : Label)
  (st : MlModel.state Label Model) :
  (MlModel.detect_drift
     [Record_ (Some [1%float; 2%float]) (Some l1);
      Record_ (Some [1%float]) (Some l2)] st).1
  = Raise match statistics_stdev [1%float; 1%float] with
          | Ret _ => Exn IndexError "list index out of range"
          | Raise e => e
          end.
Proof.
  unfold MlModel.detect_drift, MlModel.first_record. run_m.
  unfold MlModel.set_feature_stats. run_m.
  destruct (statistics_stdev [1%float; 1%float]); reflexivity.
Qed.

Lemma ml_cycle_ragged (w : world Label) (resp : response Label)
  (l1 l2 : Label) (st : MlModel.state Label Model) :
  w_get w = Ret resp -> status_code resp ≠ 503%Z ->
  json resp = Ret (JArray [Record_ (Some [1%float; 2%float]) (Some l1);
                           Record_ (Some [1%float]) (Some l2)]) ->
  (MlModel.cycle w st).1
  = Raise match statistics_stdev [1%float; 1%float] with
          | Ret _ => Exn IndexError "list index out of range"
          | Raise e => e
          end.
Proof.
  intros Hget Hs Hj.
  pose proof (ml_fetch_records_spec w resp _ st Hget Hs Hj) as E0.
  cbn [MlModel.records_of] in E0. unfold MlModel.cycle.
  rewrite (bind_ret_eq _ _ _ _ _ E0).
  match type of E0 with _ = (_, ?s) => set (st0 := s) end.
  destruct (ml_detect_feature_changes_spec
              (Record_ (Some [1%float; 2%float]) (Some l1))
              [Record_ (Some [1%float]) (Some l2)] st0) as (st1 & E1 & _).
  rewrite (bind_bind_ret_eq _ _ _ _ _ _ E1).
  pose proof (ml_detect_drift_ragged l1 l2 st1) as H.
  destruct (MlModel.detect_drift _ st1) as [[[]|e] st2] eqn:E2;
    cbn [fst] in H; [discriminate H|].
  rewrite (bind_bind_raise_eq _ _ _ _ _ _ E2). exact H.
Qed.

End Drift.

(** * The claims *)

(** C1.  When the accuracy measured on the test part is below 0.8, main.py
    does what the claim says: the retrain counter grows by one, the alert
    shows the accuracy, and a second fit over the whole history is called;
    the estimator that fit returns is the live model (if it raises, the one
    fitted on the train part stays).  ml_model.py does not: the retrain
    count grows by one and an alert naming the threshold, not the accuracy,
    is raised, but there is no second fit, and the estimator fitted on the
    train part stays the live model. *)
Theorem low_accuracy_escalates {Label Model} {lib : PyLib Label Model}
  (X_train X_test : list (list float)) (y_train y_test preds : list Label)
  (m1 : Model) (acc : float) :
  model_predict m1 X_test = Ret preds ->
  accuracy_score y_test preds = Ret acc ->
  py_lt acc RETRAIN_THRESHOLD = true ->
  (forall (entropy : Z) (st : Main.state Label Model),
     20 < length (Main.X_history st) ->
     train_test_split (Main.X_history st) (Main.y_history st) 0.2%float entropy
     = Ret (X_train, X_test, y_train, y_test) ->
     model_fit (Main.model st) X_train y_train = Ret m1 ->
     let r := (Main.retraining_logic entropy st).1 in
     let st' := (Main.retraining_logic entropy st).2 in
     retrain_count_total (Main.registry st')
       = (retrain_count_total (Main.registry st) + 1)%Z /\
     model_accuracy (Main.registry st') = acc /\
     Main.trace st'
       = Main.trace st ++
           [EvFit X_train y_train;
            EvAlert
              [Lit "Accuracy "; Fix2 acc; Lit " < 0.8. Retraining triggered."];
            EvFit (Main.X_history st) (Main.y_history st)] /\
     match model_fit m1 (Main.X_history st) (Main.y_history st) with
     | Ret m2 => r = Ret tt /\ Main.model st' = m2
     | Raise e => r = Raise e /\ Main.model st' = m1
     end) /\
  (forall st : MlModel.state Label Model,
     4 <= length (MlModel.X st) ->
     train_test_split (MlModel.X st) (MlModel.y st) 0.3%float 42
     = Ret (X_train, X_test, y_train, y_test) ->
     model_fit (MlModel.model st) X_train y_train = Ret m1 ->
     let r := (MlModel.train_model st).1 in
     let st' := (MlModel.train_model st).2 in
     r = Ret acc /\
     MlModel.retrain_count st' = (MlModel.retrain_count st + 1)%Z /\
     model_accuracy (MlModel.registry st') = acc /\
     MlModel.trace st'
       = MlModel.trace st ++
           [EvFit X_train y_train;
            EvAlert
              [Lit "Accuracy dropped below "; Fix2 RETRAIN_THRESHOLD;
               Lit ": retraining needed"]] /\
     MlModel.model st' = m1).
Proof.
  intros Hp Ha Hlt. split.
  - intros entropy st Hn Hs Hf. unfold_main. run_m.
    destruct (decide (20 < length (Main.X_history st))); [|lia].
    rewrite Hs. cbn. rewrite Hf. cbn. rewrite Hp. cbn. rewrite Ha. cbn.
    rewrite Hlt. cbn.
    destruct (model_fit m1 (Main.X_history st) (Main.y_history st)); cbn;
      rewrite <- !app_assoc; done.
  - intros st Hn Hs Hf. unfold_ml. unfold MlModel.MIN_SAMPLES_TO_TRAIN. run_m.
    destruct (decide (length (MlModel.X st) < 4)); [lia|].
    rewrite Hs. cbn. rewrite Hf. cbn. rewrite Hp. cbn. rewrite Ha. cbn.
    rewrite Hlt. cbn. rewrite <- !app_assoc. done.
Qed.

(** C1 on a history of four rows with four different labels.  No label of
    the test part occurs in the train part, so the measured accuracy is 0
    however the rows are split and whatever the estimator: ml_model.py
    counts a retrain, and the only fit of the call is the one on the two
    train rows, which stays the live model. *)
Lemma low_accuracy_escalates_witness :
  let st' := (MlModel.train_model Samples.ml_distinct_labels).2 in
  (MlModel.train_model Samples.ml_distinct_labels).1 = Ret 0%float /\
  MlModel.retrain_count st' = 1%Z /\
  fits (MlModel.trace st') = [(repeat [1%float; 2%float] 2, [0%Z; 1%Z])] /\
  MlModel.model st' = Toy.Estimator (repeat [1%float; 2%float] 2) [0%Z; 1%Z].
Proof.
  intros st'.
  destruct (low_accuracy_escalates (lib:=Toy.lib)
              (repeat [1%float; 2%float] 2) (repeat [1%float; 2%float] 2)
              [0%Z; 1%Z] [2%Z; 3%Z] [0%Z; 0%Z]
              (Toy.Estimator (repeat [1%float; 2%float] 2) [0%Z; 1%Z])
              0%float) as [_ HL]; [reflexivity..|].
  destruct (HL Samples.ml_distinct_labels) as (H1 & H2 & _ & H3 & H4);
    [vm_compute; lia|reflexivity..|].
  fold st' in H2, H3, H4.
  split; [exact H1|]. split; [exact H2|]. split; [|exact H4].
  rewrite H3. reflexivity.
Defined.

(** C2, counterexample.  The stored statistic of an index is the one of
    the last batch that had that index, which need not be the previous
    batch.  After batches of one record with the features [1.0, 1.0] and
    then [1.0], the batch [1.0, 5.0] is flagged: its second mean is compared
    with the 1.0 of the batch before last, while the previous batch has no
    second feature and the first means are equal. *)
Lemma drift_is_measured_against_stored_statistic :
  ~ ml_drift_iff_shift_from_previous
      (Toy.rec [1%float] 0) [] (Toy.rec [1%float; 5%float] 0) []
      (MlModel.cycle (Toy.ok [Toy.rec [1%float; 1%float] 0])
         (MlModel.init Toy.unfitted)).2.
Proof.
  intros [H _].
  destruct H as (idx & s & _ & H1 & _ & _ & Hx); [vm_compute; reflexivity|].
  assert (idx = 0) as -> by (cbn in H1; lia).
  rewrite drift_exceeds_same_mean in Hx; [discriminate Hx|].
  left. vm_compute. reflexivity.
Qed.

(** C2, amended.  Two consecutive cycles of ml_model.py fetch non-empty
    batches whose records have [n1] and [n2] features and whose standard
    deviations the library computes.  After the first, the statistic stored
    for each of its indices is its own mean and standard deviation.  The
    second sets the drift gauge to 1 exactly when some index of the batch
    has a stored statistic and the batch's mean at that index differs from
    the stored mean by more than [max(0.1, 0.2 * stored std)], and to 0
    otherwise.  When the second batch is not wider than the first, the
    stored statistics are those of the first batch: the gauge is 1 exactly
    when some mean differs from the first batch's by more than
    [max(0.1, 0.2 * its std)], and a batch whose means equal the first
    batch's sets the gauge to 0. *)
Theorem drift_iff_mean_shift {Label Model} {lib : PyLib Label Model}
  (w1 w2 : world Label) (resp1 resp2 : response Label) (n1 n2 : nat)
  (r1 r2 : record Label) (rs1 rs2 : list (record Label))
  (st : MlModel.state Label Model) :
  w_get w1 = Ret resp1 -> status_code resp1 ≠ 503%Z ->
  json resp1 = Ret (JArray (r1 :: rs1)) ->
  uniform n1 (r1 :: rs1) -> measurable n1 (r1 :: rs1) ->
  w_get w2 = Ret resp2 -> status_code resp2 ≠ 503%Z ->
  json resp2 = Ret (JArray (r2 :: rs2)) ->
  uniform n2 (r2 :: rs2) -> measurable n2 (r2 :: rs2) ->
  let st1 := (MlModel.cycle w1 st).2 in
  let st2 := (MlModel.cycle w2 st1).2 in
  let gauge := distribution_drift_detected (MlModel.registry st2) in
  let mean1 := batch_mean (r1 :: rs1) in
  let mean2 := batch_mean (r2 :: rs2) in
  (forall idx, idx < n1 ->
     exists std1,
       batch_std (r1 :: rs1) idx = Ret std1 /\
       MlModel.feature_stats st1 !! idx = Some (mean1 idx, std1)) /\
  (gauge = 1%Z <->
   exists idx old_mean old_std,
     idx < n2 /\
     MlModel.feature_stats st1 !! idx = Some (old_mean, old_std) /\
     py_gt (abs (mean2 idx - old_mean)) (py_max 0.1 (0.2 * old_std)) = true) /\
  (gauge = 0%Z \/ gauge = 1%Z) /\
  (n2 <= n1 ->
   (gauge = 1%Z <->
    exists idx std1,
      idx < n2 /\ batch_std (r1 :: rs1) idx = Ret std1 /\
      py_gt (abs (mean2 idx - mean1 idx)) (py_max 0.1 (0.2 * std1)) = true)) /\
  ((forall idx old_mean old_std,
      idx < n2 ->
      MlModel.feature_stats st1 !! idx = Some (old_mean, old_std) ->
      mean2 idx = old_mean \/ (mean2 idx =? old_mean)%float = true) ->
   gauge = 0%Z) /\
  (n2 <= n1 ->
   (forall idx, idx < n2 ->
      mean2 idx = mean1 idx \/ (mean2 idx =? mean1 idx)%float = true) ->
   gauge = 0%Z).
Proof.
  intros Hg1 Hs1 Hj1 Hu1 Hm1 Hg2 Hs2 Hj2 Hu2 Hm2 st1 st2 gauge mean1 mean2.
  destruct (ml_cycle_drift_spec w1 resp1 n1 r1 rs1 st Hg1 Hs1 Hj1 Hu1 Hm1)
    as [_ L1].
  destruct (ml_cycle_drift_spec w2 resp2 n2 r2 rs2 st1 Hg2 Hs2 Hj2 Hu2 Hm2)
    as [G2 _].
  fold st1 in L1. fold st2 in G2. fold gauge in G2.
  assert (Hstored : forall idx, idx < n1 ->
            exists std1,
              batch_std (r1 :: rs1) idx = Ret std1 /\
              MlModel.feature_stats st1 !! idx = Some (mean1 idx, std1)).
  { intros idx Hi. destruct (Hm1 idx Hi) as [s Hs]. exists s.
    split; [done|]. rewrite L1, decide_True by done.
    unfold batch_stat. by rewrite Hs. }
  assert (Hiff : gauge = 1%Z <->
            exists idx old_mean old_std,
              idx < n2 /\
              MlModel.feature_stats st1 !! idx = Some (old_mean, old_std) /\
              MlModel.drift_exceeds (mean2 idx) old_mean old_std = true).
  { rewrite G2. split.
    - destruct (existsb _ (seq 0 n2)) eqn:E; [intros _|done].
      apply existsb_exists in E as (idx & Hin & Hsh).
      apply List.in_seq in Hin. unfold shifted in Hsh.
      destruct (MlModel.feature_stats st1 !! idx) as [[om os]|] eqn:El;
        [|done].
      exists idx, om, os. split; [lia|]. split; done.
    - intros (idx & om & os & Hi & El & Hx).
      assert (E : existsb (shifted (MlModel.feature_stats st1) (r2 :: rs2))
                    (seq 0 n2) = true).
      { apply existsb_exists. exists idx. split; [apply List.in_seq; lia|].
        unfold shifted. by rewrite El. }
      by rewrite E. }
  assert (Hsame : (forall idx old_mean old_std,
                     idx < n2 ->
                     MlModel.feature_stats st1 !! idx
                     = Some (old_mean, old_std) ->
                     mean2 idx = old_mean
                     \/ (mean2 idx =? old_mean)%float = true) ->
                  gauge = 0%Z).
  { intros Hsame. rewrite G2.
    destruct (existsb _ (seq 0 n2)) eqn:E; [|done].
    apply existsb_exists in E as (idx & Hin & Hsh).
    apply List.in_seq in Hin. unfold shifted in Hsh.
    destruct (MlModel.feature_stats st1 !! idx) as [[om os]|] eqn:El; [|done].
    rewrite drift_exceeds_same_mean in Hsh; [done|].
    apply (Hsame idx om os); [lia|done]. }
  split; [exact Hstored|]. split; [exact Hiff|].
  split; [rewrite G2; destruct (existsb _ (seq 0 n2)); auto|].
  split; [|split; [exact Hsame|]].
  - intros Hle. rewrite Hiff. split.
    + intros (idx & om & os & Hi & El & Hx).
      destruct (Hstored idx ltac:(lia)) as (s & Hs & El').
      rewrite El' in El. injection El as <- <-.
      exists idx, s. split; [done|]. split; done.
    + intros (idx & s & Hi & Hs & Hx).
      destruct (Hstored idx ltac:(lia)) as (s' & Hs' & El').
      rewrite Hs in Hs'. injection Hs' as <-.
      exists idx, (mean1 idx), s. split; [done|]. split; done.
  - intros Hle Heq. apply Hsame. intros idx om os Hi El.
    destruct (Hstored idx ltac:(lia)) as (s & _ & El').
    rewrite El' in El. injection El as <- <-. by apply Heq.
Qed.

(** C2, amended, on batches of two records: the mean of the only feature
    goes from 2 (with deviation about 1.41) to 6. *)
Lemma drift_iff_mean_shift_witness :
  let b1 := [Toy.rec [1%float] 0; Toy.rec [3%float] 0] in
  let b2 := [Toy.rec [5%float] 0; Toy.rec [7%float] 0] in
  let st1 := (MlModel.cycle (Toy.ok b1) (MlModel.init Toy.unfitted)).2 in
  distribution_drift_detected
    (MlModel.registry (MlModel.cycle (Toy.ok b2) st1).2) = 1%Z.
Proof.
  intros b1 b2 st1.
  destruct (drift_iff_mean_shift (lib:=Toy.lib) (Toy.ok b1) (Toy.ok b2)
              (Response 200 (Ret (JArray b1))) (Response 200 (Ret (JArray b2)))
              1 1 (Toy.rec [1%float] 0) (Toy.rec [5%float] 0)
              [Toy.rec [3%float] 0] [Toy.rec [7%float] 0]
              (MlModel.init Toy.unfitted))
    as (_ & _ & _ & H & _);
    [reflexivity|done|reflexivity|repeat constructor; by eexists
    |intros [|idx] Hi; [eexists; reflexivity|lia]
    |reflexivity|done|reflexivity|repeat constructor; by eexists
    |intros [|idx] Hi; [eexists; reflexivity|lia]|].
  apply H; [lia|]. exists 0. eexists.
  split; [lia|]. split; reflexivity.
Defined.

(** C3, counterexample.  With exactly 20 rows in its history main.py fits
    nothing: its test is [len(X_history) > 20]. *)
Lemma main_skips_at_twenty_rows :
  ~ main_retrains_from 20 0 (Toy.main_with_history 20).
Proof. intros [_ H]. apply H; [vm_compute; lia|]. reflexivity. Qed.

(** C3, amended.  main.py leaves the state alone (no fit, no accuracy
    gauge) while the history has at most 20 rows.  With more than 20 it
    splits the two histories: when the split returns, the first fit is the
    one on the train part; when the split raises, as it does on histories of
    different lengths, nothing is fitted, nothing changes, and the error
    goes to the handler of the loop.  ml_model.py returns [0.0] and leaves
    the state alone below 4 rows (MIN_SAMPLES_TO_TRAIN), and from 4 rows on
    splits and fits in the same way, the error of a split that raises
    leaving [train_model].  So with main.py a cycle at 18 rows skips and
    one at 23 rows fits. *)
Theorem retrain_floor {Label Model} {lib : PyLib Label Model} :
  (forall (entropy : Z) (st : Main.state Label Model),
     (length (Main.X_history st) <= 20 ->
      Main.retraining_logic entropy st = (Ret tt, st)) /\
     (20 < length (Main.X_history st) ->
      match train_test_split (Main.X_history st) (Main.y_history st)
              0.2%float entropy with
      | Ret (X_train, X_test, y_train, y_test) =>
          exists rest,
            fits (new_events (Main.trace st)
                    (Main.trace (Main.retraining_logic entropy st).2))
            = (X_train, y_train) :: rest
      | Raise e => Main.retraining_logic entropy st = (Raise e, st)
      end)) /\
  (forall st : MlModel.state Label Model,
     (length (MlModel.X st) < 4 ->
      MlModel.train_model st = (Ret 0%float, st)) /\
     (4 <= length (MlModel.X st) ->
      match train_test_split (MlModel.X st) (MlModel.y st) 0.3%float 42 with
      | Ret (X_train, X_test, y_train, y_test) =>
          exists rest,
            fits (new_events (MlModel.trace st)
                    (MlModel.trace (MlModel.train_model st).2))
            = (X_train, y_train) :: rest
      | Raise e => MlModel.train_model st = (Raise e, st)
      end)).
Proof.
  split.
  - intros entropy st. split.
    + intros H. unfold Main.retraining_logic. run_m.
      destruct (decide (20 < length (Main.X_history st))); [lia|done].
    + intros H. unfold_main. run_m.
      destruct (decide (20 < length (Main.X_history st))); [|lia].
      destruct (train_test_split _ _ _ _)
        as [[[[X_train X_test] y_train] y_test]|e]; cbn; [|done].
      split_cases.
      all: rewrite <- ?app_assoc, new_events_app; cbn; by eexists.
  - intros st. split.
    + intros H. unfold MlModel.train_model, MlModel.MIN_SAMPLES_TO_TRAIN. run_m.
      destruct (decide (length (MlModel.X st) < 4)); [done|lia].
    + intros H. unfold_ml. unfold MlModel.MIN_SAMPLES_TO_TRAIN. run_m.
      destruct (decide (length (MlModel.X st) < 4)); [lia|].
      destruct (train_test_split _ _ _ _)
        as [[[[X_train X_test] y_train] y_test]|e]; cbn; [|done].
      split_cases.
      all: rewrite <- ?app_assoc, new_events_app; cbn; by eexists.
Qed.

(** C3, amended, on the scenario: 18 rows are skipped, 23 rows are split
    into 18 and 5 and fitted; and on 24 rows with 23 labels, where the
    split raises and nothing is fitted. *)
Lemma retrain_floor_witness :
  Main.retraining_logic 0 (Toy.main_with_history 18)
  = (Ret tt, Toy.main_with_history 18) /\
  (exists rest,
     fits (Main.trace (Main.retraining_logic 0 (Toy.main_with_history 23)).2)
     = (repeat [1%float; 2%float] 18, 0%Z :: repeat 1%Z 17) :: rest) /\
  fits (Main.trace (Main.retraining_logic 0 Samples.main_misaligned).2) = [].
Proof.
  destruct (@retrain_floor Z Toy.estimator Toy.lib) as [HM _].
  destruct (HM 0%Z (Toy.main_with_history 18)) as [H18 _].
  destruct (HM 0%Z (Toy.main_with_history 23)) as [_ H23].
  destruct (HM 0%Z Samples.main_misaligned) as [_ H24].
  split; [|split].
  - apply H18. vm_compute. lia.
  - apply (H23 ltac:(vm_compute; lia)).
  - specialize (H24 ltac:(vm_compute; lia)).
    change (Main.retraining_logic 0 Samples.main_misaligned
            = (Raise (Exn ValueError "inconsistent numbers of samples"),
               Samples.main_misaligned)) in H24.
    rewrite H24. reflexivity.
Defined.

(** C4.  main.py keeps its guarantee: after any cycles, whatever they met,
    its loop is still running.  ml_model.py does not: only [fetch_records]
    has a handler, so an error of the detectors ends the loop.  Here the
    first cycle fetches a batch whose second record has one feature where
    the first has two, [detect_drift] indexes past its end, and the
    [IndexError] leaves [ingestion_loop] before the cycle budget is used.
    (The detector first takes the deviation of the first column,
    [stdev([1.0, 1.0])]; were that call to raise, its error would end the
    loop in the same way.) *)
Theorem ml_model_loop_dies_on_ragged_batch
  {Label Model} {lib : PyLib Label Model} :
  (forall (ws : list (world Label)) (st : Main.state Label Model),
     (Main.ingestion_and_retrain_loop ws st).1 = Running) /\
  (forall (m0 : Model) (l1 l2 : Label) (delay : float) (entropy : Z)
          (ws : list (world Label)),
     let batch :=
       [Record_ (Some [1%float; 2%float]) (Some l1);
        Record_ (Some [1%float]) (Some l2)] in
     let w := World (Ret (Response 200 (Ret (JArray batch)))) delay entropy in
     (MlModel.ingestion_loop (w :: ws) (MlModel.init m0)).1
     = Crashed
         match statistics_stdev [1%float; 1%float] with
         | Ret _ => Exn IndexError "list index out of range"
         | Raise e => e
         end).
Proof.
  split; [apply main_loop_keeps_running|].
  intros m0 l1 l2 delay entropy ws batch w. cbn [MlModel.ingestion_loop].
  destruct (decide (MlModel.current_cycle (MlModel.init m0)
                    < MlModel.TRAIN_CYCLES)%Z) as [_|H]; [|by destruct H].
  pose proof (ml_cycle_ragged w (Response 200 (Ret (JArray batch))) l1 l2
                (MlModel.init m0) eq_refl ltac:(done) eq_refl) as E.
  destruct (MlModel.cycle w (MlModel.init m0)) as [[[]|e] st1];
    cbn [fst] in E; [discriminate E|].
  by injection E as ->.
Qed.

(** C5.  After a cycle that fetched a non-empty batch, the stored baseline
    is the identity of the batch's first record, whatever the baseline was
    and whatever was signalled: in main.py (records with features and
    label) the number of its features, in ml_model.py the set of their
    values. *)
Theorem baseline_is_identity_of_last_batch
  {Label Model} {lib : PyLib Label Model}
  (w : world Label) (resp : response Label) (r0 : record Label)
  (rs : list (record Label)) :
  w_get w = Ret resp -> status_code resp ≠ 503%Z ->
  json resp = Ret (JArray (r0 :: rs)) ->
  (forall st : Main.state Label Model,
     Forall complete (r0 :: rs) ->
     Main.previous_features_count (Main.cycle w st).2 = width r0) /\
  (forall st : MlModel.state Label Model,
     MlModel.previous_features (MlModel.cycle w st).2
     = py_set (default [] (rec_features r0))).
Proof.
  intros Hget Hs Hj. split; intros st.
  - intros Hc.
    by destruct (main_cycle_batch_spec w resp r0 rs st Hget Hs Hj Hc)
      as [H _].
  - by destruct (ml_cycle_batch_spec w resp (JArray (r0 :: rs)) r0 rs st
                   Hget Hs Hj eq_refl) as [H _].
Qed.

(** C5 on a 3-feature batch, from states whose baseline is 2 features. *)
Lemma baseline_is_identity_of_last_batch_witness :
  let w := Toy.ok [Toy.rec [3%float; 4%float; 5%float] 1] in
  Main.previous_features_count (Main.cycle w (Toy.main_with_history 5)).2 = 3
  /\ MlModel.previous_features (MlModel.cycle w (Toy.ml_with_history 2)).2
     = py_set [3%float; 4%float; 5%float].
Proof.
  intros w.
  destruct (baseline_is_identity_of_last_batch (lib:=Toy.lib) w
              (Response 200 (Ret (JArray [Toy.rec [3%float; 4%float; 5%float] 1])))
              (Toy.rec [3%float; 4%float; 5%float] 1) [])
    as [HM HL]; [reflexivity|done|reflexivity|].
  split; [apply HM|apply HL].
  repeat constructor; by eexists.
Defined.

(** C6, counterexample.  main.py: after a batch without features the
    baseline is 0, which the detector reads as "no baseline yet", so the
    wider batch that follows is not signalled. *)
Lemma added_signal_is_not_by_width :
  ~ main_added_iff_wider (Toy.rec [] 0) [] (Toy.rec [1%float] 0) []
      (Main.init Toy.unfitted).
Proof. intros H. vm_compute in H. discriminate H. Qed.

(** C6, amended.  Over two consecutive cycles of main.py that each fetched a
    batch (of records with features and label), the Added signal is given
    once in the second cycle, and the gauge set to 1, when the first record
    of the earlier batch has at least one feature and the first record of
    the later batch has more, and not otherwise. *)
Theorem added_signal_once_per_transition
  {Label Model} {lib : PyLib Label Model}
  (w1 w2 : world Label) (resp1 resp2 : response Label)
  (r1 r2 : record Label) (rs1 rs2 : list (record Label))
  (st : Main.state Label Model) :
  w_get w1 = Ret resp1 -> status_code resp1 ≠ 503%Z ->
  json resp1 = Ret (JArray (r1 :: rs1)) -> Forall complete (r1 :: rs1) ->
  w_get w2 = Ret resp2 -> status_code resp2 ≠ 503%Z ->
  json resp2 = Ret (JArray (r2 :: rs2)) -> Forall complete (r2 :: rs2) ->
  let st1 := (Main.cycle w1 st).2 in
  let st2 := (Main.cycle w2 st1).2 in
  let grew := bool_decide (width r1 ≠ 0 /\ width r1 < width r2) in
  count_alerts is_added_alert_main
    (new_events (Main.trace st1) (Main.trace st2))
  = (if grew then 1 else 0) /\
  feature_added (Main.registry st2)
  = (if grew then 1%Z else feature_added (Main.registry st1)).
Proof.
  intros Hg1 Hs1 Hj1 Hc1 Hg2 Hs2 Hj2 Hc2 st1 st2 grew.
  destruct (main_cycle_batch_spec w1 resp1 r1 rs1 st Hg1 Hs1 Hj1 Hc1)
    as (B1 & _).
  destruct (main_cycle_batch_spec w2 resp2 r2 rs2 st1 Hg2 Hs2 Hj2 Hc2)
    as (_ & B2 & B3).
  fold st1 in B1. rewrite B1 in B2, B3. done.
Qed.

(** C6, amended, on a batch with one feature followed by one with two. *)
Lemma added_signal_once_per_transition_witness :
  let w1 := Toy.ok [Toy.rec [1%float] 0] in
  let w2 := Toy.ok [Toy.rec [1%float; 2%float] 0] in
  let m1 := (Main.cycle w1 (Main.init Toy.unfitted)).2 in
  count_alerts is_added_alert_main
    (new_events (Main.trace m1) (Main.trace (Main.cycle w2 m1).2)) = 1.
Proof.
  intros w1 w2 m1.
  destruct (added_signal_once_per_transition (lib:=Toy.lib) w1 w2
              (Response 200 (Ret (JArray [Toy.rec [1%float] 0])))
              (Response 200 (Ret (JArray [Toy.rec [1%float; 2%float] 0])))
              (Toy.rec [1%float] 0) (Toy.rec [1%float; 2%float] 0) [] []
              (Main.init Toy.unfitted))
    as [H _];
    [reflexivity|done|reflexivity|repeat constructor; by eexists
    |reflexivity|done|reflexivity|repeat constructor; by eexists|].
  exact H.
Defined.

(** C7.  A fetch answered by HTTP 503: in both files the cycle returns, the
    processed-records counter keeps its value, the unavailable counter grows
    by exactly one, one alert is raised, and the history, the model and the
    detectors' state are the ones the cycle started with. *)
Theorem unavailable_503_counted_once {Label Model} {lib : PyLib Label Model}
  (w : world Label) (resp : response Label) :
  w_get w = Ret resp -> status_code resp = 503%Z ->
  (forall st : Main.state Label Model,
     exists st',
       Main.cycle w st = (Ret tt, st') /\
       records_processed_total (Main.registry st')
         = records_processed_total (Main.registry st) /\
       datalake_unavailable (Main.registry st')
         = (datalake_unavailable (Main.registry st) + 1)%Z /\
       Main.trace st'
         = Main.trace st ++
             [EvAlert [Lit "Data Lake 503 - Service Unavailable"]; EvSleep 30] /\
       Main.X_history st' = Main.X_history st /\
       Main.y_history st' = Main.y_history st /\
       Main.previous_features_count st' = Main.previous_features_count st /\
       Main.model st' = Main.model st) /\
  (forall st : MlModel.state Label Model,
     exists st',
       MlModel.cycle w st = (Ret tt, st') /\
       records_processed_total (MlModel.registry st')
         = records_processed_total (MlModel.registry st) /\
       datalake_unavailable (MlModel.registry st')
         = (datalake_unavailable (MlModel.registry st) + 1)%Z /\
       MlModel.trace st'
         = MlModel.trace st ++
             [EvAlert [Lit "Data Lake unavailable! 503 detected"];
              EvPrint [Lit "Data Lake unavailable! 503 detected."];
              EvSleep 10] /\
       MlModel.X st' = MlModel.X st /\
       MlModel.y st' = MlModel.y st /\
       MlModel.previous_features st' = MlModel.previous_features st /\
       MlModel.feature_stats st' = MlModel.feature_stats st /\
       MlModel.current_cycle st' = MlModel.current_cycle st /\
       MlModel.model st' = MlModel.model st).
Proof.
  intros Hget H503. split; intros st.
  - unfold_main. run_m. rewrite Hget.
    destruct (decide (status_code resp = 503%Z)); [|done].
    cbn. eexists. split; [reflexivity|]. cbn.
    by rewrite <- app_assoc.
  - unfold_ml. run_m. rewrite Hget.
    destruct (decide (status_code resp = 503%Z)); [|done].
    cbn. eexists. split; [reflexivity|]. cbn.
    by rewrite <- !app_assoc.
Qed.

(** C7 on a 503 answer whose body is not JSON, from the initial states. *)
Lemma unavailable_503_counted_once_witness :
  datalake_unavailable
    (Main.registry (Main.cycle Toy.unavailable (Main.init Toy.unfitted)).2)
    = 1%Z /\
  datalake_unavailable
    (MlModel.registry
       (MlModel.cycle Toy.unavailable (MlModel.init Toy.unfitted)).2)
    = 1%Z.
Proof.
  destruct (unavailable_503_counted_once Toy.unavailable
              (Response 503 (Raise (Exn JSONDecodeError "Expecting value")))
              eq_refl eq_refl) as [HM HL].
  destruct (HM (Main.init Toy.unfitted)) as (st1 & E1 & _ & U1 & _).
  destruct (HL (MlModel.init Toy.unfitted)) as (st2 & E2 & _ & U2 & _).
  rewrite E1, E2. cbn [snd]. rewrite U1, U2. split; reflexivity.
Defined.

(** C8 on a refused connection: ml_model.py does not keep to the claim, it
    alerts and counts the failure as an unavailability. *)
Lemma network_failure_alerted_in_ml_model :
  ~ ml_failure_logged_only Toy.unreachable (MlModel.init Toy.unfitted).
Proof. intros (H & _). vm_compute in H. discriminate. Qed.

(** C8.  When [requests.get] raises [e], main.py does what the claim says:
    it only prints the error and sleeps: no alert, no counter or gauge
    changes, nothing else changes.  ml_model.py does not: it skips the
    cycle without advancing the cycle counter, but [fetch_records] counts
    the failure in the unavailable counter, which the file registers as the
    number of 503 answers, raises the alert "Error fetching data: e" and
    prints it. *)
Theorem network_failure_skips_cycle {Label Model} {lib : PyLib Label Model}
  (w : world Label) (e : exn) :
  w_get w = Raise e ->
  (forall st : Main.state Label Model,
     Main.cycle w st
     = (Ret tt,
        Main.State (Main.model st) (Main.X_history st) (Main.y_history st)
          (Main.previous_features_count st) (Main.registry st)
          (Main.trace st ++
             [EvPrint [Lit "Loop Error: "; Str e]; EvSleep 20]))) /\
  (forall st : MlModel.state Label Model,
     MlModel.cycle w st
     = (Ret tt,
        MlModel.State (MlModel.model st) (MlModel.X st) (MlModel.y st)
          (MlModel.retrain_count st) (MlModel.current_cycle st)
          (MlModel.previous_features st) (MlModel.feature_stats st)
          (set_datalake_unavailable
             (datalake_unavailable (MlModel.registry st) + 1)
             (MlModel.registry st))
          (MlModel.trace st ++
             [EvAlert [Lit "Error fetching data: "; Str e];
              EvPrint [Lit "Error fetching data:"; Lit " "; Str e];
              EvSleep 10]))).
Proof.
  intros Hget. split; intros st.
  - unfold_main. run_m. rewrite Hget. cbn. by rewrite <- app_assoc.
  - unfold_ml. run_m. rewrite Hget. cbn. by rewrite <- !app_assoc.
Qed.

(** C8 on a refused connection, from the initial states. *)
Lemma network_failure_skips_cycle_witness :
  alerts (Main.trace (Main.cycle Toy.unreachable (Main.init Toy.unfitted)).2)
    = [] /\
  MlModel.current_cycle
    (MlModel.cycle Toy.unreachable (MlModel.init Toy.unfitted)).2 = 0%Z.
Proof.
  destruct (network_failure_skips_cycle Toy.unreachable
              (Exn ConnectionError "Connection refused") eq_refl) as [HM HL].
  rewrite HM, HL. split; reflexivity.
Defined.

(** C9.  For every input string the endpoint returns a reply and never
    raises; it changes nothing.  The reply is a prediction exactly when
    every piece of the string parses as a float, the model returns labels
    for the one row of the parsed values, and [int] accepts the first
    label; the prediction is that integer.  Otherwise the reply is the text
    of the first error: of the piece that does not parse, of the model that
    rejects the row, or of [int].  So when the two pieces of
    ["680.2,679.3"] parse and the model accepts two features, the reply is
    the integer label, and when the model rejects the three features of
    ["1,2,3"], the reply is the error's text. *)
Theorem predict_never_raises {Label Model} {lib : PyLib Label Model}
  (st : Main.state Label Model) :
  (forall features : string,
     exists r : reply, Main.predict features st = (Ret r, st)) /\
  (forall (features : string) (feat_list : list float) (l : Label)
          (ls : list Label) (z : Z),
     map_result py_float (split_on "," features) = Ret feat_list ->
     model_predict (Main.model st) [feat_list] = Ret (l :: ls) ->
     py_int l = Ret z ->
     Main.predict features st = (Ret (Reply_prediction z), st)) /\
  (forall (features : string) (z : Z),
     Main.predict features st = (Ret (Reply_prediction z), st) ->
     exists feat_list l ls,
       map_result py_float (split_on "," features) = Ret feat_list /\
       model_predict (Main.model st) [feat_list] = Ret (l :: ls) /\
       py_int l = Ret z) /\
  (forall (features : string) (e : exn),
     map_result py_float (split_on "," features) = Raise e ->
     Main.predict features st = (Ret (Reply_error (exn_str e)), st)) /\
  (forall (features : string) (feat_list : list float) (e : exn),
     map_result py_float (split_on "," features) = Ret feat_list ->
     model_predict (Main.model st) [feat_list] = Raise e ->
     Main.predict features st = (Ret (Reply_error (exn_str e)), st)) /\
  (forall (features : string) (feat_list : list float) (l : Label)
          (ls : list Label) (e : exn),
     map_result py_float (split_on "," features) = Ret feat_list ->
     model_predict (Main.model st) [feat_list] = Ret (l :: ls) ->
     py_int l = Raise e ->
     Main.predict features st = (Ret (Reply_error (exn_str e)), st)) /\
  (forall (a b : float) (l : Label) (ls : list Label) (z : Z),
     py_float "680.2" = Ret a -> py_float "679.3" = Ret b ->
     model_predict (Main.model st) [[a; b]] = Ret (l :: ls) ->
     py_int l = Ret z ->
     Main.predict "680.2,679.3" st = (Ret (Reply_prediction z), st)) /\
  (forall (a b c : float) (e : exn),
     py_float "1" = Ret a -> py_float "2" = Ret b -> py_float "3" = Ret c ->
     model_predict (Main.model st) [[a; b; c]] = Raise e ->
     Main.predict "1,2,3" st = (Ret (Reply_error (exn_str e)), st)).
Proof.
  repeat apply conj.
  - intros features. unfold Main.predict. run_m.
    destruct (map_result py_float (split_on "," features)) as [fl|e]; cbn;
      [|by eexists].
    destruct (model_predict (Main.model st) [fl]) as [[|p ps]|e]; cbn;
      try by eexists.
    destruct (py_int p); cbn; by eexists.
  - intros features fl l ls z Hf Hp Hz. unfold Main.predict. run_m.
    rewrite Hf. cbn. rewrite Hp. cbn. by rewrite Hz.
  - intros features z. unfold Main.predict. run_m.
    destruct (map_result py_float (split_on "," features)) as [fl|e] eqn:Hf;
      cbn; [|discriminate].
    destruct (model_predict (Main.model st) [fl]) as [[|p ps]|e] eqn:Hp; cbn;
      try discriminate.
    destruct (py_int p) as [z'|e] eqn:Hz; cbn; [|discriminate].
    intros [= ->]. exists fl, p, ps. rewrite Hp, Hz. done.
  - intros features e Hf. unfold Main.predict. run_m. by rewrite Hf.
  - intros features fl e Hf Hp. unfold Main.predict. run_m.
    rewrite Hf. cbn. by rewrite Hp.
  - intros features fl l ls e Hf Hp Hz. unfold Main.predict. run_m.
    rewrite Hf. cbn. rewrite Hp. cbn. by rewrite Hz.
  - intros a b l ls z Ha Hb Hp Hz. unfold Main.predict. run_m.
    rewrite Ha, Hb. cbn. rewrite Hp. cbn. by rewrite Hz.
  - intros a b c e Ha Hb Hc Hp. unfold Main.predict. run_m.
    rewrite Ha, Hb, Hc. cbn. by rewrite Hp.
Qed.

(** C9 on the two requests of the scenario and on another well-formed
    request, against a 2-feature model. *)
Lemma predict_never_raises_witness :
  let st := Main.init Toy.two_feature_model in
  Main.predict "680.2,679.3" st = (Ret (Reply_prediction 7), st) /\
  Main.predict "1,2,3" st
  = (Ret (Reply_error "X has a different number of features"), st) /\
  Main.predict "0.5,12" st = (Ret (Reply_prediction 7), st) /\
  Main.predict "0.5,twelve" st
  = (Ret (Reply_error "could not convert string to float"), st).
Proof.
  intros st.
  destruct (predict_never_raises st) as (_ & H1 & _ & H2 & _ & _ & H3 & H4).
  split; [|split; [|split]].
  - apply (H3 680.2%float 679.3%float 7%Z [] 7%Z); reflexivity.
  - apply (H4 1%float 2%float 3%float
             (Exn ValueError "X has a different number of features"));
      reflexivity.
  - apply (H1 "0.5,12" [0.5%float; 12%float] 7%Z [] 7%Z); reflexivity.
  - apply (H2 "0.5,twelve"
             (Exn ValueError "could not convert string to float")).
    reflexivity.
Defined.

(** C10.  Over the life of either process the feature-added and the
    feature-removed gauges never decrease: in main.py they hold 0 until they
    are set to 1 and nothing writes another value; in ml_model.py they are
    only incremented.  The prediction endpoint changes no state.  The drift
    gauge of ml_model.py is different: every cycle that processed a batch
    and returned has written 0 or 1 to it, and a 1 is written back to 0 by
    the next batch without drift. *)
Theorem schema_gauges_latch {Label Model} {lib : PyLib Label Model} :
  (forall (m0 : Model) (ws1 ws2 : list (world Label)),
     let st1 := (Main.ingestion_and_retrain_loop ws1 (Main.init m0)).2 in
     let st2 := (Main.ingestion_and_retrain_loop ws2 st1).2 in
     (0 <= feature_added (Main.registry st1) <= 1)%Z /\
     (feature_added (Main.registry st1)
        <= feature_added (Main.registry st2))%Z /\
     (0 <= feature_removed (Main.registry st1) <= 1)%Z /\
     (feature_removed (Main.registry st1)
        <= feature_removed (Main.registry st2))%Z) /\
  (forall (features : string) (st : Main.state Label Model),
     (Main.predict features st).2 = st) /\
  (forall (ws : list (world Label)) (st : MlModel.state Label Model),
     let st' := (MlModel.ingestion_loop ws st).2 in
     (feature_added (MlModel.registry st)
        <= feature_added (MlModel.registry st'))%Z /\
     (feature_removed (MlModel.registry st)
        <= feature_removed (MlModel.registry st'))%Z) /\
  (forall (w : world Label) (resp : response Label) (r0 : record Label)
          (rs : list (record Label)) (st : MlModel.state Label Model),
     w_get w = Ret resp -> status_code resp ≠ 503%Z ->
     json resp = Ret (JArray (r0 :: rs)) ->
     (MlModel.cycle w st).1 = Ret tt ->
     distribution_drift_detected (MlModel.registry (MlModel.cycle w st).2)
       = 0%Z \/
     distribution_drift_detected (MlModel.registry (MlModel.cycle w st).2)
       = 1%Z) /\
  (let st1 := (MlModel.cycle (Toy.ok [Toy.rec [1%float] 0])
                 (MlModel.init Toy.unfitted)).2 in
   let st2 := (MlModel.cycle (Toy.ok [Toy.rec [5%float] 0]) st1).2 in
   let st3 := (MlModel.cycle (Toy.ok [Toy.rec [5%float] 0]) st2).2 in
   distribution_drift_detected (MlModel.registry st2) = 1%Z /\
   distribution_drift_detected (MlModel.registry st3) = 0%Z).
Proof.
  split; [|split; [|split; [|split]]].
  - intros m0 ws1 ws2 st1 st2.
    destruct (main_loop_latch ws1 (Main.init m0)) as [A1 R1].
    destruct (main_loop_latch ws2 st1) as [A2 R2].
    fold st1 in A1, R1. fold st2 in A2, R2. cbn in A1, R1. lia.
  - intros features st. apply main_predict_keeps_state.
  - intros ws st. apply ml_loop_latch.
  - intros w resp r0 rs st Hget Hs Hj Hret.
    by apply (ml_cycle_rewrites_drift_gauge w resp (JArray (r0 :: rs)) r0 rs).
  - vm_compute. done.
Qed.

(** C10 on the first cycle of ml_model.py. *)
Lemma schema_gauges_latch_witness :
  let w := Toy.ok [Toy.rec [1%float] 0] in
  distribution_drift_detected
    (MlModel.registry (MlModel.cycle w (MlModel.init Toy.unfitted)).2) = 0%Z
  \/ distribution_drift_detected
       (MlModel.registry (MlModel.cycle w (MlModel.init Toy.unfitted)).2)
     = 1%Z.
Proof.
  intros w.
  destruct (@schema_gauges_latch Z Toy.estimator Toy.lib)
    as (_ & _ & _ & H & _).
  apply (H w (Response 200 (Ret (JArray [Toy.rec [1%float] 0])))
           (Toy.rec [1%float] 0) []); [reflexivity|done|reflexivity|].
  vm_compute. reflexivity.
Defined.

(** * Further properties of the two files *)

(** ** [send_slack_alert] *)

(** X1.  [send_slack_alert] never raises, whatever the post does.  With an
    empty webhook or one that holds "XXXX" it posts nothing and prints the
    message once.  Otherwise it posts exactly once, to the webhook, with the
    2 second timeout, and prints once more exactly when the post raised or
    was not answered by status 200. *)
Theorem send_slack_alert_contract (webhook : string)
  (post : result (Z * string)) (msg : message) :
  let out := Slack.send_slack_alert webhook post msg in
  out.1 = Ret tt /\
  (webhook = EmptyString \/ Slack.contains "XXXX" webhook = true ->
   out.2 = [Slack.Print (Lit "DEBUG ALERT: " :: msg)]) /\
  (webhook ≠ EmptyString -> Slack.contains "XXXX" webhook = false ->
   Slack.posts out.2 = [(webhook, Lit "🚨 *MLOps Alert*: " :: msg, 2%Z)] /\
   (length out.2 = 1 <-> exists text, post = Ret (200%Z, text)) /\
   1 <= length out.2 <= 2).
Proof.
  cbv zeta. unfold Slack.send_slack_alert.
  destruct (String.eqb_spec webhook EmptyString) as [->|Hne].
  - cbn. split; [done|]. split; done.
  - cbn [orb]. destruct (Slack.contains "XXXX" webhook) eqn:Hc.
    + split; [done|]. split; done.
    + split; [|split; [intros [?|?]; done|intros _ _]].
      * destruct post as [[status text]|e]; [by destruct (decide _)|].
        by destruct (exn_class e).
      * destruct post as [[status text]|e].
        -- destruct (decide (status ≠ 200%Z)) as [Hs|Hs]; cbn.
           ++ split; [done|]. split; [|lia]. split; [lia|].
              intros (t & [= -> _]). done.
           ++ apply dec_stable in Hs as ->. split; [done|]. split; [|lia].
              split; [|done]. intros _. by eexists.
        -- destruct (exn_class e); cbn; (split; [done|]); (split; [|lia]);
             (split; [lia|]); by intros (t & ?).
Qed.

(** X1 on the webhook main.py ships with: it holds no "XXXX", so a post is
    made; here the post times out. *)
Lemma send_slack_alert_contract_witness :
  Slack.posts
    (Slack.send_slack_alert Slack.SLACK_WEBHOOK
       (Raise (Exn Timeout "timed out")) [Lit "Feature Added detected"]).2
  = [(Slack.SLACK_WEBHOOK,
      [Lit "🚨 *MLOps Alert*: "; Lit "Feature Added detected"], 2%Z)].
Proof.
  destruct (send_slack_alert_contract Slack.SLACK_WEBHOOK
              (Raise (Exn Timeout "timed out"))
              [Lit "Feature Added detected"]) as (_ & _ & H).
  destruct H as [H _]; [done|reflexivity|exact H].
Defined.

(** ** The training history *)

Lemma for_each_app {S A} (xs ys : list A) (body : A -> M S unit) (st : S) :
  for_each (xs ++ ys) body st
  = (for_each xs body ;; for_each ys body) st.
Proof.
  revert st. induction xs as [|x xs IH]; intros st; cbn.
  - unfold bind, ret. reflexivity.
  - unfold bind in *. destruct (body x st) as [[[]|e] st1]; [|done].
    apply IH.
Qed.

#[global] Instance main_keeps_ingested_preorder {Label Model} :
  PreOrder (@main_keeps_ingested Label Model).
Proof.
  split.
  - intros st. by repeat split.
  - intros a b c (H1 & H2 & H3 & H4) (H5 & H6 & H7 & H8).
    repeat split; congruence.
Qed.

#[global] Instance ml_history_paired_preorder {Label Model} :
  PreOrder (@ml_history_paired Label Model).
Proof.
  split.
  - intros st. exists []. cbn. by rewrite !app_nil_r.
  - intros a b c (p1 & H1 & H2) (p2 & H3 & H4). exists (p1 ++ p2).
    split; [rewrite H3, H1|rewrite H4, H2]; by rewrite fmap_app, app_assoc.
Qed.

Ltac keeps_ingested_main := unfold main_keeps_ingested; cbn; done.

Ltac paired_ml :=
  unfold ml_history_paired; exists []; cbn; by rewrite !app_nil_r.

Section Histories.
Context {Label Model : Type} {lib : PyLib Label Model}.

(** The loop of lines 83-85 over records that all have both members. *)
Lemma main_append_loop_complete (rs : list (record Label))
  (st : Main.state Label Model) :
  Forall complete rs ->
  for_each rs (fun r =>
    f <- lift (getitem_features r) ;;
    Main.X_history_append f ;;
    l <- lift (getitem_label r) ;;
    Main.y_history_append l) st
  = (Ret tt,
     Main.State (Main.model st) (Main.X_history st ++ features_of rs)
       (Main.y_history st ++ labels_of rs) (Main.previous_features_count st)
       (Main.registry st) (Main.trace st)).
Proof.
  intros H. revert st. induction H as [|r rs [[f Hf] [l Hl]] _ IH]; intros st.
  - cbn. rewrite !app_nil_r. by destruct st.
  - cbn [for_each]. unfold getitem_features, getitem_label,
      Main.X_history_append, Main.y_history_append.
    unfold bind at 1 2 3 4, lift, modify. rewrite Hf, Hl. cbn.
    rewrite IH. cbn. unfold features_of, labels_of. cbn. rewrite Hf, Hl. cbn.
    by rewrite <- !app_assoc.
Qed.

Lemma features_of_complete (rs : list (record Label)) :
  Forall complete rs ->
  length (features_of rs) = length rs /\ length (labels_of rs) = length rs.
Proof.
  induction 1 as [|r rs [[f Hf] [l Hl]] _ [IH1 IH2]]; [done|].
  unfold features_of, labels_of in *. cbn. rewrite Hf, Hl. cbn. lia.
Qed.

Lemma main_detect_feature_changes_keeps_ingested (r0 : record Label) :
  preserves main_keeps_ingested
    (Main.detect_feature_changes (Model:=Model) r0).
Proof. unfold_main. preserves_go keeps_ingested_main. Qed.

Lemma main_retraining_logic_keeps_ingested (entropy : Z) :
  preserves main_keeps_ingested (Main.retraining_logic entropy).
Proof. unfold_main. preserves_go keeps_ingested_main. Qed.

Lemma main_cycle_tail_keeps_ingested (w : world Label)
  (st : Main.state Label Model) :
  main_keeps_ingested (Main.cycle_body w st).2 (Main.cycle w st).2.
Proof.
  unfold Main.cycle, try_except, bind.
  destruct (Main.cycle_body w st) as [[[]|e] s]; cbn; keeps_ingested_main.
Qed.

End Histories.

(** X2.  A cycle of main.py that fetched a batch whose records all have
    features and label appends every record once and in order to both
    histories and counts the batch, whatever the detector and the training
    step do afterwards (a training error does not undo the ingestion). *)
Theorem main_history_grows_by_batch {Label Model} {lib : PyLib Label Model}
  (w : world Label) (resp : response Label) (r0 : record Label)
  (rs : list (record Label)) (st : Main.state Label Model) :
  w_get w = Ret resp -> status_code resp ≠ 503%Z ->
  json resp = Ret (JArray (r0 :: rs)) -> Forall complete (r0 :: rs) ->
  let st' := (Main.cycle w st).2 in
  Main.X_history st' = Main.X_history st ++ features_of (r0 :: rs) /\
  Main.y_history st' = Main.y_history st ++ labels_of (r0 :: rs) /\
  length (features_of (r0 :: rs)) = length (r0 :: rs) /\
  length (labels_of (r0 :: rs)) = length (r0 :: rs) /\
  records_processed_total (Main.registry st')
  = (records_processed_total (Main.registry st)
     + Z.of_nat (length (r0 :: rs)))%Z.
Proof.
  intros Hget Hs Hj Hc st'.
  destruct (features_of_complete (r0 :: rs) Hc) as [L1 L2].
  pose proof (main_cycle_tail_keeps_ingested w st) as (T1 & T2 & T3 & _).
  fold st' in T1, T2, T3.
  assert (Hb : Main.cycle_body w st
               = ((Main.detect_feature_changes r0 ;;
                   Main.retraining_logic (w_entropy w) ;; ret Next)
                    (Main.State (Main.model st)
                       (Main.X_history st ++ features_of (r0 :: rs))
                       (Main.y_history st ++ labels_of (r0 :: rs))
                       (Main.previous_features_count st)
                       (set_records_processed_total
                          (records_processed_total (Main.registry st)
                           + Z.of_nat (length (r0 :: rs)))
                          (set_response_delay_seconds (w_delay w)
                             (Main.registry st)))
                       (Main.trace st)))).
  { unfold Main.cycle_body, Main.update_registry.
    unfold bind at 1 2, lift, modify. rewrite Hget. cbn.
    destruct (decide (status_code resp = 503%Z)); [done|].
    unfold bind at 1. rewrite Hj.
    unfold Main.process_records, Main.update_registry.
    unfold bind at 1 2, modify.
    rewrite (main_append_loop_complete (r0 :: rs) _ Hc). reflexivity. }
  rewrite Hb in T1, T2, T3.
  match type of T1 with
  | context [(?c ?s0).2] =>
      assert (K : main_keeps_ingested s0 (c s0).2)
  end.
  { apply (preserves_bind _);
      [apply main_detect_feature_changes_keeps_ingested|intros ?].
    apply (preserves_bind _);
      [apply main_retraining_logic_keeps_ingested|intros ?].
    apply (preserves_ret _). }
  destruct K as (K1 & K2 & K3 & _).
  rewrite T1, T2, T3, K1, K2, K3. done.
Qed.

(** X2 on a batch of two records, from a history of five rows. *)
Lemma main_history_grows_by_batch_witness :
  let w := Toy.ok [Toy.rec [3%float; 4%float] 1; Toy.rec [5%float; 6%float] 0] in
  Main.X_history (Main.cycle w (Toy.main_with_history 5)).2
  = repeat [1%float; 2%float] 5 ++ [[3%float; 4%float]; [5%float; 6%float]].
Proof.
  intros w.
  destruct (main_history_grows_by_batch (lib:=Toy.lib) w
              (Response 200 (Ret (JArray
                 [Toy.rec [3%float; 4%float] 1; Toy.rec [5%float; 6%float] 0])))
              (Toy.rec [3%float; 4%float] 1) [Toy.rec [5%float; 6%float] 0]
              (Toy.main_with_history 5)) as [H _];
    [reflexivity|done|reflexivity|repeat constructor; by eexists|exact H].
Defined.

Section Misaligned.
Context {Label Model : Type} {lib : PyLib Label Model}.

(** The loop of lines 83-85 reaching a record that has features but no
    label: the features are appended, then [r['label']] raises. *)
Lemma main_append_loop_stops (pre post : list (record Label))
  (r : record Label) (f : list float) (st : Main.state Label Model) :
  Forall complete pre -> rec_features r = Some f -> rec_label r = None ->
  for_each (pre ++ r :: post) (fun r =>
    f <- lift (getitem_features r) ;;
    Main.X_history_append f ;;
    l <- lift (getitem_label r) ;;
    Main.y_history_append l) st
  = (Raise (Exn KeyError "'label'"),
     Main.State (Main.model st) (Main.X_history st ++ features_of pre ++ [f])
       (Main.y_history st ++ labels_of pre) (Main.previous_features_count st)
       (Main.registry st) (Main.trace st)).
Proof.
  intros Hc Hf Hl. rewrite for_each_app.
  rewrite (bind_ret_eq _ _ _ _ _ (main_append_loop_complete pre st Hc)).
  cbn [for_each]. unfold getitem_features, getitem_label,
    Main.X_history_append. unfold bind, lift, modify. rewrite Hf, Hl. cbn.
  by rewrite <- app_assoc.
Qed.

End Misaligned.

(** X3.  main.py appends the features of a record before it reads its
    label.  When a batch holds a record with features and without label
    (after records that have both), the cycle is caught by the handler and
    returns, but the whole batch was already counted, the features of that
    record are in X_history without a label in y_history, the records after
    it are dropped, and the schema detector did not run: from equally long
    histories, X_history ends one row longer than y_history. *)
Theorem main_missing_label_misaligns_history
  {Label Model} {lib : PyLib Label Model}
  (w : world Label) (resp : response Label) (pre post : list (record Label))
  (r : record Label) (f : list float) (st : Main.state Label Model) :
  w_get w = Ret resp -> status_code resp ≠ 503%Z ->
  json resp = Ret (JArray (pre ++ r :: post)) ->
  Forall complete pre -> rec_features r = Some f -> rec_label r = None ->
  Main.cycle w st
  = (Ret tt,
     Main.State (Main.model st) (Main.X_history st ++ features_of pre ++ [f])
       (Main.y_history st ++ labels_of pre) (Main.previous_features_count st)
       (set_records_processed_total
          (records_processed_total (Main.registry st)
           + Z.of_nat (length (pre ++ r :: post)))
          (set_response_delay_seconds (w_delay w) (Main.registry st)))
       (Main.trace st ++
          [EvPrint [Lit "Loop Error: "; Str (Exn KeyError "'label'")];
           EvSleep 20])) /\
  (length (Main.X_history st) = length (Main.y_history st) ->
   length (Main.X_history (Main.cycle w st).2)
   = S (length (Main.y_history (Main.cycle w st).2))).
Proof.
  intros Hget Hs Hj Hc Hf Hl.
  assert (E : Main.cycle w st
              = (Ret tt,
                 Main.State (Main.model st)
                   (Main.X_history st ++ features_of pre ++ [f])
                   (Main.y_history st ++ labels_of pre)
                   (Main.previous_features_count st)
                   (set_records_processed_total
                      (records_processed_total (Main.registry st)
                       + Z.of_nat (length (pre ++ r :: post)))
                      (set_response_delay_seconds (w_delay w)
                         (Main.registry st)))
                   (Main.trace st ++
                      [EvPrint
                         [Lit "Loop Error: "; Str (Exn KeyError "'label'")];
                       EvSleep 20]))).
  { assert (Eb : Main.cycle_body w st
                 = (Raise (Exn KeyError "'label'"),
                    Main.State (Main.model st)
                      (Main.X_history st ++ features_of pre ++ [f])
                      (Main.y_history st ++ labels_of pre)
                      (Main.previous_features_count st)
                      (set_records_processed_total
                         (records_processed_total (Main.registry st)
                          + Z.of_nat (length (pre ++ r :: post)))
                         (set_response_delay_seconds (w_delay w)
                            (Main.registry st)))
                      (Main.trace st))).
    { unfold Main.cycle_body.
      erewrite bind_ret_eq by (unfold lift; rewrite Hget; reflexivity).
      erewrite bind_ret_eq by reflexivity.
      destruct (decide (status_code resp = 503%Z)); [done|].
      erewrite bind_ret_eq by (unfold lift; rewrite Hj; reflexivity).
      destruct (pre ++ r :: post) as [|r0 rest] eqn:Ep; [by destruct pre|].
      rewrite <- Ep. apply bind_raise_eq.
      unfold Main.process_records.
      erewrite bind_ret_eq by reflexivity.
      rewrite (main_append_loop_stops pre post r f _ Hc Hf Hl).
      reflexivity. }
    unfold Main.cycle, try_except. unfold bind at 1. rewrite Eb.
    unfold Main.emit, bind, modify, ret. cbn. by rewrite <- app_assoc. }
  split; [exact E|]. intros Hlen. rewrite E. cbn.
  destruct (features_of_complete pre Hc) as [L1 L2].
  rewrite !length_app, L1, L2, Hlen. cbn. lia.
Qed.

(** X3 on a batch whose second record has no label. *)
Lemma main_missing_label_misaligns_history_witness :
  let w := Toy.ok [Toy.rec [3%float] 1; Record_ (Some [4%float]) None;
                   Toy.rec [5%float] 0] in
  let st' := (Main.cycle w (Main.init Toy.unfitted)).2 in
  Main.X_history st' = [[3%float]; [4%float]] /\
  Main.y_history st' = [1%Z] /\
  records_processed_total (Main.registry st') = 3%Z.
Proof.
  intros w st'.
  destruct (main_missing_label_misaligns_history (lib:=Toy.lib) w
              (Response 200 (Ret (JArray
                 [Toy.rec [3%float] 1; Record_ (Some [4%float]) None;
                  Toy.rec [5%float] 0])))
              [Toy.rec [3%float] 1] [Toy.rec [5%float] 0]
              (Record_ (Some [4%float]) None) [4%float]
              (Main.init Toy.unfitted)) as [E _];
    [reflexivity|done|reflexivity|repeat constructor; by eexists
    |reflexivity|reflexivity|].
  subst st'. rewrite E. repeat split.
Defined.

#[global] Instance ml_keeps_ingested_preorder {Label Model} :
  PreOrder (@ml_keeps_ingested Label Model).
Proof.
  split.
  - intros st. by repeat split.
  - intros a b c (H1 & H2 & H3 & H4) (H5 & H6 & H7 & H8).
    repeat split; congruence.
Qed.

Ltac keeps_ingested_ml := unfold ml_keeps_ingested; cbn; done.

Section MlHistories.
Context {Label Model : Type} {lib : PyLib Label Model}.

(** Lines 146-151: the records with both members are appended, in order. *)
Lemma ml_append_records_spec (rs : list (record Label))
  (st : MlModel.state Label Model) :
  MlModel.append_records rs st
  = (Ret tt,
     MlModel.State (MlModel.model st) (MlModel.X st ++ (pairs_of rs).*1)
       (MlModel.y st ++ (pairs_of rs).*2) (MlModel.retrain_count st)
       (MlModel.current_cycle st) (MlModel.previous_features st)
       (MlModel.feature_stats st) (MlModel.registry st) (MlModel.trace st)).
Proof.
  unfold MlModel.append_records. revert st.
  induction rs as [|r rs IH]; intros st.
  - cbn. rewrite !app_nil_r. by destruct st.
  - cbn [for_each]. unfold pairs_of. cbn [omap list_omap].
    fold (pairs_of rs).
    destruct (rec_features r) as [f|], (rec_label r) as [l|];
      (erewrite bind_ret_eq by reflexivity); rewrite IH; cbn;
      rewrite <- ?app_assoc; reflexivity.
Qed.

Lemma ml_append_records_paired (rs : list (record Label)) :
  preserves ml_history_paired (MlModel.append_records (Model:=Model) rs).
Proof.
  intros st. rewrite ml_append_records_spec. by exists (pairs_of rs).
Qed.

Lemma ml_fetch_records_paired (w : world Label) :
  preserves ml_history_paired (MlModel.fetch_records (Model:=Model) w).
Proof. unfold_ml. preserves_go paired_ml. Qed.

Lemma ml_detect_feature_changes_paired (rs : list (record Label)) :
  preserves ml_history_paired
    (MlModel.detect_feature_changes (Model:=Model) rs).
Proof. unfold_ml. preserves_go paired_ml. Qed.

Lemma ml_detect_drift_paired (rs : list (record Label)) :
  preserves ml_history_paired (MlModel.detect_drift (Model:=Model) rs).
Proof.
  unfold MlModel.detect_drift.
  apply preserves_bind; [apply _|preserves_go idtac|intros r0].
  apply preserves_bind; [apply _| |intros d].
  - apply ml_drift_loop_frame; [apply _|]. intros fs st. paired_ml.
  - unfold_ml. preserves_go paired_ml.
Qed.

Lemma ml_train_model_paired :
  preserves ml_history_paired
    (MlModel.train_model (Label:=Label) (Model:=Model)).
Proof. unfold_ml. preserves_go paired_ml. Qed.

Lemma ml_cycle_paired (w : world Label) :
  preserves ml_history_paired (MlModel.cycle (Model:=Model) w).
Proof.
  unfold MlModel.cycle.
  apply preserves_bind; [apply _|apply ml_fetch_records_paired|intros records].
  apply preserves_bind; [apply _| |intros ?; unfold_ml; preserves_go paired_ml].
  destruct records as [[|r rs]|]; [preserves_go idtac| |preserves_go idtac].
  apply preserves_bind;
    [apply _|apply ml_detect_feature_changes_paired|intros ?].
  apply preserves_bind; [apply _|apply ml_detect_drift_paired|intros ?].
  apply preserves_bind; [apply _|apply ml_append_records_paired|intros ?].
  apply preserves_bind; [apply _|apply ml_train_model_paired|intros ?].
  unfold_ml. preserves_go paired_ml.
Qed.

Lemma ml_loop_paired (ws : list (world Label))
  (st : MlModel.state Label Model) :
  ml_history_paired st (MlModel.ingestion_loop ws st).2.
Proof.
  revert st. induction ws as [|w ws IH]; intros st; cbn.
  - destruct (decide (MlModel.current_cycle st < MlModel.TRAIN_CYCLES)%Z);
      cbn; [reflexivity|paired_ml].
  - destruct (decide (MlModel.current_cycle st < MlModel.TRAIN_CYCLES)%Z);
      cbn; [|paired_ml].
    pose proof (ml_cycle_paired w st) as H.
    destruct (MlModel.cycle w st) as [[[]|e] st1]; cbn in H |- *; [|done].
    etrans; [exact H|apply IH].
Qed.

End MlHistories.

(** X4.  In ml_model.py features and labels enter the history only
    together: over any run of [ingestion_loop], however its cycles end, the
    two histories grow by the same list of (features, label) pairs, and
    nothing is ever removed from them.  From the initial state they have
    the same length at every point. *)
Theorem ml_histories_stay_paired {Label Model} {lib : PyLib Label Model}
  (ws : list (world Label)) :
  (forall st : MlModel.state Label Model,
     exists ps : list (list float * Label),
       MlModel.X (MlModel.ingestion_loop ws st).2 = MlModel.X st ++ ps.*1 /\
       MlModel.y (MlModel.ingestion_loop ws st).2 = MlModel.y st ++ ps.*2) /\
  (forall m0 : Model,
     length (MlModel.X (MlModel.ingestion_loop ws (MlModel.init m0)).2)
     = length (MlModel.y (MlModel.ingestion_loop ws (MlModel.init m0)).2)).
Proof.
  split.
  - intros st. apply ml_loop_paired.
  - intros m0. destruct (ml_loop_paired ws (MlModel.init m0)) as (ps & -> & ->).
    cbn. by rewrite !length_fmap.
Qed.

Section MlIngestion.
Context {Label Model : Type} {lib : PyLib Label Model}.

Lemma ml_detect_feature_changes_keeps_ingested (rs : list (record Label)) :
  preserves ml_keeps_ingested
    (MlModel.detect_feature_changes (Model:=Model) rs).
Proof. unfold_ml. preserves_go keeps_ingested_ml. Qed.

Lemma ml_detect_drift_keeps_ingested (rs : list (record Label)) :
  preserves ml_keeps_ingested (MlModel.detect_drift (Model:=Model) rs).
Proof.
  unfold MlModel.detect_drift.
  apply preserves_bind; [apply _|preserves_go idtac|intros r0].
  apply preserves_bind; [apply _| |intros d].
  - apply ml_drift_loop_frame; [apply _|]. intros fs st. keeps_ingested_ml.
  - unfold_ml. preserves_go keeps_ingested_ml.
Qed.

Lemma ml_train_model_keeps_ingested :
  preserves ml_keeps_ingested
    (MlModel.train_model (Label:=Label) (Model:=Model)).
Proof. unfold_ml. preserves_go keeps_ingested_ml. Qed.

(** A cycle of ml_model.py that fetched a non-empty batch and returned. *)
Lemma ml_cycle_ingests (w : world Label) (resp : response Label)
  (data : payload Label) (r0 : record Label) (rs : list (record Label))
  (st : MlModel.state Label Model) :
  w_get w = Ret resp -> status_code resp ≠ 503%Z -> json resp = Ret data ->
  MlModel.records_of data = r0 :: rs ->
  (MlModel.cycle w st).1 = Ret tt ->
  let st' := (MlModel.cycle w st).2 in
  MlModel.X st' = MlModel.X st ++ (pairs_of (r0 :: rs)).*1 /\
  MlModel.y st' = MlModel.y st ++ (pairs_of (r0 :: rs)).*2 /\
  records_processed_total (MlModel.registry st')
  = (records_processed_total (MlModel.registry st)
     + Z.of_nat (length (r0 :: rs)))%Z.
Proof.
  intros Hget Hs Hj Hr. cbv zeta.
  pose proof (ml_fetch_records_spec w resp data st Hget Hs Hj) as E0.
  rewrite Hr in E0. unfold MlModel.cycle.
  rewrite (bind_ret_eq _ _ _ _ _ E0).
  match type of E0 with _ = (_, ?s) => set (st0 := s) end.
  destruct (ml_detect_feature_changes_spec r0 rs st0) as (st1 & E1 & _).
  pose proof (ml_detect_feature_changes_keeps_ingested (r0 :: rs) st0) as K1.
  rewrite E1 in K1. cbn [snd] in K1.
  rewrite (bind_bind_ret_eq _ _ _ _ _ _ E1).
  pose proof (ml_detect_drift_keeps_ingested (r0 :: rs) st1) as K2.
  destruct (MlModel.detect_drift (r0 :: rs) st1) as [[[]|e] st2] eqn:E2;
    cbn [snd] in K2.
  - rewrite (bind_bind_ret_eq _ _ _ _ _ _ E2).
    rewrite (bind_bind_ret_eq _ _ _ _ _ _ (ml_append_records_spec _ st2)).
    intros _.
    match goal with
    | |- context [(bind ?c ?k ?s3).2] =>
        assert (K3 : ml_keeps_ingested s3 (bind c k s3).2)
    end.
    { apply (preserves_bind _).
      - apply (preserves_bind _);
          [apply ml_train_model_keeps_ingested|intros acc].
        unfold_ml. preserves_go keeps_ingested_ml.
      - intros ?. unfold_ml. preserves_go keeps_ingested_ml. }
    destruct K1 as (A1 & A2 & A3 & _), K2 as (B1 & B2 & B3 & _),
      K3 as (C1 & C2 & C3 & _).
    rewrite C1, C2, C3. cbn. rewrite B1, B2, B3, A1, A2, A3. done.
  - rewrite (bind_raise_eq _ _ _ _ _ (bind_raise_eq _ _ _ _ _ E2)). done.
Qed.

Lemma pairs_of_length (rs : list (record Label)) :
  length (pairs_of rs) <= length rs.
Proof.
  induction rs as [|r rs IH]; [done|]. unfold pairs_of in *. cbn.
  destruct (rec_features r), (rec_label r); cbn; lia.
Qed.

End MlIngestion.

(** X5.  A cycle of ml_model.py that fetched a non-empty batch and returned
    has appended to the two histories exactly the records that have both
    features and label, in their order; records missing a member are
    skipped without a trace, yet the processed counter has counted them
    too. *)
Theorem ml_cycle_appends_complete_records
  {Label Model} {lib : PyLib Label Model}
  (w : world Label) (resp : response Label) (r0 : record Label)
  (rs : list (record Label)) (st : MlModel.state Label Model) :
  w_get w = Ret resp -> status_code resp ≠ 503%Z ->
  json resp = Ret (JArray (r0 :: rs)) ->
  (MlModel.cycle w st).1 = Ret tt ->
  let st' := (MlModel.cycle w st).2 in
  MlModel.X st' = MlModel.X st ++ (pairs_of (r0 :: rs)).*1 /\
  MlModel.y st' = MlModel.y st ++ (pairs_of (r0 :: rs)).*2 /\
  length (pairs_of (r0 :: rs)) <= length (r0 :: rs) /\
  records_processed_total (MlModel.registry st')
  = (records_processed_total (MlModel.registry st)
     + Z.of_nat (length (r0 :: rs)))%Z.
Proof.
  intros Hget Hs Hj Hret st'.
  destruct (ml_cycle_ingests w resp (JArray (r0 :: rs)) r0 rs st
              Hget Hs Hj eq_refl Hret) as (H1 & H2 & H3).
  split; [exact H1|]. split; [exact H2|]. split; [|exact H3].
  apply pairs_of_length.
Qed.

(** X5 on a batch whose second record has no label. *)
Lemma ml_cycle_appends_complete_records_witness :
  let w := Toy.ok [Toy.rec [3%float] 1; Record_ (Some [4%float]) None;
                   Toy.rec [5%float] 0] in
  let st' := (MlModel.cycle w (MlModel.init Toy.unfitted)).2 in
  MlModel.X st' = [[3%float]; [5%float]] /\
  MlModel.y st' = [1%Z; 0%Z] /\
  records_processed_total (MlModel.registry st') = 3%Z.
Proof.
  intros w st'.
  destruct (ml_cycle_appends_complete_records (lib:=Toy.lib) w
              (Response 200 (Ret (JArray
                 [Toy.rec [3%float] 1; Record_ (Some [4%float]) None;
                  Toy.rec [5%float] 0])))
              (Toy.rec [3%float] 1)
              [Record_ (Some [4%float]) None; Toy.rec [5%float] 0]
              (MlModel.init Toy.unfitted)) as (H1 & H2 & _ & H3);
    [reflexivity|done|reflexivity|vm_compute; reflexivity|].
  split; [exact H1|]. split; [exact H2|exact H3].
Defined.

(** ** The retrain controller *)

(** X6.  When the accuracy measured on the test part is not below 0.8, both
    files keep the estimator fitted on the train part as the live model:
    one fit, no alert, and the retrain count is not touched. *)
Theorem good_accuracy_keeps_partial_fit
  {Label Model} {lib : PyLib Label Model}
  (X_train X_test : list (list float)) (y_train y_test preds : list Label)
  (m1 : Model) (acc : float) :
  model_predict m1 X_test = Ret preds ->
  accuracy_score y_test preds = Ret acc ->
  py_lt acc RETRAIN_THRESHOLD = false ->
  (forall (entropy : Z) (st : Main.state Label Model),
     20 < length (Main.X_history st) ->
     train_test_split (Main.X_history st) (Main.y_history st) 0.2%float entropy
     = Ret (X_train, X_test, y_train, y_test) ->
     model_fit (Main.model st) X_train y_train = Ret m1 ->
     Main.retraining_logic entropy st
     = (Ret tt,
        Main.State m1 (Main.X_history st) (Main.y_history st)
          (Main.previous_features_count st)
          (set_model_accuracy acc (Main.registry st))
          (Main.trace st ++ [EvFit X_train y_train]))) /\
  (forall st : MlModel.state Label Model,
     4 <= length (MlModel.X st) ->
     train_test_split (MlModel.X st) (MlModel.y st) 0.3%float 42
     = Ret (X_train, X_test, y_train, y_test) ->
     model_fit (MlModel.model st) X_train y_train = Ret m1 ->
     MlModel.train_model st
     = (Ret acc,
        MlModel.State m1 (MlModel.X st) (MlModel.y st)
          (MlModel.retrain_count st) (MlModel.current_cycle st)
          (MlModel.previous_features st) (MlModel.feature_stats st)
          (set_retrain_count_total (MlModel.retrain_count st)
             (set_model_accuracy acc (MlModel.registry st)))
          (MlModel.trace st ++ [EvFit X_train y_train]))).
Proof.
  intros Hp Ha Hlt. split.
  - intros entropy st Hn Hs Hf. unfold_main. run_m.
    destruct (decide (20 < length (Main.X_history st))); [|lia].
    rewrite Hs. cbn. rewrite Hf. cbn. rewrite Hp. cbn. rewrite Ha. cbn.
    rewrite Hlt. reflexivity.
  - intros st Hn Hs Hf. unfold_ml. unfold MlModel.MIN_SAMPLES_TO_TRAIN. run_m.
    destruct (decide (length (MlModel.X st) < 4)); [lia|].
    rewrite Hs. cbn. rewrite Hf. cbn. rewrite Hp. cbn. rewrite Ha. cbn.
    rewrite Hlt. reflexivity.
Qed.

(** X6 on 21 rows with one label: the measured accuracy is 1 and the model
    fitted on the 16 train rows stays. *)
Lemma good_accuracy_keeps_partial_fit_witness :
  Main.model (Main.retraining_logic 0 (Samples.main_agreeing 21)).2
  = Toy.Estimator (repeat [1%float; 2%float] 16) (repeat 1%Z 16).
Proof.
  destruct (good_accuracy_keeps_partial_fit (lib:=Toy.lib)
              (repeat [1%float; 2%float] 16) (repeat [1%float; 2%float] 5)
              (repeat 1%Z 16) (repeat 1%Z 5) (repeat 1%Z 5)
              (Toy.Estimator (repeat [1%float; 2%float] 16) (repeat 1%Z 16))
              1%float) as [HM _]; [reflexivity..|].
  rewrite (HM 0%Z (Samples.main_agreeing 21)); [reflexivity|..];
    [vm_compute; lia|reflexivity..].
Defined.

(** X7.  [train_model] of ml_model.py writes the retrain gauge before it
    counts: whenever it measures an accuracy, the gauge shows the retrain
    count the call started with, so after a call that measured less than
    0.8 the gauge is one behind the count. *)
Theorem ml_retrain_gauge_shows_count_on_entry
  {Label Model} {lib : PyLib Label Model}
  (X_train X_test : list (list float)) (y_train y_test preds : list Label)
  (m1 : Model) (acc : float) (st : MlModel.state Label Model) :
  4 <= length (MlModel.X st) ->
  train_test_split (MlModel.X st) (MlModel.y st) 0.3%float 42
  = Ret (X_train, X_test, y_train, y_test) ->
  model_fit (MlModel.model st) X_train y_train = Ret m1 ->
  model_predict m1 X_test = Ret preds ->
  accuracy_score y_test preds = Ret acc ->
  let st' := (MlModel.train_model st).2 in
  retrain_count_total (MlModel.registry st') = MlModel.retrain_count st /\
  MlModel.retrain_count st'
  = (if py_lt acc RETRAIN_THRESHOLD then MlModel.retrain_count st + 1
     else MlModel.retrain_count st)%Z /\
  (py_lt acc RETRAIN_THRESHOLD = true ->
   retrain_count_total (MlModel.registry st')
   = (MlModel.retrain_count st' - 1)%Z).
Proof.
  intros Hn Hs Hf Hp Ha. cbv zeta.
  unfold_ml. unfold MlModel.MIN_SAMPLES_TO_TRAIN. run_m.
  destruct (decide (length (MlModel.X st) < 4)); [lia|].
  rewrite Hs. cbn. rewrite Hf. cbn. rewrite Hp. cbn. rewrite Ha. cbn.
  destruct (py_lt acc RETRAIN_THRESHOLD); cbn; repeat split; try done; lia.
Qed.

(** X7 on five rows whose measured accuracy is 0: the count is 1, the gauge
    still 0. *)
Lemma ml_retrain_gauge_shows_count_on_entry_witness :
  let st' := (MlModel.train_model (Toy.ml_with_history 5)).2 in
  retrain_count_total (MlModel.registry st') = 0%Z /\
  MlModel.retrain_count st' = 1%Z.
Proof.
  intros st'.
  destruct (ml_retrain_gauge_shows_count_on_entry (lib:=Toy.lib)
              (repeat [1%float; 2%float] 3) (repeat [1%float; 2%float] 2)
              [0%Z; 1%Z; 1%Z] [1%Z; 1%Z] [0%Z; 0%Z]
              (Toy.Estimator (repeat [1%float; 2%float] 3) [0%Z; 1%Z; 1%Z])
              0%float (Toy.ml_with_history 5)) as (H1 & H2 & _);
    [vm_compute; lia|reflexivity..|].
  split; [exact H1|exact H2].
Defined.

(** ** What a fetch can return *)

(** X8.  An empty batch changes nothing but the response-delay gauge.
    main.py then starts the next iteration at once: [continue] skips the
    20 second sleep.  ml_model.py (an empty list, or an object without a
    ['records'] member) skips the cycle, sleeps its 10 seconds and does not
    advance the cycle counter. *)
Theorem empty_batch_changes_nothing {Label Model} {lib : PyLib Label Model}
  (w : world Label) (resp : response Label) (data : payload Label) :
  w_get w = Ret resp -> status_code resp ≠ 503%Z -> json resp = Ret data ->
  (forall st : Main.state Label Model,
     data = JArray [] ->
     Main.cycle w st
     = (Ret tt,
        Main.State (Main.model st) (Main.X_history st) (Main.y_history st)
          (Main.previous_features_count st)
          (set_response_delay_seconds (w_delay w) (Main.registry st))
          (Main.trace st))) /\
  (forall st : MlModel.state Label Model,
     MlModel.records_of data = [] ->
     let st' := (MlModel.cycle w st).2 in
     (MlModel.cycle w st).1 = Ret tt /\
     MlModel.trace st' = MlModel.trace st ++ [EvSleep 10] /\
     MlModel.current_cycle st' = MlModel.current_cycle st /\
     MlModel.X st' = MlModel.X st /\ MlModel.y st' = MlModel.y st /\
     MlModel.previous_features st' = MlModel.previous_features st /\
     MlModel.feature_stats st' = MlModel.feature_stats st /\
     MlModel.model st' = MlModel.model st /\
     MlModel.registry st'
     = set_records_processed_total
         (records_processed_total (MlModel.registry st))
         (set_response_delay_seconds (w_delay w) (MlModel.registry st))).
Proof.
  intros Hget Hs Hj. split; intros st Hd.
  - subst data. unfold_main. run_m. rewrite Hget. cbn.
    destruct (decide (status_code resp = 503%Z)); [done|].
    rewrite Hj. reflexivity.
  - cbv zeta. unfold MlModel.cycle.
    rewrite (bind_ret_eq _ _ _ _ _
               (ml_fetch_records_spec w resp data st Hget Hs Hj)).
    rewrite Hd. unfold MlModel.emit. run_m.
    rewrite Z.add_0_r. done.
Qed.

(** X8 on an empty array. *)
Lemma empty_batch_changes_nothing_witness :
  Main.trace (Main.cycle (Toy.ok []) (Main.init Toy.unfitted)).2 = [] /\
  MlModel.trace (MlModel.cycle (Toy.ok []) (MlModel.init Toy.unfitted)).2
  = [EvSleep 10].
Proof.
  destruct (empty_batch_changes_nothing (lib:=Toy.lib) (Toy.ok [])
              (Response 200 (Ret (JArray []))) (JArray []))
    as [HM HL]; [reflexivity|done|reflexivity|].
  split.
  - by rewrite (HM (Main.init Toy.unfitted) eq_refl).
  - by destruct (HL (MlModel.init Toy.unfitted) eq_refl) as (_ & -> & _).
Defined.

(** X9.  An answer whose body cannot be decoded ([response.json()] raises
    [e]): main.py prints the error and sleeps, nothing else but the delay
    gauge changes.  ml_model.py treats it like an unreachable server: the
    unavailable counter grows by one and the alert "Error fetching data: e"
    is raised, although the server answered; the cycle is skipped. *)
Theorem undecodable_body_is_a_failed_fetch
  {Label Model} {lib : PyLib Label Model}
  (w : world Label) (resp : response Label) (e : exn) :
  w_get w = Ret resp -> status_code resp ≠ 503%Z -> json resp = Raise e ->
  (forall st : Main.state Label Model,
     Main.cycle w st
     = (Ret tt,
        Main.State (Main.model st) (Main.X_history st) (Main.y_history st)
          (Main.previous_features_count st)
          (set_response_delay_seconds (w_delay w) (Main.registry st))
          (Main.trace st ++
             [EvPrint [Lit "Loop Error: "; Str e]; EvSleep 20]))) /\
  (forall st : MlModel.state Label Model,
     MlModel.cycle w st
     = (Ret tt,
        MlModel.State (MlModel.model st) (MlModel.X st) (MlModel.y st)
          (MlModel.retrain_count st) (MlModel.current_cycle st)
          (MlModel.previous_features st) (MlModel.feature_stats st)
          (set_datalake_unavailable
             (datalake_unavailable (MlModel.registry st) + 1)
             (set_response_delay_seconds (w_delay w) (MlModel.registry st)))
          (MlModel.trace st ++
             [EvAlert [Lit "Error fetching data: "; Str e];
              EvPrint [Lit "Error fetching data:"; Lit " "; Str e];
              EvSleep 10]))).
Proof.
  intros Hget Hs Hj. split; intros st.
  - unfold_main. run_m. rewrite Hget. cbn.
    destruct (decide (status_code resp = 503%Z)); [done|].
    rewrite Hj. cbn. by rewrite <- app_assoc.
  - unfold_ml. run_m. rewrite Hget. cbn.
    destruct (decide (status_code resp = 503%Z)); [done|].
    rewrite Hj. cbn. by rewrite <- !app_assoc.
Qed.

(** X9 on a 200 answer that is not JSON. *)
Lemma undecodable_body_is_a_failed_fetch_witness :
  datalake_unavailable
    (Main.registry (Main.cycle Samples.garbled (Main.init Toy.unfitted)).2)
  = 0%Z /\
  datalake_unavailable
    (MlModel.registry
       (MlModel.cycle Samples.garbled (MlModel.init Toy.unfitted)).2)
  = 1%Z.
Proof.
  destruct (undecodable_body_is_a_failed_fetch (lib:=Toy.lib) Samples.garbled
              (Response 200 (Raise (Exn JSONDecodeError "Expecting value")))
              (Exn JSONDecodeError "Expecting value"))
    as [HM HL]; [reflexivity|done|reflexivity|].
  rewrite HM, HL. split; reflexivity.
Defined.

(** X10.  The two files disagree on a payload that is a JSON object with a
    ['records'] member.  ml_model.py takes the member as the batch.
    main.py takes the object itself: it adds the number of its members to
    the processed counter, fails on the first key, and the handler ends the
    cycle with nothing ingested and the schema baseline untouched. *)
Theorem object_payload_only_read_by_ml_model
  {Label Model} {lib : PyLib Label Model}
  (w : world Label) (resp : response Label)
  (members : gmap string (list (record Label))) (rs : list (record Label)) :
  w_get w = Ret resp -> status_code resp ≠ 503%Z ->
  json resp = Ret (JObject members) -> members !! "records" = Some rs ->
  (forall st : Main.state Label Model,
     Main.cycle w st
     = (Ret tt,
        Main.State (Main.model st) (Main.X_history st) (Main.y_history st)
          (Main.previous_features_count st)
          (set_records_processed_total
             (records_processed_total (Main.registry st)
              + Z.of_nat (size members))
             (set_response_delay_seconds (w_delay w) (Main.registry st)))
          (Main.trace st ++
             [EvPrint
                [Lit "Loop Error: ";
                 Str (Exn TypeError "string indices must be integers")];
              EvSleep 20]))) /\
  (forall st : MlModel.state Label Model,
     (MlModel.fetch_records w st).1 = Ret (Some rs) /\
     records_processed_total (MlModel.registry (MlModel.fetch_records w st).2)
     = (records_processed_total (MlModel.registry st)
        + Z.of_nat (length rs))%Z).
Proof.
  intros Hget Hs Hj Hm. split; intros st.
  - unfold_main. run_m. rewrite Hget. cbn.
    destruct (decide (status_code resp = 503%Z)); [done|].
    rewrite Hj. cbn.
    destruct (decide (size members = 0)) as [H0|H0].
    + apply map_size_empty_iff in H0. subst members.
      by rewrite lookup_empty in Hm.
    + cbn. by rewrite <- app_assoc.
  - rewrite (ml_fetch_records_spec w resp _ st Hget Hs Hj). cbn.
    by rewrite Hm.
Qed.

(** X10 on an object whose only member is ['records']. *)
Lemma object_payload_only_read_by_ml_model_witness :
  let w := World (Ret (Response 200 (Ret (JObject
             {["records" := [Toy.rec [1%float] 0; Toy.rec [2%float] 1]]}))))
             0%float 0 in
  Main.X_history (Main.cycle w (Main.init Toy.unfitted)).2 = [] /\
  (MlModel.fetch_records w (MlModel.init Toy.unfitted)).1
  = Ret (Some [Toy.rec [1%float] 0; Toy.rec [2%float] 1]).
Proof.
  intros w.
  destruct (object_payload_only_read_by_ml_model (lib:=Toy.lib) w
              (Response 200 (Ret (JObject
                 {["records" := [Toy.rec [1%float] 0; Toy.rec [2%float] 1]]})))
              {["records" := [Toy.rec [1%float] 0; Toy.rec [2%float] 1]]}
              [Toy.rec [1%float] 0; Toy.rec [2%float] 1])
    as [HM HL]; [reflexivity|done|reflexivity|apply lookup_singleton_eq|].
  split.
  - by rewrite HM.
  - by destruct (HL (MlModel.init Toy.unfitted)) as [-> _].
Defined.

(** ** The cycle counter and the saved files of ml_model.py *)

Lemma dumps_app {Label} (a b : list (event Label)) :
  dumps (a ++ b) = dumps a ++ dumps b.
Proof. apply omap_app. Qed.

#[global] Instance ml_keeps_counter_preorder {Label Model} :
  PreOrder (@ml_keeps_counter Label Model).
Proof.
  split.
  - intros st. split; [done|]. exists []. by rewrite app_nil_r.
  - intros a b c (H1 & e1 & H2 & H3) (H4 & e2 & H5 & H6).
    split; [congruence|]. exists (e1 ++ e2).
    rewrite H5, H2, app_assoc, dumps_app, H3, H6. done.
Qed.

Ltac counter_ml :=
  unfold ml_keeps_counter; cbn; split; [done|trace_grows].

Lemma periodic_saves_nil (lo : Z) : periodic_saves lo lo = [].
Proof. unfold periodic_saves. by rewrite Z.sub_diag. Qed.

Lemma periodic_saves_step (lo hi : Z) :
  (lo < hi)%Z ->
  periodic_saves lo hi
  = (if decide ((lo + 1) `mod` MlModel.SAVE_INTERVAL = 0)%Z
     then [cycle_file (lo + 1)] else [])
    ++ periodic_saves (lo + 1) hi.
Proof.
  intros H. unfold periodic_saves.
  rewrite (seqZ_cons (lo + 1)) by lia.
  replace (Z.succ (lo + 1)) with (lo + 1 + 1)%Z by lia.
  replace (Z.pred (hi - lo)) with (hi - (lo + 1))%Z by lia.
  rewrite filter_cons.
  destruct (decide ((lo + 1) `mod` MlModel.SAVE_INTERVAL = 0)%Z); done.
Qed.

Section MlCounter.
Context {Label Model : Type} {lib : PyLib Label Model}.

Lemma ml_fetch_records_keeps_counter (w : world Label) :
  preserves ml_keeps_counter (MlModel.fetch_records (Model:=Model) w).
Proof. unfold_ml. preserves_go counter_ml. Qed.

Lemma ml_detect_feature_changes_keeps_counter (rs : list (record Label)) :
  preserves ml_keeps_counter
    (MlModel.detect_feature_changes (Model:=Model) rs).
Proof. unfold_ml. preserves_go counter_ml. Qed.

Lemma ml_detect_drift_keeps_counter (rs : list (record Label)) :
  preserves ml_keeps_counter (MlModel.detect_drift (Model:=Model) rs).
Proof.
  unfold MlModel.detect_drift.
  apply preserves_bind; [apply _|preserves_go idtac|intros r0].
  apply preserves_bind; [apply _| |intros d].
  - apply ml_drift_loop_frame; [apply _|]. intros fs st. counter_ml.
  - unfold_ml. preserves_go counter_ml.
Qed.

Lemma ml_append_records_keeps_counter (rs : list (record Label)) :
  preserves ml_keeps_counter (MlModel.append_records (Model:=Model) rs).
Proof. unfold_ml. preserves_go counter_ml. Qed.

Lemma ml_train_model_keeps_counter :
  preserves ml_keeps_counter
    (MlModel.train_model (Label:=Label) (Model:=Model)).
Proof. unfold_ml. preserves_go counter_ml. Qed.

(** One iteration: either it completed, the counter advanced by one and the
    periodic save was made if due, or the counter stands and nothing was
    saved. *)
Lemma ml_cycle_counter (w : world Label) (st : MlModel.state Label Model) :
  let st' := (MlModel.cycle w st).2 in
  let cc := MlModel.current_cycle st in
  exists evs,
    MlModel.trace st' = MlModel.trace st ++ evs /\
    ((ml_completed w st /\ MlModel.current_cycle st' = (cc + 1)%Z /\
      dumps evs = if decide ((cc + 1) `mod` MlModel.SAVE_INTERVAL = 0)%Z
                  then [cycle_file (cc + 1)] else []) \/
     (~ ml_completed w st /\ MlModel.current_cycle st' = cc /\
      dumps evs = [])).
Proof.
  cbv zeta. unfold ml_completed, MlModel.cycle.
  pose proof (ml_fetch_records_keeps_counter w st) as R0.
  destruct (MlModel.fetch_records w st) as [[recs|e] st0] eqn:E0; cbn in R0.
  2:{ rewrite (bind_raise_eq _ _ _ _ _ E0). cbn.
      destruct R0 as (H1 & evs & H2 & H3). exists evs. split; [done|].
      right. split; [intros [? _]; done|done]. }
  rewrite (bind_ret_eq _ _ _ _ _ E0).
  destruct recs as [[|r0 rs]|].
  1,3: unfold MlModel.emit; run_m; destruct R0 as (H1 & evs & H2 & H3);
    exists (evs ++ [EvSleep 10]); rewrite H2, app_assoc;
    (split; [done|]); right;
    (split; [intros (_ & ? & ? & ?); done|]);
    (split; [done|]); by rewrite dumps_app, H3.
  pose proof (ml_detect_feature_changes_keeps_counter (r0 :: rs) st0) as R1.
  destruct (MlModel.detect_feature_changes (r0 :: rs) st0)
    as [[[]|e] st1] eqn:E1; cbn in R1.
  2:{ rewrite (bind_bind_raise_eq _ _ _ _ _ _ E1). cbn.
      destruct (transitivity R0 R1) as (H1 & evs & H2 & H3).
      exists evs. split; [done|]. right. split; [intros [? _]; done|done]. }
  rewrite (bind_bind_ret_eq _ _ _ _ _ _ E1).
  pose proof (ml_detect_drift_keeps_counter (r0 :: rs) st1) as R2.
  destruct (MlModel.detect_drift (r0 :: rs) st1)
    as [[[]|e] st2] eqn:E2; cbn in R2.
  2:{ rewrite (bind_bind_raise_eq _ _ _ _ _ _ E2). cbn.
      destruct (transitivity R0 (transitivity R1 R2)) as (H1 & evs & H2 & H3).
      exists evs. split; [done|]. right. split; [intros [? _]; done|done]. }
  rewrite (bind_bind_ret_eq _ _ _ _ _ _ E2).
  pose proof (ml_append_records_keeps_counter (r0 :: rs) st2) as R3.
  destruct (MlModel.append_records (r0 :: rs) st2)
    as [[[]|e] st3] eqn:E3; cbn in R3.
  2:{ rewrite (bind_bind_raise_eq _ _ _ _ _ _ E3). cbn.
      destruct (transitivity R0 (transitivity R1 (transitivity R2 R3)))
        as (H1 & evs & H2 & H3).
      exists evs. split; [done|]. right. split; [intros [? _]; done|done]. }
  rewrite (bind_bind_ret_eq _ _ _ _ _ _ E3).
  pose proof (ml_train_model_keeps_counter st3) as R4.
  destruct (MlModel.train_model st3) as [[acc|e] st4] eqn:E4; cbn in R4.
  2:{ rewrite (bind_bind_raise_eq _ _ _ _ _ _ E4). cbn.
      destruct (transitivity R0 (transitivity R1 (transitivity R2
                 (transitivity R3 R4)))) as (H1 & evs & H2 & H3).
      exists evs. split; [done|]. right. split; [intros [? _]; done|done]. }
  rewrite (bind_bind_ret_eq _ _ _ _ _ _ E4).
  destruct (transitivity R0 (transitivity R1 (transitivity R2
             (transitivity R3 R4)))) as (H1 & evs & H2 & H3).
  unfold MlModel.emit, MlModel.set_current_cycle. run_m. rewrite H1.
  destruct (decide ((MlModel.current_cycle st + 1) `mod` MlModel.SAVE_INTERVAL
                    = 0)%Z); cbn; rewrite H2, <- !app_assoc;
    eexists; (split; [reflexivity|]); left;
    (split; [split; [done|by eexists _, _]|]); (split; [done|]);
    rewrite dumps_app, H3; reflexivity.
Qed.

(** The loop, from a counter that has not passed [TRAIN_CYCLES]. *)
Lemma ml_loop_saves (ws : list (world Label))
  (st : MlModel.state Label Model) :
  (MlModel.current_cycle st <= MlModel.TRAIN_CYCLES)%Z ->
  let status := (MlModel.ingestion_loop ws st).1 in
  let st' := (MlModel.ingestion_loop ws st).2 in
  (MlModel.current_cycle st <= MlModel.current_cycle st'
   <= MlModel.TRAIN_CYCLES)%Z /\
  (status = Finished <-> MlModel.current_cycle st' = MlModel.TRAIN_CYCLES) /\
  exists evs,
    MlModel.trace st' = MlModel.trace st ++ evs /\
    dumps evs
    = periodic_saves (MlModel.current_cycle st) (MlModel.current_cycle st')
      ++ match status with
         | Finished => [[Lit "ml_model_final.joblib"]]
         | _ => []
         end.
Proof.
  cbv zeta. revert st. induction ws as [|w ws IH]; intros st Hle.
  - cbn [MlModel.ingestion_loop].
    destruct (decide (MlModel.current_cycle st < MlModel.TRAIN_CYCLES)%Z).
    + cbn. split; [lia|]. split; [split; [done|lia]|].
      exists []. by rewrite app_nil_r, periodic_saves_nil.
    + cbn. split; [lia|]. split; [split; [lia|done]|].
      eexists. rewrite <- app_assoc. split; [reflexivity|].
      by rewrite periodic_saves_nil.
  - cbn [MlModel.ingestion_loop].
    destruct (decide (MlModel.current_cycle st < MlModel.TRAIN_CYCLES)%Z).
    2:{ cbn. split; [lia|]. split; [split; [lia|done]|].
        eexists. rewrite <- app_assoc. split; [reflexivity|].
        by rewrite periodic_saves_nil. }
    destruct (ml_cycle_counter w st) as (evs & T & C).
    destruct (MlModel.cycle w st) as [[[]|e] st1] eqn:E; cbn in T, C.
    + assert (Hle1 : (MlModel.current_cycle st1 <= MlModel.TRAIN_CYCLES)%Z).
      { destruct C as [(_ & -> & _)|(_ & -> & _)]; lia. }
      destruct (IH st1 Hle1) as (I1 & I2 & evs' & I3 & I4).
      split; [destruct C as [(_ & C & _)|(_ & C & _)]; lia|].
      split; [done|].
      exists (evs ++ evs'). rewrite I3, T, app_assoc. split; [done|].
      rewrite dumps_app, I4, app_assoc. f_equal.
      destruct C as [(_ & C1 & C2)|(_ & C1 & C2)]; rewrite C2.
      * rewrite (periodic_saves_step (MlModel.current_cycle st)) by lia.
        by rewrite C1.
      * by rewrite C1.
    + cbn. destruct C as [([C _] & _)|(_ & C1 & C2)].
      { rewrite E in C. done. }
      rewrite C1. split; [lia|]. split; [split; [done|lia]|].
      exists evs. split; [done|]. by rewrite periodic_saves_nil, C2.
Qed.

End MlCounter.

(** X11.  ml_model.py counts the cycles that processed a batch: an
    iteration that fetched a non-empty batch and ran to its end advances the
    cycle counter by one and saves [model_cycle_<n>.joblib] exactly when the
    new count [n] is a multiple of [SAVE_INTERVAL]; any other iteration
    (failed fetch, 503, empty batch, a step that raised) leaves the counter
    where it was and saves nothing. *)
Theorem ml_cycle_counts_completed_batches
  {Label Model} {lib : PyLib Label Model}
  (w : world Label) (st : MlModel.state Label Model) :
  let st' := (MlModel.cycle w st).2 in
  let cc := MlModel.current_cycle st in
  let saved := dumps (new_events (MlModel.trace st) (MlModel.trace st')) in
  (ml_completed w st ->
   MlModel.current_cycle st' = (cc + 1)%Z /\
   saved = if decide ((cc + 1) `mod` MlModel.SAVE_INTERVAL = 0)%Z
           then [cycle_file (cc + 1)] else []) /\
  (~ ml_completed w st ->
   MlModel.current_cycle st' = cc /\ saved = []).
Proof.
  cbv zeta. destruct (ml_cycle_counter w st) as (evs & T & C).
  rewrite T, new_events_app.
  split; intros H; destruct C as [(C0 & C1 & C2)|(C0 & C1 & C2)]; done.
Qed.

(** X11 on the fifth processed cycle: the counter goes from 4 to 5 and
    [model_cycle_5.joblib] is saved. *)
Lemma ml_cycle_counts_completed_batches_witness :
  let st := MlModel.State Toy.unfitted [] [] 0 4 ∅ ∅ metrics0 [] in
  let w := Toy.ok [Toy.rec [1%float] 0] in
  MlModel.current_cycle (MlModel.cycle w st).2 = 5%Z /\
  dumps (MlModel.trace (MlModel.cycle w st).2) = [cycle_file 5].
Proof.
  intros st w.
  destruct (ml_cycle_counts_completed_batches (lib:=Toy.lib) w st)
    as [H _].
  destruct H as [H1 H2];
    [split; [reflexivity|eexists _, _; reflexivity]|].
  split; [exact H1|exact H2].
Defined.

(** X12.  The files a run of ml_model.py saves.  From a counter that has not
    passed [TRAIN_CYCLES], over any cycles: the counter never decreases and
    never passes [TRAIN_CYCLES]; the loop ends normally exactly when the
    counter reached it; and the saved files are, in order, the periodic
    files of the multiples of [SAVE_INTERVAL] among the cycles counted,
    followed by [ml_model_final.joblib] if and only if the loop ended
    normally (not when a cycle raised or cycles are still to come). *)
Theorem ml_run_saves_periodic_then_final
  {Label Model} {lib : PyLib Label Model}
  (ws : list (world Label)) (st : MlModel.state Label Model) :
  (MlModel.current_cycle st <= MlModel.TRAIN_CYCLES)%Z ->
  let status := (MlModel.ingestion_loop ws st).1 in
  let st' := (MlModel.ingestion_loop ws st).2 in
  (MlModel.current_cycle st <= MlModel.current_cycle st')%Z /\
  (MlModel.current_cycle st' <= MlModel.TRAIN_CYCLES)%Z /\
  (status = Finished <-> MlModel.current_cycle st' = MlModel.TRAIN_CYCLES) /\
  dumps (new_events (MlModel.trace st) (MlModel.trace st'))
  = periodic_saves (MlModel.current_cycle st) (MlModel.current_cycle st')
    ++ match status with
       | Finished => [[Lit "ml_model_final.joblib"]]
       | _ => []
       end.
Proof.
  intros Hle. cbv zeta.
  destruct (ml_loop_saves ws st Hle) as ([I1 I2] & I3 & evs & I4 & I5).
  rewrite I4, new_events_app. done.
Qed.

(** X12 on six cycles that each fetch one record, from cycle 47: the loop
    stops after three of them, having saved cycle 50 and the final model. *)
Lemma ml_run_saves_periodic_then_final_witness :
  let st := MlModel.State Toy.unfitted [] [] 0 47 ∅ ∅ metrics0 [] in
  let ws := repeat (Toy.ok [Toy.rec [1%float] 0]) 6 in
  (MlModel.ingestion_loop ws st).1 = Finished /\
  dumps (MlModel.trace (MlModel.ingestion_loop ws st).2)
  = [cycle_file 50; [Lit "ml_model_final.joblib"]].
Proof.
  intros st ws.
  destruct (ml_run_saves_periodic_then_final (lib:=Toy.lib) ws st)
    as (_ & _ & H1 & H2); [vm_compute; discriminate|].
  split; [apply H1; reflexivity|].
  change (MlModel.trace (MlModel.ingestion_loop ws st).2)
    with (new_events (MlModel.trace st)
            (MlModel.trace (MlModel.ingestion_loop ws st).2)).
  rewrite H2. reflexivity.
Defined.

(** ** The Removed signal *)

(** X13.  The Removed signal of one call of the schema detector.  main.py
    gives it once, and sets its gauge to 1, exactly when the first record
    has fewer features than the stored count, and never together with the
    Added signal.  ml_model.py gives it once exactly when a stored value is
    missing from the first record, and grows its gauge by the number of
    missing values; it is independent of the Added signal, so a record of
    the same width with one value changed gives both. *)
Theorem removed_signal_per_call {Label Model} {lib : PyLib Label Model}
  (r0 : record Label) :
  (forall (st : Main.state Label Model) (f0 : list float),
     rec_features r0 = Some f0 ->
     let st' := (Main.detect_feature_changes r0 st).2 in
     let evs := new_events (Main.trace st) (Main.trace st') in
     let shrank :=
       bool_decide (length f0 < Main.previous_features_count st) in
     (Main.detect_feature_changes r0 st).1 = Ret tt /\
     count_alerts is_removed_alert_main evs = (if shrank then 1 else 0) /\
     feature_removed (Main.registry st')
     = (if shrank then 1%Z else feature_removed (Main.registry st)) /\
     count_alerts is_added_alert_main evs
     + count_alerts is_removed_alert_main evs <= 1) /\
  (forall (st : MlModel.state Label Model) (rs : list (record Label)),
     let st' := (MlModel.detect_feature_changes (r0 :: rs) st).2 in
     let evs := new_events (MlModel.trace st) (MlModel.trace st') in
     let new_features_set := py_set (default [] (rec_features r0)) in
     let added := new_features_set ∖ MlModel.previous_features st in
     let removed := MlModel.previous_features st ∖ new_features_set in
     (MlModel.detect_feature_changes (r0 :: rs) st).1 = Ret tt /\
     count_alerts is_removed_alert_ml evs
     = (if bool_decide (size removed ≠ 0) then 1 else 0) /\
     feature_removed (MlModel.registry st')
     = (feature_removed (MlModel.registry st) + Z.of_nat (size removed))%Z /\
     count_alerts is_added_alert_ml evs
     = (if bool_decide (size added ≠ 0) then 1 else 0)).
Proof.
  split.
  - intros st f0 Hf. cbv zeta. unfold_main. unfold getitem_features. run_m.
    rewrite Hf. cbn.
    destruct (decide (Main.previous_features_count st ≠ 0)) as [Hp|Hp]; cbn.
    + destruct (decide (Main.previous_features_count st < length f0))
        as [Hl|Hl]; cbn.
      * rewrite bool_decide_eq_false_2 by lia.
        rewrite new_events_app. cbn. split; [done|]. split; [done|].
        split; [done|lia].
      * destruct (decide (length f0 < Main.previous_features_count st))
          as [Hs|Hs]; cbn.
        -- rewrite bool_decide_eq_true_2 by done.
           rewrite new_events_app. cbn. split; [done|]. split; [done|].
           split; [done|lia].
        -- rewrite bool_decide_eq_false_2 by done.
           unfold new_events. rewrite drop_all. cbn. split; [done|].
           split; [done|]. split; [done|lia].
    + rewrite bool_decide_eq_false_2 by lia.
      unfold new_events. rewrite drop_all. cbn. split; [done|].
      split; [done|]. split; [done|lia].
  - intros st rs. cbv zeta. unfold_ml. run_m.
    set (new_features_set := py_set (default [] (rec_features r0))).
    set (added := new_features_set ∖ MlModel.previous_features st).
    set (removed := MlModel.previous_features st ∖ new_features_set).
    destruct (decide (size added ≠ 0)) as [Ha|Ha]; cbn;
      destruct (decide (size removed ≠ 0)) as [Hr|Hr]; cbn.
    all: rewrite ?(bool_decide_eq_true_2 (size removed ≠ 0)) by done.
    all: rewrite ?(bool_decide_eq_false_2 (size removed ≠ 0)) by done.
    all: rewrite ?(bool_decide_eq_true_2 (size added ≠ 0)) by done.
    all: rewrite ?(bool_decide_eq_false_2 (size added ≠ 0)) by done.
    all: rewrite <- ?app_assoc, ?new_events_app.
    all: try (unfold new_events; rewrite drop_all).
    all: cbn; split; [done|]; split; [done|]; split; [lia|done].
Qed.

(** X13 on a record whose second value changed: main.py, which stored the
    count 2, gives no signal; ml_model.py, which stored the values, gives
    both. *)
Lemma removed_signal_per_call_witness :
  let r0 := Toy.rec [1%float; 3%float] 0 in
  let m := Samples.main_agreeing 0 in
  let l := Samples.ml_agreeing 0 in
  count_alerts is_removed_alert_main
    (Main.trace (Main.detect_feature_changes r0 m).2) = 0 /\
  count_alerts is_removed_alert_ml
    (MlModel.trace (MlModel.detect_feature_changes [r0] l).2) = 1 /\
  count_alerts is_added_alert_ml
    (MlModel.trace (MlModel.detect_feature_changes [r0] l).2) = 1.
Proof.
  intros r0 m l.
  destruct (removed_signal_per_call (lib:=Toy.lib) (Model:=Toy.estimator) r0)
    as [HM HL].
  destruct (HM m [1%float; 3%float] eq_refl) as (_ & H1 & _ & _).
  destruct (HL l []) as (_ & H2 & _ & H3).
  split; [exact H1|]. split; [exact H2|exact H3].
Defined.

(** X17.  The Added signal of ml_model.py is by value.  Over two consecutive
    cycles that each fetched a batch, the signal is given once in the
    second cycle exactly when the first record of the later batch holds a
    feature value that the first record of the earlier batch does not hold,
    and the gauge grows by the number of such values, whatever the widths
    of the two records. *)
Theorem ml_added_signal_is_by_value {Label Model} {lib : PyLib Label Model}
  (w1 w2 : world Label) (resp1 resp2 : response Label)
  (r1 r2 : record Label) (rs1 rs2 : list (record Label))
  (st : MlModel.state Label Model) :
  w_get w1 = Ret resp1 -> status_code resp1 ≠ 503%Z ->
  json resp1 = Ret (JArray (r1 :: rs1)) ->
  w_get w2 = Ret resp2 -> status_code resp2 ≠ 503%Z ->
  json resp2 = Ret (JArray (r2 :: rs2)) ->
  let st1 := (MlModel.cycle w1 st).2 in
  let st2 := (MlModel.cycle w2 st1).2 in
  let added :=
    py_set (default [] (rec_features r2))
    ∖ py_set (default [] (rec_features r1)) in
  count_alerts is_added_alert_ml
    (new_events (MlModel.trace st1) (MlModel.trace st2))
  = (if bool_decide (size added ≠ 0) then 1 else 0) /\
  feature_added (MlModel.registry st2)
  = (feature_added (MlModel.registry st1) + Z.of_nat (size added))%Z.
Proof.
  intros Hg1 Hs1 Hj1 Hg2 Hs2 Hj2 st1 st2 added.
  destruct (ml_cycle_batch_spec w1 resp1 (JArray (r1 :: rs1)) r1 rs1 st
              Hg1 Hs1 Hj1 eq_refl) as (B1 & _).
  destruct (ml_cycle_batch_spec w2 resp2 (JArray (r2 :: rs2)) r2 rs2 st1
              Hg2 Hs2 Hj2 eq_refl) as (_ & B2 & B3).
  fold st1 in B1. rewrite B1 in B2, B3. done.
Qed.

(** X17 on records of one feature: the value 1.0 followed by 1.5 is
    signalled, although the width did not change. *)
Lemma ml_added_signal_is_by_value_witness :
  let w1 := Toy.ok [Toy.rec [1%float] 0] in
  let w2 := Toy.ok [Toy.rec [1.5%float] 0] in
  let l1 := (MlModel.cycle w1 (MlModel.init Toy.unfitted)).2 in
  count_alerts is_added_alert_ml
    (new_events (MlModel.trace l1) (MlModel.trace (MlModel.cycle w2 l1).2)) = 1.
Proof.
  intros w1 w2 l1.
  destruct (ml_added_signal_is_by_value (lib:=Toy.lib) w1 w2
              (Response 200 (Ret (JArray [Toy.rec [1%float] 0])))
              (Response 200 (Ret (JArray [Toy.rec [1.5%float] 0])))
              (Toy.rec [1%float] 0) (Toy.rec [1.5%float] 0) [] []
              (MlModel.init Toy.unfitted))
    as [H _]; [reflexivity|done|reflexivity|reflexivity|done|reflexivity|].
  exact H.
Defined.

(** ** When the drift detector raises *)

Section DriftReturns.
Context {Label Model : Type} {lib : PyLib Label Model}.

Lemma column_returns_iff (rs : list (record Label)) (idx : nat) :
  (exists vals, MlModel.column rs idx = Ret vals)
  <-> Forall (fun r => idx < width r) rs.
Proof.
  unfold MlModel.column. induction rs as [|r rs IH]; cbn.
  - split; [constructor|by eexists].
  - rewrite Forall_cons_iff. unfold getitem_features, MlModel.getitem_index.
    unfold width at 1.
    destruct (rec_features r) as [fs|]; cbn.
    + destruct (fs !! idx) as [v|] eqn:Hv.
      * apply lookup_lt_Some in Hv.
        destruct (map_result _ rs) as [bs|e].
        -- split; [|by eexists]. intros _. split; [done|].
           apply IH. by eexists.
        -- split; [intros [? ?]; done|]. intros [_ H].
           apply IH in H as [? ?]. done.
      * apply lookup_ge_None in Hv. split; [intros [? ?]; done|].
        intros [H _]. lia.
    + split; [intros [? ?]; done|]. intros [H _]. lia.
Qed.

Lemma column_returns_values (rs : list (record Label)) (idx : nat)
  (vals : list float) :
  MlModel.column rs idx = Ret vals -> vals = feature_values rs idx.
Proof.
  unfold MlModel.column, feature_values. revert vals.
  induction rs as [|r rs IH]; intros vals; cbn; [by intros [= <-]|].
  unfold getitem_features, MlModel.getitem_index.
  destruct (rec_features r) as [fs|]; cbn; [|discriminate].
  destruct (fs !! idx) as [v|] eqn:Hv; [|discriminate].
  destruct (map_result _ rs) as [bs|e]; [|discriminate].
  intros [= <-]. rewrite (nth_lookup_Some _ _ 0%float _ Hv).
  by rewrite (IH bs eq_refl).
Qed.

Lemma ml_drift_loop_returns_iff (idxs : list nat) (rs : list (record Label))
  (b : bool) (st : MlModel.state Label Model) :
  (exists d, (MlModel.drift_loop idxs rs b st).1 = Ret d)
  <-> Forall (fun idx => Forall (fun r => idx < width r) rs /\
                         exists s, batch_std rs idx = Ret s) idxs.
Proof.
  revert b st. induction idxs as [|idx rest IH]; intros b st.
  - cbn. split; [constructor|by eexists].
  - rewrite Forall_cons_iff, <- column_returns_iff.
    cbn [MlModel.drift_loop]. unfold MlModel.set_feature_stats.
    destruct (MlModel.column rs idx) as [vals|e] eqn:Hc.
    + assert (Hstd : (if decide (1 < length vals)
                      then statistics_stdev vals else Ret 0%float)
                     = batch_std rs idx).
      { rewrite (column_returns_values _ _ _ Hc), feature_values_length.
        reflexivity. }
      run_m. rewrite Hstd.
      destruct (batch_std rs idx) as [s|e]; cbn.
      * rewrite IH. split; [|by intros [_ ?]].
        intros H. split; [|done]. split; by eexists.
      * split; [intros [? ?]; done|]. intros [[_ [? ?]] _]. done.
    + run_m. split; [intros [? ?]; done|]. intros [[[? ?] _] _]. done.
Qed.

End DriftReturns.

(** X14.  [detect_drift] on a non-empty batch returns exactly when no record
    is narrower than the first one (a record without features counts as of
    width 0) and, for a batch of two records or more, [statistics.stdev]
    returns on the values of every feature index of the first record;
    otherwise the comprehension of line 96 or the call of line 98 raises. *)
Theorem detect_drift_returns_iff_columns_are_measurable
  {Label Model} {lib : PyLib Label Model}
  (r0 : record Label) (rs : list (record Label))
  (st : MlModel.state Label Model) :
  (MlModel.detect_drift (r0 :: rs) st).1 = Ret tt
  <-> Forall (fun r => width r0 <= width r) rs /\
      measurable (width r0) (r0 :: rs).
Proof.
  unfold MlModel.detect_drift, MlModel.first_record.
  unfold lift at 1. unfold bind at 1. fold (width r0).
  pose proof (ml_drift_loop_returns_iff (seq 0 (width r0)) (r0 :: rs)
                false st) as HL.
  assert (HF : Forall (fun idx =>
                         Forall (fun r => idx < width r) (r0 :: rs) /\
                         exists s, batch_std (r0 :: rs) idx = Ret s)
                 (seq 0 (width r0))
               <-> Forall (fun r => width r0 <= width r) rs /\
                   measurable (width r0) (r0 :: rs)).
  { rewrite !List.Forall_forall. split.
    - intros H. split.
      + intros r Hr. destruct (width r0) as [|n] eqn:E; [lia|].
        destruct (H n) as [Hn _]; [apply List.in_seq; lia|].
        rewrite List.Forall_forall in Hn.
        specialize (Hn r (or_intror Hr)). lia.
      + intros idx Hi. destruct (H idx) as [_ Hm]; [apply List.in_seq; lia|].
        exact Hm.
    - intros [H Hm] idx Hi. apply List.in_seq in Hi. split.
      + rewrite List.Forall_forall. intros r [<-|Hr]; [lia|].
        specialize (H r Hr). lia.
      + apply Hm. lia. }
  rewrite <- HF, <- HL. unfold bind.
  destruct (MlModel.drift_loop _ _ _ _) as [[d|e] st1]; cbn.
  - split; [by eexists|]. intros _. unfold_ml.
    destruct d; reflexivity.
  - split; [done|]. intros [? ?]. done.
Qed.

(** X14 on two batches of two one-feature records: on the values 1 and 3
    the detector returns; on 1.7e308 and its opposite the squares of the
    deviation overflow, [stdev] raises, and so does the detector. *)
Lemma detect_drift_returns_iff_columns_are_measurable_witness :
  let st := MlModel.init Toy.unfitted in
  (MlModel.detect_drift [Toy.rec [1%float] 0; Toy.rec [3%float] 0] st).1
  = Ret tt /\
  (MlModel.detect_drift
     [Toy.rec [1.7e308%float] 0; Toy.rec [(-1.7e308)%float] 0] st).1
  <> Ret tt.
Proof.
  intros st. split.
  - apply (detect_drift_returns_iff_columns_are_measurable (lib:=Toy.lib)).
    split; [repeat constructor|].
    intros [|idx] Hi; [eexists; reflexivity|cbn in Hi; lia].
  - intros H.
    apply (detect_drift_returns_iff_columns_are_measurable (lib:=Toy.lib))
      in H as [_ Hm].
    destruct (Hm 0 ltac:(cbn; lia)) as [s Hs].
    vm_compute in Hs. discriminate Hs.
Defined.

(** ** Nothing is ever dropped *)

#[global] Instance main_only_grows_preorder {Label Model} :
  PreOrder (@main_only_grows Label Model).
Proof.
  split.
  - intros st. unfold main_only_grows. repeat split; try reflexivity.
  - intros a b c (A1 & A2 & A3 & A4 & A5 & A6) (B1 & B2 & B3 & B4 & B5 & B6).
    unfold main_only_grows.
    repeat split; try (etrans; eassumption); lia.
Qed.

#[global] Instance ml_only_grows_preorder {Label Model} :
  PreOrder (@ml_only_grows Label Model).
Proof.
  split.
  - intros st. unfold ml_only_grows. repeat split; try reflexivity.
  - intros a b c (A1 & A2 & A3 & A4 & A5 & A6 & A7)
      (B1 & B2 & B3 & B4 & B5 & B6 & B7).
    unfold ml_only_grows.
    repeat split; try (etrans; eassumption); lia.
Qed.

Ltac only_grows :=
  cbn; rewrite <- ?app_assoc; repeat split;
  first [ reflexivity | by apply prefix_app_r | lia ].

Section OnlyGrows.
Context {Label Model : Type} {lib : PyLib Label Model}.

Lemma main_cycle_only_grows (w : world Label) :
  preserves main_only_grows (Main.cycle (Model:=Model) w).
Proof.
  unfold_main. preserves_go ltac:(unfold main_only_grows; only_grows).
Qed.

Lemma main_loop_only_grows (ws : list (world Label))
  (st : Main.state Label Model) :
  main_only_grows st (Main.ingestion_and_retrain_loop ws st).2.
Proof.
  revert st. induction ws as [|w ws IH]; intros st; cbn; [reflexivity|].
  pose proof (main_cycle_only_grows w st) as H.
  destruct (Main.cycle w st) as [[[]|e] st1]; cbn in H |- *; [|done].
  etrans; [exact H|apply IH].
Qed.

Lemma ml_train_model_only_grows :
  preserves ml_only_grows (MlModel.train_model (Label:=Label) (Model:=Model)).
Proof.
  intros st. unfold ml_only_grows. unfold_ml. run_m. split_cases; only_grows.
Qed.

Lemma ml_cycle_only_grows (w : world Label) :
  preserves ml_only_grows (MlModel.cycle (Model:=Model) w).
Proof.
  unfold MlModel.cycle.
  apply preserves_bind; [apply _| |intros records].
  { unfold_ml. preserves_go ltac:(unfold ml_only_grows; only_grows). }
  apply preserves_bind; [apply _| |intros ?; unfold_ml;
    preserves_go ltac:(unfold ml_only_grows; only_grows)].
  destruct records as [[|r rs]|]; [preserves_go idtac| |preserves_go idtac].
  apply preserves_bind; [apply _| |intros ?].
  { unfold_ml. preserves_go ltac:(unfold ml_only_grows; only_grows). }
  apply preserves_bind; [apply _| |intros ?].
  { unfold MlModel.detect_drift.
    apply preserves_bind; [apply _|preserves_go idtac|intros r0].
    apply preserves_bind; [apply _| |intros d].
    - apply ml_drift_loop_frame; [apply _|]. intros fs st.
      unfold ml_only_grows; only_grows.
    - unfold_ml. preserves_go ltac:(unfold ml_only_grows; only_grows). }
  apply preserves_bind; [apply _| |intros ?].
  { unfold_ml. preserves_go ltac:(unfold ml_only_grows; only_grows). }
  apply preserves_bind; [apply _|apply ml_train_model_only_grows|intros acc].
  intros st. unfold ml_only_grows. unfold_ml. run_m.
  destruct (decide _); only_grows.
Qed.

Lemma ml_loop_only_grows (ws : list (world Label))
  (st : MlModel.state Label Model) :
  ml_only_grows st (MlModel.ingestion_loop ws st).2.
Proof.
  revert st. induction ws as [|w ws IH]; intros st;
    cbn [MlModel.ingestion_loop];
    destruct (decide (MlModel.current_cycle st < MlModel.TRAIN_CYCLES)%Z);
    cbn; try reflexivity.
  1,3: unfold ml_only_grows; cbn; repeat split; try reflexivity;
    rewrite <- app_assoc; by apply prefix_app_r.
  pose proof (ml_cycle_only_grows w st) as H.
  destruct (MlModel.cycle w st) as [[[]|e] st1]; cbn in H |- *; [|done].
  etrans; [exact H|apply IH].
Qed.

End OnlyGrows.

(** X15.  Neither loop ever drops anything: over any cycles, whatever they
    meet, the feature and label histories and the output are only
    extended, and the processed-records counter, the unavailable counter,
    the retrain counter and the cycle counter never decrease. *)
Theorem loops_only_grow {Label Model} {lib : PyLib Label Model}
  (ws : list (world Label)) :
  (forall st : Main.state Label Model,
     main_only_grows st (Main.ingestion_and_retrain_loop ws st).2) /\
  (forall st : MlModel.state Label Model,
     ml_only_grows st (MlModel.ingestion_loop ws st).2).
Proof.
  split; intros st; [apply main_loop_only_grows|apply ml_loop_only_grows].
Qed.

(** ** When ml_model.py trains *)

Lemma fits_app {Label} (a b : list (event Label)) :
  fits (a ++ b) = fits a ++ fits b.
Proof. apply omap_app. Qed.

#[global] Instance ml_keeps_model_preorder {Label Model} :
  PreOrder (@ml_keeps_model Label Model).
Proof.
  split.
  - intros st. repeat split; try done. exists []. by rewrite app_nil_r.
  - intros a b c (H1 & H2 & e1 & H3 & H4) (H5 & H6 & e2 & H7 & H8).
    repeat split; try congruence. exists (e1 ++ e2).
    rewrite H7, H3, app_assoc, fits_app, H4, H8. done.
Qed.

Ltac keeps_model_ml :=
  unfold ml_keeps_model; cbn; repeat split; try done; trace_grows.

Section MlTrains.
Context {Label Model : Type} {lib : PyLib Label Model}.

Lemma ml_fetch_records_keeps_model (w : world Label) :
  preserves ml_keeps_model (MlModel.fetch_records (Model:=Model) w).
Proof. unfold_ml. preserves_go keeps_model_ml. Qed.

Lemma ml_detect_feature_changes_keeps_model (rs : list (record Label)) :
  preserves ml_keeps_model (MlModel.detect_feature_changes (Model:=Model) rs).
Proof. unfold_ml. preserves_go keeps_model_ml. Qed.

Lemma ml_detect_drift_keeps_model (rs : list (record Label)) :
  preserves ml_keeps_model (MlModel.detect_drift (Model:=Model) rs).
Proof.
  unfold MlModel.detect_drift.
  apply preserves_bind; [apply _|preserves_go idtac|intros r0].
  apply preserves_bind; [apply _| |intros d].
  - apply ml_drift_loop_frame; [apply _|]. intros fs st. keeps_model_ml.
  - unfold_ml. preserves_go keeps_model_ml.
Qed.

Lemma ml_append_records_keeps_model (rs : list (record Label)) :
  preserves ml_keeps_model (MlModel.append_records (Model:=Model) rs).
Proof. unfold_ml. preserves_go keeps_model_ml. Qed.

(** [train_model]: below the floor it is the identity and returns 0.0; from
    the floor on, a call that returns has fitted once, on the train part of
    the split of the whole history. *)
Lemma ml_train_model_fits (st : MlModel.state Label Model) :
  let st1 := (MlModel.train_model st).2 in
  MlModel.X st1 = MlModel.X st /\ MlModel.y st1 = MlModel.y st /\
  exists evs,
    MlModel.trace st1 = MlModel.trace st ++ evs /\
    ((length (MlModel.X st) < MlModel.MIN_SAMPLES_TO_TRAIN /\
      MlModel.train_model st = (Ret 0%float, st) /\ evs = []) \/
     (MlModel.MIN_SAMPLES_TO_TRAIN <= length (MlModel.X st) /\
      forall acc, (MlModel.train_model st).1 = Ret acc ->
        exists X_train X_test y_train y_test,
          train_test_split (MlModel.X st) (MlModel.y st) 0.3%float 42
          = Ret (X_train, X_test, y_train, y_test) /\
          fits evs = [(X_train, y_train)])).
Proof.
  cbv zeta. unfold_ml. run_m.
  destruct (decide (length (MlModel.X st) < MlModel.MIN_SAMPLES_TO_TRAIN))
    as [Hl|Hl]; cbn.
  { split; [done|]. split; [done|]. exists []. rewrite app_nil_r.
    split; [done|]. left. done. }
  destruct (train_test_split _ _ _ _) as [[[[Xtr Xte] ytr] yte]|e]; cbn.
  2:{ split; [done|]. split; [done|]. exists []. rewrite app_nil_r.
      split; [done|]. right. split; [lia|]. intros acc H. done. }
  destruct (model_fit _ Xtr ytr) as [m1|e]; cbn.
  2:{ split; [done|]. split; [done|]. eexists. split; [reflexivity|].
      right. split; [lia|]. intros acc H. done. }
  destruct (model_predict m1 Xte) as [preds|e]; cbn.
  2:{ split; [done|]. split; [done|]. eexists. split; [reflexivity|].
      right. split; [lia|]. intros acc H. done. }
  destruct (accuracy_score yte preds) as [acc|e]; cbn.
  2:{ split; [done|]. split; [done|]. eexists. split; [reflexivity|].
      right. split; [lia|]. intros acc H. done. }
  destruct (py_lt acc RETRAIN_THRESHOLD); cbn.
  all: split; [done|]; split; [done|]; rewrite <- ?app_assoc;
    eexists; (split; [reflexivity|]); right; (split; [lia|]);
    intros ? _; by eexists _, _, _, _.
Qed.

(** One iteration of ml_model.py and its fits. *)
Lemma ml_cycle_fits (w : world Label) (st : MlModel.state Label Model) :
  let st' := (MlModel.cycle w st).2 in
  exists evs,
    MlModel.trace st' = MlModel.trace st ++ evs /\
    (length (MlModel.X st') < MlModel.MIN_SAMPLES_TO_TRAIN ->
     fits evs = [] /\ MlModel.model st' = MlModel.model st /\
     model_accuracy (MlModel.registry st')
     = model_accuracy (MlModel.registry st)) /\
    (ml_completed w st ->
     MlModel.MIN_SAMPLES_TO_TRAIN <= length (MlModel.X st') ->
     exists X_train X_test y_train y_test,
       train_test_split (MlModel.X st') (MlModel.y st') 0.3%float 42
       = Ret (X_train, X_test, y_train, y_test) /\
       fits evs = [(X_train, y_train)]).
Proof.
  cbv zeta. unfold ml_completed, MlModel.cycle.
  pose proof (ml_fetch_records_keeps_model w st) as R0.
  destruct (MlModel.fetch_records w st) as [[recs|e] st0] eqn:E0; cbn in R0.
  2:{ rewrite (bind_raise_eq _ _ _ _ _ E0). cbn.
      destruct R0 as (H1 & H2 & evs & H3 & H4). exists evs.
      split; [done|]. split; [done|]. intros [? _]. done. }
  rewrite (bind_ret_eq _ _ _ _ _ E0).
  destruct recs as [[|r0 rs]|].
  1,3: unfold MlModel.emit; run_m;
    destruct R0 as (H1 & H2 & evs & H3 & H4);
    exists (evs ++ [EvSleep 10]); rewrite H3, app_assoc;
    (split; [done|]); (split; [by rewrite fits_app, H4|]);
    intros (_ & ? & ? & ?); done.
  pose proof (ml_detect_feature_changes_keeps_model (r0 :: rs) st0) as R1.
  destruct (MlModel.detect_feature_changes (r0 :: rs) st0)
    as [[[]|e] st1] eqn:E1; cbn in R1.
  2:{ rewrite (bind_bind_raise_eq _ _ _ _ _ _ E1). cbn.
      destruct (transitivity R0 R1) as (H1 & H2 & evs & H3 & H4).
      exists evs. split; [done|]. split; [done|]. intros [? _]. done. }
  rewrite (bind_bind_ret_eq _ _ _ _ _ _ E1).
  pose proof (ml_detect_drift_keeps_model (r0 :: rs) st1) as R2.
  destruct (MlModel.detect_drift (r0 :: rs) st1)
    as [[[]|e] st2] eqn:E2; cbn in R2.
  2:{ rewrite (bind_bind_raise_eq _ _ _ _ _ _ E2). cbn.
      destruct (transitivity R0 (transitivity R1 R2))
        as (H1 & H2 & evs & H3 & H4).
      exists evs. split; [done|]. split; [done|]. intros [? _]. done. }
  rewrite (bind_bind_ret_eq _ _ _ _ _ _ E2).
  pose proof (ml_append_records_keeps_model (r0 :: rs) st2) as R3.
  destruct (MlModel.append_records (r0 :: rs) st2)
    as [[[]|e] st3] eqn:E3; cbn in R3.
  2:{ rewrite (bind_bind_raise_eq _ _ _ _ _ _ E3). cbn.
      destruct (transitivity R0 (transitivity R1 (transitivity R2 R3)))
        as (H1 & H2 & evs & H3 & H4).
      exists evs. split; [done|]. split; [done|]. intros [? _]. done. }
  rewrite (bind_bind_ret_eq _ _ _ _ _ _ E3).
  destruct (transitivity R0 (transitivity R1 (transitivity R2 R3)))
    as (H1 & H2 & evs & H3 & H4).
  destruct (ml_train_model_fits st3) as (T1 & T2 & evt & T3 & T4).
  destruct (MlModel.train_model st3) as [[acc|e] st4] eqn:E4;
    cbn [fst snd] in T1, T2, T3, T4.
  2:{ rewrite (bind_bind_raise_eq _ _ _ _ _ _ E4). cbn.
      exists (evs ++ evt). rewrite T3, H3, app_assoc. split; [done|].
      rewrite T1. destruct T4 as [(_ & T4 & _)|(T4 & _)]; [done|].
      split; [lia|]. intros [? _]. done. }
  rewrite (bind_bind_ret_eq _ _ _ _ _ _ E4).
  unfold MlModel.emit, MlModel.set_current_cycle. run_m.
  destruct (decide ((MlModel.current_cycle st4 + 1) `mod` MlModel.SAVE_INTERVAL
                    = 0)%Z); cbn; rewrite T1, T2, T3, H3, <- !app_assoc;
    eexists; (split; [reflexivity|]); rewrite !fits_app, H4; cbn;
    rewrite app_nil_r.
  all: destruct T4 as [(T4 & T5 & ->)|(T4 & T5)].
  all: try (injection T5 as _ ->).
  all: split; [intros ?; first [done|lia]|]; intros _ ?;
    first [lia|by apply (T5 acc)].
Qed.

End MlTrains.

(** X16.  When ml_model.py trains.  Whatever an iteration meets, if the
    history it leaves has fewer than [MIN_SAMPLES_TO_TRAIN] rows, nothing
    was fitted and the model and the accuracy gauge are the ones it started
    with.  An iteration that completed with at least that many rows fitted
    exactly once, on the train part of the 70/30 split (seed 42) of the
    whole history, the batch of this cycle included. *)
Theorem ml_trains_once_from_four_rows {Label Model} {lib : PyLib Label Model}
  (w : world Label) (st : MlModel.state Label Model) :
  let st' := (MlModel.cycle w st).2 in
  let evs := new_events (MlModel.trace st) (MlModel.trace st') in
  (length (MlModel.X st') < MlModel.MIN_SAMPLES_TO_TRAIN ->
   fits evs = [] /\ MlModel.model st' = MlModel.model st /\
   model_accuracy (MlModel.registry st')
   = model_accuracy (MlModel.registry st)) /\
  (ml_completed w st ->
   MlModel.MIN_SAMPLES_TO_TRAIN <= length (MlModel.X st') ->
   exists X_train X_test y_train y_test,
     train_test_split (MlModel.X st') (MlModel.y st') 0.3%float 42
     = Ret (X_train, X_test, y_train, y_test) /\
     fits evs = [(X_train, y_train)]).
Proof.
  cbv zeta. destruct (ml_cycle_fits w st) as (evs & T & H1 & H2).
  rewrite T, new_events_app. done.
Qed.

(** X16 on a history of three rows that a batch of one record brings to
    four: the cycle fits once. *)
Lemma ml_trains_once_from_four_rows_witness :
  let st := Samples.ml_agreeing 3 in
  let w := Toy.ok [Toy.rec [1%float; 2%float] 1] in
  length (fits (MlModel.trace (MlModel.cycle w st).2)) = 1 /\
  fits (MlModel.trace
          (MlModel.cycle w (Samples.ml_agreeing 2)).2) = [].
Proof.
  intros st w.
  destruct (ml_trains_once_from_four_rows (lib:=Toy.lib) w st) as [_ H].
  destruct H as (Xtr & Xte & ytr & yte & _ & H);
    [split; [reflexivity|eexists _, _; reflexivity]|vm_compute; lia|].
  destruct (ml_trains_once_from_four_rows (lib:=Toy.lib) w
              (Samples.ml_agreeing 2)) as [H' _].
  destruct H' as (H' & _); [vm_compute; lia|].
  split; [|exact H'].
  change (MlModel.trace (MlModel.cycle w st).2)
    with (new_events (MlModel.trace st) (MlModel.trace (MlModel.cycle w st).2)).
  by rewrite H.
Defined.
